(** * NASDAQBot: breakout calculator, risk manager and order manager

    A shallow embedding of [modules/opening_range_breakout.py],
    [modules/risk_manager.py] and [modules/order_manager.py], and of the
    retry wrapper of [modules/alpaca_api.py].

    Numbers.  Python [float] values are embedded as exact rationals [Q]:
    the arithmetic of the source is kept operation by operation, while
    rounding, infinities and NaN are left out.  Python [int] is [Z].

    Effects.  Every method runs in a state-and-exception monad: the state
    holds the object ([self]) together with the part of the outside world
    the method touches (wall clock, the JSON data file, the log stream), and
    an exception leaves the mutations made before it in place, as in
    Python. *)

From Stdlib Require Import ZArith QArith Qabs Qround Qminmax Lia Lqa String
  Ascii List Floats.
From stdpp Require Import gmap strings.
Import ListNotations.

Local Open Scope Q_scope.
Local Open Scope string_scope.

(** ** Python primitives on numbers *)

(** [x < y], [x <= y] and [x == y] on floats, as booleans. *)
Definition py_lt (x y : Q) : bool := negb (Qle_bool y x).
Definition py_le (x y : Q) : bool := Qle_bool x y.
Definition py_eq (x y : Q) : bool := Qeq_bool x y.

(** [min(a, b)] keeps [a] unless [b < a]; [max(a, b)] keeps [a] unless
    [b > a]. *)
Definition py_min (a b : Q) : Q := if py_lt b a then b else a.
Definition py_max (a b : Q) : Q := if py_lt a b then b else a.

Definition py_abs (x : Q) : Q := Qabs x.

(** [int(x)] truncates towards zero. *)
Definition py_int (x : Q) : Z := Z.quot (Qnum x) (Zpos (Qden x)).

(** ** Exceptions, results and the monad *)

Inductive exn : Type :=
| ValueError (msg : string)
| ZeroDivisionError (msg : string)
| OverflowError (msg : string)
| KeyError (msg : string)
| OSError (msg : string)
| RiskLimitExceeded (msg : string)
| AlpacaAPIError (msg : string)
| OrderManagerError (msg : string).

(** [str(e)] *)
Definition str (e : exn) : string :=
  match e with
  | ValueError m | ZeroDivisionError m | OverflowError m | KeyError m
  | OSError m
  | RiskLimitExceeded m | AlpacaAPIError m | OrderManagerError m => m
  end.

Inductive Res (A : Type) : Type :=
| Return (a : A)
| Raise (e : exn).
Arguments Return {A} a.
Arguments Raise {A} e.

Definition M (St A : Type) : Type := St -> Res A * St.

Definition ret {St A} (a : A) : M St A := fun s => (Return a, s).

Definition bind {St A B} (m : M St A) (k : A -> M St B) : M St B :=
  fun s => match m s with
           | (Return a, s') => k a s'
           | (Raise e, s') => (Raise e, s')
           end.

Definition raise {St A} (e : exn) : M St A := fun s => (Raise e, s).

(** [try: m  except Exception as e: h e] *)
Definition try_except {St A} (m : M St A) (h : exn -> M St A) : M St A :=
  fun s => match m s with
           | (Return a, s') => (Return a, s')
           | (Raise e, s') => h e s'
           end.

Definition gets {St A} (f : St -> A) : M St A := fun s => (Return (f s), s).
Definition modify {St} (f : St -> St) : M St unit := fun s => (Return tt, f s).

(** Run a computation on a component of a larger state. *)
Definition zoom {St T A} (get : St -> T) (set : T -> St -> St)
    (m : M T A) : M St A :=
  fun s => let '(r, t') := m (get s) in (r, set t' s).

Declare Scope monad_scope.
Delimit Scope monad_scope with monad.
Notation "x <- m ;; k" := (bind m (fun x => k))
  (at level 100, m at next level, right associativity) : monad_scope.
Notation "m ;;; k" := (bind m (fun _ => k))
  (at level 100, right associativity) : monad_scope.
Local Open Scope monad_scope.

(** [x / y] on floats. *)
Definition py_div {St} (x y : Q) : M St Q :=
  if py_eq y 0 then raise (ZeroDivisionError "float division by zero")
  else ret (x / y).

(** ** The outside world: clock, data file, log stream *)

Inductive Level : Type := DEBUG | INFO | WARNING | ERROR.

(** A log record: its level and the text of the message.  Numbers
    interpolated into a message are not rendered; an interpolated exception
    is rendered with [str]. *)
Record LogRecord : Type := { levelname : Level; message : string }.

(** Dates are day numbers, datetimes are seconds (naive local time). *)
Definition date : Type := Z.
Definition datetime : Type := Z.

Record TradeResult : Type := {
  tr_timestamp : datetime;
  tr_pnl : Q;
  tr_symbol : string;
  tr_quantity : Z;
  tr_entry_price : Q;
  tr_exit_price : Q
}.

(** The value under ['current_date'] in the data file. *)
Inductive DateField : Type :=
| DateMissing                 (* key absent, [null] or empty *)
| DateMalformed               (* not an ISO date *)
| DateIso (d : date).

(** The JSON object stored in [data/risk_manager_data.json]; an absent key
    is [None], a trade entry that lacks a key or does not parse is [None]. *)
Record DailyData : Type := {
  dd_current_date : DateField;
  dd_daily_pnl : option Q;
  dd_trades_today : option Z;
  dd_trade_history : option (list (option TradeResult))
}.

Inductive FileContent : Type :=
| NoFile
| NotJson
| Json (data : DailyData).

Record World : Type := {
  clock : datetime;            (* [datetime.now()] *)
  data_file : FileContent;     (* [data/risk_manager_data.json] *)
  disk_writable : bool;        (* does [open(path, 'w')] succeed? *)
  log : list LogRecord         (* oldest record first *)
}.

Definition seconds_per_day : Z := 86400.

(** [date.today()] *)
Definition date_of (t : datetime) : date := (t / seconds_per_day)%Z.
Definition today (w : World) : date := date_of (clock w).

Definition set_log (l : list LogRecord) (w : World) : World :=
  {| clock := clock w; data_file := data_file w;
     disk_writable := disk_writable w; log := l |}.

Definition set_data_file (f : FileContent) (w : World) : World :=
  {| clock := clock w; data_file := f;
     disk_writable := disk_writable w; log := log w |}.

Definition emit (lvl : Level) (msg : string) (w : World) : World :=
  set_log (log w ++ [{| levelname := lvl; message := msg |}]) w.

(** ** opening_range_breakout.py *)

Record StrategyConfig : Type := {
  breakout_offset_points : Q;
  stop_loss_points : Q;
  risk_reward_ratio : Q;
  min_range_size : Q;
  max_range_size : Q;
  use_dynamic_stops : bool;
  dynamic_stop_multiplier : Q
}.

(** The dataclass defaults. *)
Definition default_config : StrategyConfig := {|
  breakout_offset_points := 15;
  stop_loss_points := 25;
  risk_reward_ratio := 2;
  min_range_size := 5;
  max_range_size := 100;
  use_dynamic_stops := false;
  dynamic_stop_multiplier := 1.5
|}.

Record BreakoutLevels : Type := {
  opening_high : Q;
  opening_low : Q;
  range_size : Q;
  long_entry : Q;
  short_entry : Q;
  long_stop_loss : Q;
  short_stop_loss : Q;
  long_take_profit : Q;
  short_take_profit : Q;
  bl_position_size : Z
}.

Module OpeningRangeBreakout.

Definition logger (lvl : Level) (msg : string) : M World unit :=
  modify (emit lvl msg).

Definition _calculate_stop_distance (config : StrategyConfig)
    (range_size : option Q) : Q :=
  match use_dynamic_stops config, range_size with
  | true, Some range_size =>
      let dynamic_stop := range_size * dynamic_stop_multiplier config in
      py_max (py_min dynamic_stop 50) 15
  | _, _ => stop_loss_points config
  end.

(** [min_range_size < range_size <= max_range_size] *)
Definition _is_valid_range (config : StrategyConfig) (range_size : Q)
    : bool :=
  py_lt (min_range_size config) range_size
  && py_le range_size (max_range_size config).

Definition get_stop_loss_points (config : StrategyConfig)
    (range_size : option Q) : Q :=
  _calculate_stop_distance config range_size.

Definition get_take_profit_points (config : StrategyConfig)
    (stop_loss_points : Q) : Q :=
  stop_loss_points * risk_reward_ratio config.

Definition calculate_breakout_levels (config : StrategyConfig)
    (opening_high opening_low : Q) : M World BreakoutLevels :=
  try_except
    (let range_size := opening_high - opening_low in
     (if negb (_is_valid_range config range_size)
      then raise (ValueError "Invalid range size")
      else ret tt) ;;;
     let long_entry := opening_high + breakout_offset_points config in
     let short_entry := opening_low - breakout_offset_points config in
     let stop_distance := _calculate_stop_distance config (Some range_size) in
     let long_stop_loss := long_entry - stop_distance in
     let short_stop_loss := short_entry + stop_distance in
     let take_profit_distance := stop_distance * risk_reward_ratio config in
     let long_take_profit := long_entry + take_profit_distance in
     let short_take_profit := short_entry - take_profit_distance in
     let breakout_levels := {|
       opening_high := opening_high;
       opening_low := opening_low;
       range_size := range_size;
       long_entry := long_entry;
       short_entry := short_entry;
       long_stop_loss := long_stop_loss;
       short_stop_loss := short_stop_loss;
       long_take_profit := long_take_profit;
       short_take_profit := short_take_profit;
       bl_position_size := 0 |} in
     logger INFO "Breakout levels calculated" ;;;
     ret breakout_levels)
    (fun e =>
       logger ERROR ("Error calculating breakout levels: " ++ str e) ;;;
       raise e).

(** The time of day of a datetime, in seconds since midnight. *)
Definition time_of (t : datetime) : Z := (t mod seconds_per_day)%Z.

(** [09:30] and [15:30] as times of day. *)
Definition market_start : Z := 9 * 3600 + 30 * 60.
Definition market_end : Z := 15 * 3600 + 30 * 60.

(** [market_start <= market_time <= market_end] *)
Definition _is_valid_trade_time (current_time : datetime) : bool :=
  let market_time := time_of current_time in
  (market_start <=? market_time)%Z && (market_time <=? market_end)%Z.

(** A datetime is always truthy, so [if current_time and ...] tests for
    [None] only. *)
Definition should_take_trade (config : StrategyConfig)
    (breakout_levels : BreakoutLevels) (current_time : option datetime)
    : M World bool :=
  try_except
    (if negb (_is_valid_range config (range_size breakout_levels)) then
       logger WARNING "Range size invalid" ;;;
       ret false
     else
       match current_time with
       | Some t =>
           if negb (_is_valid_trade_time t) then
             logger INFO "Outside valid trading hours" ;;;
             ret false
           else ret true
       | None => ret true
       end)
    (fun e =>
       logger ERROR ("Error checking trade validity: " ++ str e) ;;;
       ret false).

End OpeningRangeBreakout.

(** ** risk_manager.py *)

Module RiskManager.

(** The attributes of a [RiskManager] object. *)
Record t : Type := {
  max_daily_loss_percent : Q;
  max_trades_per_day : Z;
  default_risk_percent : Q;
  point_value : Q;
  current_date : option date;
  daily_pnl : Q;
  trades_today : Z;
  trade_history : list TradeResult
}.

(** The state its methods run in: the object and the world. *)
Record Ledger : Type := { self : t; world : World }.

Definition set_current_date (d : option date) (s : t) : t :=
  {| max_daily_loss_percent := max_daily_loss_percent s;
     max_trades_per_day := max_trades_per_day s;
     default_risk_percent := default_risk_percent s;
     point_value := point_value s;
     current_date := d;
     daily_pnl := daily_pnl s;
     trades_today := trades_today s;
     trade_history := trade_history s |}.

Definition set_daily_pnl (p : Q) (s : t) : t :=
  {| max_daily_loss_percent := max_daily_loss_percent s;
     max_trades_per_day := max_trades_per_day s;
     default_risk_percent := default_risk_percent s;
     point_value := point_value s;
     current_date := current_date s;
     daily_pnl := p;
     trades_today := trades_today s;
     trade_history := trade_history s |}.

Definition set_trades_today (n : Z) (s : t) : t :=
  {| max_daily_loss_percent := max_daily_loss_percent s;
     max_trades_per_day := max_trades_per_day s;
     default_risk_percent := default_risk_percent s;
     point_value := point_value s;
     current_date := current_date s;
     daily_pnl := daily_pnl s;
     trades_today := n;
     trade_history := trade_history s |}.

Definition set_trade_history (h : list TradeResult) (s : t) : t :=
  {| max_daily_loss_percent := max_daily_loss_percent s;
     max_trades_per_day := max_trades_per_day s;
     default_risk_percent := default_risk_percent s;
     point_value := point_value s;
     current_date := current_date s;
     daily_pnl := daily_pnl s;
     trades_today := trades_today s;
     trade_history := h |}.

Definition on_self (f : t -> t) (l : Ledger) : Ledger :=
  {| self := f (self l); world := world l |}.

Definition on_world (f : World -> World) (l : Ledger) : Ledger :=
  {| self := self l; world := f (world l) |}.

(** [self.x = v] *)
Definition assign (f : t -> t) : M Ledger unit := modify (on_self f).

Definition logger (lvl : Level) (msg : string) : M Ledger unit :=
  modify (on_world (emit lvl msg)).

(** [with open(path, 'w') as f: json.dump(data, f)] *)
Definition write_json (data : DailyData) : M Ledger unit :=
  fun l =>
    if disk_writable (world l)
    then (Return tt, on_world (set_data_file (Json data)) l)
    else (Raise (OSError "Permission denied"), l).

Definition _save_daily_data : M Ledger unit :=
  try_except
    (s <- gets self ;;
     let data := {|
       dd_current_date :=
         match current_date s with
         | Some d => DateIso d
         | None => DateMissing
         end;
       dd_daily_pnl := Some (daily_pnl s);
       dd_trades_today := Some (trades_today s);
       dd_trade_history := Some (map Some (trade_history s)) |} in
     write_json data)
    (fun e => logger ERROR ("Error saving daily data: " ++ str e)).

(** The loop of [_load_daily_data] over the stored trades: an entry that
    cannot be read raises and leaves the trades read so far in place. *)
Fixpoint load_trade_history (entries : list (option TradeResult))
    : M Ledger unit :=
  match entries with
  | [] => ret tt
  | None :: _ => raise (KeyError "timestamp")
  | Some trade :: rest =>
      h <- gets (fun l => trade_history (self l)) ;;
      assign (set_trade_history (h ++ [trade])) ;;;
      load_trade_history rest
  end.

Definition _load_daily_data : M Ledger unit :=
  try_except
    (w <- gets world ;;
     match data_file w with
     | NoFile => ret tt
     | NotJson => raise (ValueError "Expecting value")
     | Json data =>
         match dd_current_date data with
         | DateMissing => ret tt
         | DateMalformed => raise (ValueError "Invalid isoformat string")
         | DateIso saved_date =>
             if (saved_date =? today w)%Z then
               assign (set_current_date (Some saved_date)) ;;;
               assign (set_daily_pnl (default 0 (dd_daily_pnl data))) ;;;
               assign (set_trades_today
                         (default 0%Z (dd_trades_today data))) ;;;
               assign (set_trade_history []) ;;;
               load_trade_history (default [] (dd_trade_history data)) ;;;
               logger INFO "Loaded daily data"
             else ret tt
         end
     end)
    (fun e => logger ERROR ("Error loading daily data: " ++ str e)).

(** [RiskManager(max_daily_loss_percent, max_trades_per_day,
    default_risk_percent, point_value)], run in world [w]. *)
Definition __init__ (max_daily_loss_percent : Q) (max_trades_per_day : Z)
    (default_risk_percent point_value : Q) (w : World) : Ledger :=
  let fresh := {|
    self := {|
      max_daily_loss_percent := max_daily_loss_percent;
      max_trades_per_day := max_trades_per_day;
      default_risk_percent := default_risk_percent;
      point_value := point_value;
      current_date := None;
      daily_pnl := 0;
      trades_today := 0;
      trade_history := [] |};
    world := w |} in
  snd ((_load_daily_data ;;; logger INFO "Risk manager initialized") fresh).

Definition calculate_position_size (account_equity entry_price stop_price : Q)
    (risk_percent : option Q) : M Ledger Z :=
  try_except
    (s <- gets self ;;
     let risk_percent :=
       match risk_percent with
       | None => default_risk_percent s
       | Some r => r
       end in
     let risk_budget := account_equity * risk_percent in
     let price_risk := py_abs (entry_price - stop_price) in
     let monetary_risk_per_unit := price_risk * point_value s in
     (if py_le monetary_risk_per_unit 0
      then raise (ValueError
             "Invalid price risk - entry and stop prices are the same")
      else ret tt) ;;;
     raw_position_size <- py_div risk_budget monetary_risk_per_unit ;;
     let position_size := py_int raw_position_size in
     position_size <-
       (if (position_size <? 1)%Z then
          let actual_risk := monetary_risk_per_unit in
          actual_risk_percent <- py_div actual_risk account_equity ;;
          logger WARNING "Minimum position size (1) results in" ;;;
          ret 1%Z
        else ret position_size) ;;
     let actual_risk := inject_Z position_size * monetary_risk_per_unit in
     actual_risk_percent <- py_div actual_risk account_equity ;;
     logger INFO "Position sizing" ;;;
     ret position_size)
    (fun e =>
       logger ERROR ("Error calculating position size: " ++ str e) ;;;
       raise (RiskLimitExceeded
                ("Position size calculation failed: " ++ str e))).

Definition days_30 : Z := 30 * seconds_per_day.

Definition reset_daily_limits : M Ledger unit :=
  try_except
    (old_date <- gets (fun l => current_date (self l)) ;;
     d <- gets (fun l => today (world l)) ;;
     assign (set_current_date (Some d)) ;;;
     assign (set_daily_pnl 0) ;;;
     assign (set_trades_today 0) ;;;
     now_ <- gets (fun l => clock (world l)) ;;
     let cutoff_date := (now_ - days_30)%Z in
     h <- gets (fun l => trade_history (self l)) ;;
     assign (set_trade_history
               (filter (fun trade => (cutoff_date <? tr_timestamp trade)%Z) h)) ;;;
     _save_daily_data ;;;
     logger INFO "Daily limits reset")
    (fun e => logger ERROR ("Error resetting daily limits: " ++ str e)).

Definition date_ne (a : option date) (b : date) : bool :=
  match a with
  | Some d => negb (d =? b)%Z
  | None => true
  end.

Definition _ensure_current_date : M Ledger unit :=
  d <- gets (fun l => today (world l)) ;;
  cur <- gets (fun l => current_date (self l)) ;;
  if date_ne cur d then
    (match cur with
     | Some _ => logger INFO "New trading day detected"
     | None => ret tt
     end) ;;;
    reset_daily_limits
  else ret tt.

Definition check_daily_loss (account_equity : Q) (potential_loss : option Q)
    : M Ledger bool :=
  try_except
    (_ensure_current_date ;;;
     s <- gets self ;;
     let max_daily_loss := account_equity * max_daily_loss_percent s in
     let current_loss := py_abs (py_min 0 (daily_pnl s)) in
     let total_potential_loss :=
       match potential_loss with
       | Some p => current_loss + py_abs p
       | None => current_loss
       end in
     let within_limits := py_le total_potential_loss max_daily_loss in
     logger INFO "Daily loss check" ;;;
     (if negb within_limits
      then logger WARNING "Daily loss limit would be exceeded"
      else ret tt) ;;;
     ret within_limits)
    (fun e =>
       logger ERROR ("Error checking daily loss: " ++ str e) ;;;
       ret false).

Definition check_trade_count : M Ledger bool :=
  try_except
    (_ensure_current_date ;;;
     s <- gets self ;;
     let within_limits := (trades_today s <? max_trades_per_day s)%Z in
     logger INFO "Trade count check" ;;;
     (if negb within_limits
      then logger WARNING "Daily trade limit reached"
      else ret tt) ;;;
     ret within_limits)
    (fun e =>
       logger ERROR ("Error checking trade count: " ++ str e) ;;;
       ret false).

Definition can_trade (account_equity : Q) (potential_loss : option Q)
    : M Ledger bool :=
  try_except
    (ok <- check_trade_count ;;
     if negb ok then ret false else
     ok <- check_daily_loss account_equity potential_loss ;;
     if negb ok then ret false else
     ret true)
    (fun e =>
       logger ERROR ("Error checking if can trade: " ++ str e) ;;;
       ret false).

Definition record_trade_result (pnl : Q) (symbol : string) (quantity : Z)
    (entry_price exit_price : Q) : M Ledger unit :=
  try_except
    (_ensure_current_date ;;;
     now_ <- gets (fun l => clock (world l)) ;;
     let trade_result := {|
       tr_timestamp := now_;
       tr_pnl := pnl;
       tr_symbol := symbol;
       tr_quantity := quantity;
       tr_entry_price := entry_price;
       tr_exit_price := exit_price |} in
     s <- gets self ;;
     assign (set_daily_pnl (daily_pnl s + pnl)) ;;;
     assign (set_trades_today (trades_today s + 1)) ;;;
     assign (set_trade_history (trade_history s ++ [trade_result])) ;;;
     _save_daily_data ;;;
     logger INFO "Trade recorded")
    (fun e => logger ERROR ("Error recording trade result: " ++ str e)).

(** The dictionary answered by [get_daily_stats]. *)
Record DailyStats : Type := {
  ds_date : option date;
  ds_daily_pnl : Q;
  ds_trades_today : Z;
  ds_max_trades_per_day : Z;
  ds_max_daily_loss_percent : Q;
  ds_can_trade_more : bool
}.

Definition get_daily_stats : M Ledger DailyStats :=
  _ensure_current_date ;;;
  s <- gets self ;;
  ret {| ds_date := current_date s;
         ds_daily_pnl := daily_pnl s;
         ds_trades_today := trades_today s;
         ds_max_trades_per_day := max_trades_per_day s;
         ds_max_daily_loss_percent := max_daily_loss_percent s;
         ds_can_trade_more :=
           (trades_today s <? max_trades_per_day s)%Z |}.

End RiskManager.

(** ** order_manager.py *)

(** [alpaca_api.OrderParams]; [limit_price] is never set by this module. *)
Record OrderParams : Type := {
  op_symbol : string;
  op_qty : Z;
  op_side : string;
  op_type : string;
  op_time_in_force : string;
  op_stop_price : option Q;
  op_take_profit : option Q;
  op_stop_loss : option Q
}.

(** The dictionaries answered by [submit_order] and [get_order_status]. *)
Record OrderInfo : Type := {
  oi_id : string;
  oi_status : string;
  oi_filled_avg_price : Q
}.

Record BreakoutOrders : Type := {
  long_order_id : option string;
  short_order_id : option string;
  bo_symbol : string;
  bo_long_entry : Q;
  bo_short_entry : Q;
  bo_stop_loss_points : Q;
  bo_take_profit_points : Q;
  bo_position_size : Z
}.

Record TradeExecution : Type := {
  te_order_id : option string;
  te_symbol : string;
  te_side : string;
  te_quantity : Z;
  te_entry_price : Q;
  te_timestamp : datetime;
  te_stop_loss : Q;
  te_take_profit : Q
}.

Module OrderManager.

(** The attributes of an [OrderManager] object other than its two
    collaborators.  [monitor_thread] records whether the polling thread
    has been started; starting it always succeeds, and what the thread
    does afterwards is not part of the model. *)
Record t : Type := {
  active_breakout_orders : gmap string BreakoutOrders;
  executed_trades : list TradeExecution;
  monitoring_active : bool;
  monitor_thread : bool
}.

Section WithBroker.

(** The brokerage behind [self.api]: an arbitrary state and the three
    calls the order manager makes.  Each call either answers or raises
    (after its own retries) and may change the broker. *)
Variable Broker : Type.
Variable submit_order : OrderParams -> M Broker OrderInfo.
Variable cancel_order_api : string -> M Broker bool.
Variable get_order_status : option string -> M Broker OrderInfo.

(** The methods of [self.risk_manager] the order manager calls.  They
    are looked up on the object at call time (the test-suite patches
    them), so they are variables here; the bot passes a [RiskManager],
    whose methods are [RiskManager.can_trade],
    [RiskManager.calculate_position_size] and
    [RiskManager.record_trade_result]. *)
Variable can_trade : Q -> option Q -> M RiskManager.Ledger bool.
Variable calculate_position_size :
  Q -> Q -> Q -> option Q -> M RiskManager.Ledger Z.
Variable record_trade_result :
  Q -> string -> Z -> Q -> Q -> M RiskManager.Ledger unit.

(** The state the methods run in. *)
Record System : Type := {
  self : t;
  risk_manager : RiskManager.t;
  world : World;
  api : Broker
}.

Definition on_self (f : t -> t) (s : System) : System :=
  {| self := f (self s); risk_manager := risk_manager s;
     world := world s; api := api s |}.

Definition on_world (f : World -> World) (s : System) : System :=
  {| self := self s; risk_manager := risk_manager s;
     world := f (world s); api := api s |}.

Definition ledger (s : System) : RiskManager.Ledger :=
  {| RiskManager.self := risk_manager s; RiskManager.world := world s |}.

Definition set_ledger (l : RiskManager.Ledger) (s : System) : System :=
  {| self := self s; risk_manager := RiskManager.self l;
     world := RiskManager.world l; api := api s |}.

Definition set_api (b : Broker) (s : System) : System :=
  {| self := self s; risk_manager := risk_manager s;
     world := world s; api := b |}.

(** [self.risk_manager.m(...)] and [self.api.m(...)] *)
Definition call_risk_manager {A} (m : M RiskManager.Ledger A)
    : M System A := zoom ledger set_ledger m.
Definition call_api {A} (m : M Broker A) : M System A :=
  zoom api set_api m.

Definition logger (lvl : Level) (msg : string) : M System unit :=
  modify (on_world (emit lvl msg)).

Definition set_active (a : gmap string BreakoutOrders) (o : t) : t :=
  {| active_breakout_orders := a;
     executed_trades := executed_trades o;
     monitoring_active := monitoring_active o;
     monitor_thread := monitor_thread o |}.

Definition set_executed (e : list TradeExecution) (o : t) : t :=
  {| active_breakout_orders := active_breakout_orders o;
     executed_trades := e;
     monitoring_active := monitoring_active o;
     monitor_thread := monitor_thread o |}.

Definition set_monitoring (active thread : bool) (o : t) : t :=
  {| active_breakout_orders := active_breakout_orders o;
     executed_trades := executed_trades o;
     monitoring_active := active;
     monitor_thread := thread |}.

Definition start_monitoring : M System unit :=
  active <- gets (fun s => monitoring_active (self s)) ;;
  if active then ret tt else
  modify (on_self (set_monitoring true true)) ;;;
  logger INFO "Order monitoring started".

(** The buy-stop bracket of [place_breakout_orders]. *)
Definition long_order_params (symbol : string) (position_size : Z)
    (long_entry stop_loss_points take_profit_points : Q) : OrderParams :=
  let long_stop_loss := long_entry - stop_loss_points in
  let long_take_profit := long_entry + take_profit_points in
  {| op_symbol := symbol;
     op_qty := position_size;
     op_side := "buy";
     op_type := "stop";
     op_time_in_force := "day";
     op_stop_price := Some long_entry;
     op_take_profit := Some long_take_profit;
     op_stop_loss := Some long_stop_loss |}.

(** The sell-stop bracket of [place_breakout_orders]. *)
Definition short_order_params (symbol : string) (position_size : Z)
    (short_entry stop_loss_points take_profit_points : Q) : OrderParams :=
  let short_stop_loss := short_entry + stop_loss_points in
  let short_take_profit := short_entry - take_profit_points in
  {| op_symbol := symbol;
     op_qty := position_size;
     op_side := "sell";
     op_type := "stop";
     op_time_in_force := "day";
     op_stop_price := Some short_entry;
     op_take_profit := Some short_take_profit;
     op_stop_loss := Some short_stop_loss |}.

Definition place_breakout_orders (symbol : string)
    (long_entry short_entry stop_loss_points take_profit_points
       account_equity : Q) : M System BreakoutOrders :=
  try_except
    (ok <- call_risk_manager (can_trade account_equity None) ;;
     (if negb ok
      then raise (OrderManagerError "Risk limits prevent new trades")
      else ret tt) ;;;
     let long_stop_price := long_entry - stop_loss_points in
     position_size <-
       call_risk_manager
         (calculate_position_size
            account_equity long_entry long_stop_price None) ;;
     (if (position_size <=? 0)%Z
      then raise (OrderManagerError "Invalid position size calculated")
      else ret tt) ;;;
     logger INFO "Placing breakout orders" ;;;
     let long_order_params :=
       long_order_params symbol position_size long_entry
         stop_loss_points take_profit_points in
     let short_order_params :=
       short_order_params symbol position_size short_entry
         stop_loss_points take_profit_points in
     long_order <- call_api (submit_order long_order_params) ;;
     short_order <- call_api (submit_order short_order_params) ;;
     let breakout_orders := {|
       long_order_id := Some (oi_id long_order);
       short_order_id := Some (oi_id short_order);
       bo_symbol := symbol;
       bo_long_entry := long_entry;
       bo_short_entry := short_entry;
       bo_stop_loss_points := stop_loss_points;
       bo_take_profit_points := take_profit_points;
       bo_position_size := position_size |} in
     active <- gets (fun s => active_breakout_orders (self s)) ;;
     modify (on_self (set_active (<[symbol := breakout_orders]> active))) ;;;
     monitoring <- gets (fun s => monitoring_active (self s)) ;;
     (if negb monitoring then start_monitoring else ret tt) ;;;
     logger INFO "Breakout orders placed successfully" ;;;
     ret breakout_orders)
    (fun e =>
       match e with
       | AlpacaAPIError _ | RiskLimitExceeded _ =>
           logger ERROR ("Error placing breakout orders: " ++ str e) ;;;
           raise (OrderManagerError
                    ("Failed to place breakout orders: " ++ str e))
       | _ =>
           logger ERROR
             ("Unexpected error placing breakout orders: " ++ str e) ;;;
           raise (OrderManagerError ("Unexpected error: " ++ str e))
       end).

Definition cancel_order (order_id : string) : M System bool :=
  try_except
    (success <- call_api (cancel_order_api order_id) ;;
     (if success then logger INFO "Order cancelled" else ret tt) ;;;
     ret success)
    (fun e =>
       match e with
       | AlpacaAPIError _ =>
           logger WARNING "Error cancelling order" ;;; ret false
       | _ =>
           logger ERROR "Unexpected error cancelling order" ;;; ret false
       end).

Definition _handle_order_fill (orders : BreakoutOrders) (side : string)
    : M System unit :=
  try_except
    (let filled_order_id :=
       if String.eqb side "long" then long_order_id orders
       else short_order_id orders in
     let opposite_order_id :=
       if String.eqb side "long" then short_order_id orders
       else long_order_id orders in
     order_status <- call_api (get_order_status filled_order_id) ;;
     let entry_price := oi_filled_avg_price order_status in
     (match opposite_order_id with
      | Some id =>
          if String.eqb id "" then ret tt else
          cancel_order id ;;;
          logger INFO "Cancelled opposite order"
      | None => ret tt
      end) ;;;
     let stop_loss :=
       if String.eqb side "long"
       then entry_price - bo_stop_loss_points orders
       else entry_price + bo_stop_loss_points orders in
     let take_profit :=
       if String.eqb side "long"
       then entry_price + bo_take_profit_points orders
       else entry_price - bo_take_profit_points orders in
     now_ <- gets (fun s => clock (world s)) ;;
     let trade_execution := {|
       te_order_id := filled_order_id;
       te_symbol := bo_symbol orders;
       te_side := side;
       te_quantity := bo_position_size orders;
       te_entry_price := entry_price;
       te_timestamp := now_;
       te_stop_loss := stop_loss;
       te_take_profit := take_profit |} in
     done_ <- gets (fun s => executed_trades (self s)) ;;
     modify (on_self (set_executed (done_ ++ [trade_execution]))) ;;;
     logger INFO "Breakout order filled")
    (fun e => logger ERROR ("Error handling order fill: " ++ str e)).

(** The [for trade in self.executed_trades] loop of [on_trade_exit]:
    the body runs for the first trade whose symbol matches and then
    [break]s. *)
Fixpoint on_trade_exit_loop (trades : list TradeExecution)
    (symbol : string) (exit_price pnl : Q) : M System unit :=
  match trades with
  | [] => ret tt
  | trade :: rest =>
      if String.eqb (te_symbol trade) symbol then
        call_risk_manager
          (record_trade_result
             pnl symbol (te_quantity trade) (te_entry_price trade)
             exit_price) ;;;
        logger INFO "Trade exit recorded"
      else on_trade_exit_loop rest symbol exit_price pnl
  end.

Definition on_trade_exit (symbol : string) (exit_price pnl : Q)
    : M System unit :=
  try_except
    (trades <- gets (fun s => executed_trades (self s)) ;;
     on_trade_exit_loop trades symbol exit_price pnl)
    (fun e => logger ERROR ("Error handling trade exit: " ++ str e)).

(** [self.api.cancel_all_orders()] *)
Variable cancel_all_orders_api : M Broker bool.

(** [time.sleep(seconds)]: that much time passes on the clock. *)
Definition sleep (seconds : Z) : M System unit :=
  modify (on_world (fun w =>
    {| clock := (clock w + seconds)%Z; data_file := data_file w;
       disk_writable := disk_writable w; log := log w |})).

(** Is an optional order id truthy: neither [None] nor empty? *)
Definition truthy (id : option string) : option string :=
  match id with
  | Some id => if String.eqb id "" then None else Some id
  | None => None
  end.

Definition cancel_all_pending (symbol : option string) : M System bool :=
  try_except
    (match truthy symbol with
     | Some symbol =>
         active <- gets (fun s => active_breakout_orders (self s)) ;;
         (match active !! symbol with
          | Some orders =>
              (match truthy (long_order_id orders) with
               | Some id => cancel_order id ;;; ret tt
               | None => ret tt
               end) ;;;
              (match truthy (short_order_id orders) with
               | Some id => cancel_order id ;;; ret tt
               | None => ret tt
               end) ;;;
              active <- gets (fun s => active_breakout_orders (self s)) ;;
              modify (on_self (set_active (delete symbol active)))
          | None => ret tt
          end) ;;;
         ret true
     | None =>
         success <- call_api cancel_all_orders_api ;;
         modify (on_self (set_active ∅)) ;;;
         logger INFO "All pending orders cancelled" ;;;
         ret success
     end)
    (fun e =>
       match e with
       | AlpacaAPIError _ =>
           logger ERROR ("Error cancelling pending orders: " ++ str e) ;;;
           ret false
       | _ =>
           logger ERROR
             ("Unexpected error cancelling pending orders: " ++ str e) ;;;
           ret false
       end).

(** Joining the thread only waits for it; the flag is what the thread
    reads. *)
Definition stop_monitoring : M System unit :=
  modify (on_self (fun o => set_monitoring false (monitor_thread o) o)) ;;;
  logger INFO "Order monitoring stopped".

Definition _check_order_status (order_id : string) : M System string :=
  try_except
    (order_status <- call_api (get_order_status (Some order_id)) ;;
     ret (oi_status order_status))
    (fun e =>
       logger WARNING "Error checking order status" ;;;
       ret "unknown").

(** The body of the [for symbol, orders in ...items()] loop of
    [_monitor_orders]: it answers whether the symbol goes on
    [symbols_to_remove]. *)
Definition _monitor_orders_body (orders : BreakoutOrders) : M System bool :=
  long_filled <-
    (match truthy (long_order_id orders) with
     | Some id =>
         long_status <- _check_order_status id ;;
         if String.eqb long_status "filled" then
           _handle_order_fill orders "long" ;;;
           ret true
         else ret false
     | None => ret false
     end) ;;
  if long_filled then ret true else
  match truthy (short_order_id orders) with
  | Some id =>
      short_status <- _check_order_status id ;;
      if String.eqb short_status "filled" then
        _handle_order_fill orders "short" ;;;
        ret true
      else ret false
  | None => ret false
  end.

(** The [for] loop itself, over the items of the table in the order the
    dictionary yields them; it answers [symbols_to_remove]. *)
Fixpoint _monitor_orders_scan (items : list (string * BreakoutOrders))
    : M System (list string) :=
  match items with
  | [] => ret []
  | (symbol, orders) :: rest =>
      filled <- _monitor_orders_body orders ;;
      symbols_to_remove <- _monitor_orders_scan rest ;;
      ret (if filled then symbol :: symbols_to_remove
           else symbols_to_remove)
  end.

(** [for symbol in symbols_to_remove: if symbol in ...: del ...] *)
Definition remove_symbols (symbols : list string)
    (active : gmap string BreakoutOrders) : gmap string BreakoutOrders :=
  fold_left (fun a symbol => delete symbol a) symbols active.

(** One turn of the [while self.monitoring_active] loop of
    [_monitor_orders], entered with the flag set; [items] are the items of
    [active_breakout_orders] in the dictionary's order.  The turn answers
    whether the loop goes on. *)
Definition _monitor_orders_turn (items : list (string * BreakoutOrders))
    : M System bool :=
  try_except
    (symbols_to_remove <- _monitor_orders_scan items ;;
     active <- gets (fun s => active_breakout_orders (self s)) ;;
     modify (on_self (set_active (remove_symbols symbols_to_remove active))) ;;;
     active <- gets (fun s => active_breakout_orders (self s)) ;;
     if decide (active = ∅) then
       modify (on_self (fun o => set_monitoring false (monitor_thread o) o)) ;;;
       ret false
     else
       sleep 10 ;;;
       ret true)
    (fun e =>
       logger ERROR ("Error in order monitoring: " ++ str e) ;;;
       sleep 30 ;;;
       ret true).

(** [get_active_orders] and [get_executed_trades] answer copies. *)
Definition get_active_orders : M System (gmap string BreakoutOrders) :=
  gets (fun s => active_breakout_orders (self s)).

Definition get_executed_trades : M System (list TradeExecution) :=
  gets (fun s => executed_trades (self s)).

Definition has_active_orders (symbol : option string) : M System bool :=
  active <- gets (fun s => active_breakout_orders (self s)) ;;
  match truthy symbol with
  | Some symbol => ret (bool_decide (is_Some (active !! symbol)))
  | None => ret (0 <? size active)%nat
  end.

Definition cleanup : M System unit :=
  try_except
    (stop_monitoring ;;;
     cancel_all_pending None ;;;
     logger INFO "Order manager cleanup completed")
    (fun e => logger ERROR ("Error during cleanup: " ++ str e)).

(** [self.risk_manager.trades_today], read without a rollover check. *)
Definition get_daily_trade_count : M System Z :=
  gets (fun s => RiskManager.trades_today (risk_manager s)).

End WithBroker.

End OrderManager.

(** ** alpaca_api.py: the retry wrapper *)

(** What one call of the wrapped function does: it answers, it raises
    [alpaca_trade_api.rest.APIError] (with its status code, if it has one,
    and its message), or it raises some other exception. *)
Inductive Attempt (A : Type) : Type :=
| Answer (a : A)
| APIError (status_code : option Z) (msg : string)
| OtherError (msg : string).
Arguments Answer {A} a.
Arguments APIError {A} status_code msg.
Arguments OtherError {A} msg.

(** The state of the connector: the remote side, the seconds spent in
    [time.sleep] so far, and the connector's log. *)
Record Connection (R : Type) : Type := {
  remote : R;
  slept : Z;
  api_log : list LogRecord
}.
Arguments remote {R} c.
Arguments slept {R} c.
Arguments api_log {R} c.

Module AlpacaAPI.

(** [str.lower()] and [pattern in text], for ASCII text. *)
Definition lower_char (c : ascii) : ascii :=
  let n := nat_of_ascii c in
  if ((65 <=? n) && (n <=? 90))%nat then ascii_of_nat (n + 32) else c.

Fixpoint lower (text : string) : string :=
  match text with
  | EmptyString => EmptyString
  | String c rest => String (lower_char c) (lower rest)
  end.

Fixpoint contains (pattern text : string) : bool :=
  String.prefix pattern text
  || match text with
     | EmptyString => false
     | String _ rest => contains pattern rest
     end.

Definition retryable_patterns : list string :=
  ["timeout"; "connection"; "network"; "rate limit";
   "too many requests"; "service unavailable"; "internal server error"].

Definition _is_retryable_error (status_code : option Z) (msg : string)
    : bool :=
  let by_message :=
    let error_msg := lower msg in
    existsb (fun pattern => contains pattern error_msg) retryable_patterns in
  match status_code with
  | Some code =>
      if (500 <=? code)%Z || (code =? 429)%Z then true
      else if (400 <=? code)%Z && (code <? 500)%Z then false
      else by_message
  | None => by_message
  end.

Section Retry.

Variables (R A : Type).
Variable func : R -> Attempt A * R.

Definition logger (lvl : Level) (msg : string) : M (Connection R) unit :=
  modify (fun c =>
    {| remote := remote c; slept := slept c;
       api_log := api_log c ++ [{| levelname := lvl; message := msg |}] |}).

Definition sleep (seconds : Z) : M (Connection R) unit :=
  modify (fun c =>
    {| remote := remote c; slept := (slept c + seconds)%Z;
       api_log := api_log c |}).

(** One call of [func] with the arguments given to the wrapper. *)
Definition call : M (Connection R) (Attempt A) :=
  fun c =>
    let '(r, remote') := func (remote c) in
    (Return r, {| remote := remote'; slept := slept c;
                  api_log := api_log c |}).

(** The [for attempt in range(max_retries)] loop from [attempt] on, with
    [remaining] turns left, and the [raise] after it. *)
Fixpoint _retry_loop (remaining : nat) (attempt max_retries : Z)
    (last_exception : string) : M (Connection R) A :=
  match remaining with
  | O =>
      raise (AlpacaAPIError ("API call failed: " ++ last_exception))
  | S remaining =>
      logger DEBUG "API call attempt" ;;;
      result <- call ;;
      match result with
      | Answer a =>
          (if (0 <? attempt)%Z
           then logger INFO "API call succeeded on attempt"
           else ret tt) ;;;
          ret a
      | APIError status_code msg =>
          if _is_retryable_error status_code msg
             && (attempt <? max_retries - 1)%Z
          then
            let wait_time := Z.min (2 ^ attempt) 30 in
            logger WARNING ("Retryable API error: " ++ msg) ;;;
            sleep wait_time ;;;
            _retry_loop remaining (attempt + 1) max_retries msg
          else
            logger ERROR ("API error: " ++ msg) ;;;
            if (attempt =? max_retries - 1)%Z
            then raise (AlpacaAPIError ("API call failed: " ++ msg))
            else _retry_loop remaining (attempt + 1) max_retries msg
      | OtherError msg =>
          logger ERROR ("Unexpected error in API call: " ++ msg) ;;;
          if (attempt =? max_retries - 1)%Z
          then raise (AlpacaAPIError ("Unexpected error: " ++ msg))
          else
            sleep (2 ^ attempt) ;;;
            _retry_loop remaining (attempt + 1) max_retries msg
      end
  end.

Definition _retry_api_call (max_retries : Z) : M (Connection R) A :=
  _retry_loop (Z.to_nat max_retries) 0 max_retries "None".

End Retry.

End AlpacaAPI.

(** * The arithmetic of the source: binary64

    The methods whose answer depends on how a [float] operation rounds, on
    NaN, on an infinity or on an overflow are embedded a second time, on
    the binary64 numbers of the kernel: every [+], [-], [*] and [/] below
    is the IEEE 754 operation, rounded to nearest-even, that Python
    performs on its [float]; comparisons with NaN are false.  The
    embedding above computes the same expressions on exact rationals and
    serves the properties that rounding does not disturb. *)

Module Binary64.

Local Open Scope float_scope.

(** ** Python primitives on [float] *)

Definition py_lt (x y : float) : bool := x <? y.
Definition py_le (x y : float) : bool := x <=? y.
Definition py_eq (x y : float) : bool := x =? y.

(** [min(a, b)] keeps [a] unless [b < a]; [max(a, b)] keeps [a] unless
    [b > a]; with a NaN on either side the first argument is kept. *)
Definition py_min (a b : float) : float := if py_lt b a then b else a.
Definition py_max (a b : float) : float := if py_lt a b then b else a.

Definition py_abs (x : float) : float := abs x.

(** The rational number [(-1)^s * m * 2^e], as a fraction whose
    denominator is a power of two. *)
Definition value (s : bool) (m : positive) (e : Z) : Q :=
  Qmake ((if s then Zneg m else Zpos m) * 2 ^ Z.max 0 e)
        (Z.to_pos (2 ^ Z.max 0 (- e))).

(** The number a float stands for; NaN and the infinities stand for
    none. *)
Definition exact (x : float) : option Q :=
  match Prim2SF x with
  | S754_zero _ => Some 0%Q
  | S754_finite s m e => Some (value s m e)
  | S754_infinity _ | S754_nan => None
  end.

(** [x / y] raises on a zero divisor, of either sign. *)
Definition py_div {St} (x y : float) : M St float :=
  if py_eq y 0 then raise (ZeroDivisionError "float division by zero")
  else ret (x / y).

(** [int(x)] truncates the number towards zero. *)
Definition py_int {St} (x : float) : M St Z :=
  match Prim2SF x with
  | S754_nan => raise (ValueError "cannot convert float NaN to integer")
  | S754_infinity _ =>
      raise (OverflowError "cannot convert float infinity to integer")
  | S754_zero _ => ret 0%Z
  | S754_finite s m e =>
      let q := value s m e in
      ret (Z.quot (Qnum q) (Zpos (Qden q)))
  end.

(** [float(n)], the conversion of the [int] operand of a mixed operation:
    correctly rounded, and an error from [2^1024 - 2^970] on, the first
    integer that rounds beyond the largest float. *)
Definition py_float {St} (n : Z) : M St float :=
  if (2 ^ 1024 - 2 ^ 970 <=? Z.abs n)%Z
  then raise (OverflowError "int too large to convert to float")
  else ret (SF2Prim (binary_normalize prec emax n 0 false)).

(** ** The data file and the world, with [float] amounts *)

Record TradeResult : Type := {
  tr_timestamp : datetime;
  tr_pnl : float;
  tr_symbol : string;
  tr_quantity : Z;
  tr_entry_price : float;
  tr_exit_price : float
}.

Record DailyData : Type := {
  dd_current_date : DateField;
  dd_daily_pnl : option float;
  dd_trades_today : option Z;
  dd_trade_history : option (list (option TradeResult))
}.

Inductive FileContent : Type :=
| NoFile
| NotJson
| Json (data : DailyData).

Record World : Type := {
  clock : datetime;
  data_file : FileContent;
  disk_writable : bool;
  log : list LogRecord
}.

Definition today (w : World) : date := date_of (clock w).

Definition set_log (l : list LogRecord) (w : World) : World :=
  {| clock := clock w; data_file := data_file w;
     disk_writable := disk_writable w; log := l |}.

Definition set_data_file (f : FileContent) (w : World) : World :=
  {| clock := clock w; data_file := f;
     disk_writable := disk_writable w; log := log w |}.

Definition emit (lvl : Level) (msg : string) (w : World) : World :=
  set_log (log w ++ [{| levelname := lvl; message := msg |}]) w.

(** ** opening_range_breakout.py *)

Record StrategyConfig : Type := {
  breakout_offset_points : float;
  stop_loss_points : float;
  risk_reward_ratio : float;
  min_range_size : float;
  max_range_size : float;
  use_dynamic_stops : bool;
  dynamic_stop_multiplier : float
}.

Record BreakoutLevels : Type := {
  opening_high : float;
  opening_low : float;
  range_size : float;
  long_entry : float;
  short_entry : float;
  long_stop_loss : float;
  short_stop_loss : float;
  long_take_profit : float;
  short_take_profit : float;
  bl_position_size : Z
}.

Module OpeningRangeBreakout.

Definition logger (lvl : Level) (msg : string) : M World unit :=
  modify (emit lvl msg).

Definition _calculate_stop_distance (config : StrategyConfig)
    (range_size : option float) : float :=
  match use_dynamic_stops config, range_size with
  | true, Some range_size =>
      let dynamic_stop := range_size * dynamic_stop_multiplier config in
      py_max (py_min dynamic_stop 50) 15
  | _, _ => stop_loss_points config
  end.

(** [min_range_size < range_size <= max_range_size] *)
Definition _is_valid_range (config : StrategyConfig) (range_size : float)
    : bool :=
  py_lt (min_range_size config) range_size
  && py_le range_size (max_range_size config).

Definition calculate_breakout_levels (config : StrategyConfig)
    (opening_high opening_low : float) : M World BreakoutLevels :=
  try_except
    (let range_size := opening_high - opening_low in
     (if negb (_is_valid_range config range_size)
      then raise (ValueError "Invalid range size")
      else ret tt) ;;;
     let long_entry := opening_high + breakout_offset_points config in
     let short_entry := opening_low - breakout_offset_points config in
     let stop_distance := _calculate_stop_distance config (Some range_size) in
     let long_stop_loss := long_entry - stop_distance in
     let short_stop_loss := short_entry + stop_distance in
     let take_profit_distance := stop_distance * risk_reward_ratio config in
     let long_take_profit := long_entry + take_profit_distance in
     let short_take_profit := short_entry - take_profit_distance in
     let breakout_levels := {|
       opening_high := opening_high;
       opening_low := opening_low;
       range_size := range_size;
       long_entry := long_entry;
       short_entry := short_entry;
       long_stop_loss := long_stop_loss;
       short_stop_loss := short_stop_loss;
       long_take_profit := long_take_profit;
       short_take_profit := short_take_profit;
       bl_position_size := 0 |} in
     logger INFO "Breakout levels calculated" ;;;
     ret breakout_levels)
    (fun e =>
       logger ERROR ("Error calculating breakout levels: " ++ str e) ;;;
       raise e).

End OpeningRangeBreakout.

(** ** risk_manager.py *)

Module RiskManager.

Record t : Type := {
  max_daily_loss_percent : float;
  max_trades_per_day : Z;
  default_risk_percent : float;
  point_value : float;
  current_date : option date;
  daily_pnl : float;
  trades_today : Z;
  trade_history : list TradeResult
}.

Record Ledger : Type := { self : t; world : World }.

Definition set_current_date (d : option date) (s : t) : t :=
  {| max_daily_loss_percent := max_daily_loss_percent s;
     max_trades_per_day := max_trades_per_day s;
     default_risk_percent := default_risk_percent s;
     point_value := point_value s;
     current_date := d;
     daily_pnl := daily_pnl s;
     trades_today := trades_today s;
     trade_history := trade_history s |}.

Definition set_daily_pnl (p : float) (s : t) : t :=
  {| max_daily_loss_percent := max_daily_loss_percent s;
     max_trades_per_day := max_trades_per_day s;
     default_risk_percent := default_risk_percent s;
     point_value := point_value s;
     current_date := current_date s;
     daily_pnl := p;
     trades_today := trades_today s;
     trade_history := trade_history s |}.

Definition set_trades_today (n : Z) (s : t) : t :=
  {| max_daily_loss_percent := max_daily_loss_percent s;
     max_trades_per_day := max_trades_per_day s;
     default_risk_percent := default_risk_percent s;
     point_value := point_value s;
     current_date := current_date s;
     daily_pnl := daily_pnl s;
     trades_today := n;
     trade_history := trade_history s |}.

Definition set_trade_history (h : list TradeResult) (s : t) : t :=
  {| max_daily_loss_percent := max_daily_loss_percent s;
     max_trades_per_day := max_trades_per_day s;
     default_risk_percent := default_risk_percent s;
     point_value := point_value s;
     current_date := current_date s;
     daily_pnl := daily_pnl s;
     trades_today := trades_today s;
     trade_history := h |}.

Definition on_self (f : t -> t) (l : Ledger) : Ledger :=
  {| self := f (self l); world := world l |}.

Definition on_world (f : World -> World) (l : Ledger) : Ledger :=
  {| self := self l; world := f (world l) |}.

Definition assign (f : t -> t) : M Ledger unit := modify (on_self f).

Definition logger (lvl : Level) (msg : string) : M Ledger unit :=
  modify (on_world (emit lvl msg)).

Definition write_json (data : DailyData) : M Ledger unit :=
  fun l =>
    if disk_writable (world l)
    then (Return tt, on_world (set_data_file (Json data)) l)
    else (Raise (OSError "Permission denied"), l).

Definition _save_daily_data : M Ledger unit :=
  try_except
    (s <- gets self ;;
     let data := {|
       dd_current_date :=
         match current_date s with
         | Some d => DateIso d
         | None => DateMissing
         end;
       dd_daily_pnl := Some (daily_pnl s);
       dd_trades_today := Some (trades_today s);
       dd_trade_history := Some (map Some (trade_history s)) |} in
     write_json data)
    (fun e => logger ERROR ("Error saving daily data: " ++ str e)).

(** [int(raw_position_size)] and the products and quotients around it
    are those of the source, one rounding each; [position_size *
    monetary_risk_per_unit] converts the [int] first. *)
Definition calculate_position_size
    (account_equity entry_price stop_price : float)
    (risk_percent : option float) : M Ledger Z :=
  try_except
    (s <- gets self ;;
     let risk_percent :=
       match risk_percent with
       | None => default_risk_percent s
       | Some r => r
       end in
     let risk_budget := account_equity * risk_percent in
     let price_risk := py_abs (entry_price - stop_price) in
     let monetary_risk_per_unit := price_risk * point_value s in
     (if py_le monetary_risk_per_unit 0
      then raise (ValueError
             "Invalid price risk - entry and stop prices are the same")
      else ret tt) ;;;
     raw_position_size <- py_div risk_budget monetary_risk_per_unit ;;
     position_size <- py_int raw_position_size ;;
     position_size <-
       (if (position_size <? 1)%Z then
          let actual_risk := monetary_risk_per_unit in
          actual_risk_percent <- py_div actual_risk account_equity ;;
          logger WARNING "Minimum position size (1) results in" ;;;
          ret 1%Z
        else ret position_size) ;;
     size <- py_float position_size ;;
     let actual_risk := size * monetary_risk_per_unit in
     actual_risk_percent <- py_div actual_risk account_equity ;;
     logger INFO "Position sizing" ;;;
     ret position_size)
    (fun e =>
       logger ERROR ("Error calculating position size: " ++ str e) ;;;
       raise (RiskLimitExceeded
                ("Position size calculation failed: " ++ str e))).

Definition reset_daily_limits : M Ledger unit :=
  try_except
    (old_date <- gets (fun l => current_date (self l)) ;;
     d <- gets (fun l => today (world l)) ;;
     assign (set_current_date (Some d)) ;;;
     assign (set_daily_pnl 0) ;;;
     assign (set_trades_today 0) ;;;
     now_ <- gets (fun l => clock (world l)) ;;
     let cutoff_date := (now_ - 30 * seconds_per_day)%Z in
     h <- gets (fun l => trade_history (self l)) ;;
     assign (set_trade_history
               (filter (fun trade => (cutoff_date <? tr_timestamp trade)%Z) h)) ;;;
     _save_daily_data ;;;
     logger INFO "Daily limits reset")
    (fun e => logger ERROR ("Error resetting daily limits: " ++ str e)).

Definition date_ne (a : option date) (b : date) : bool :=
  match a with
  | Some d => negb (d =? b)%Z
  | None => true
  end.

Definition _ensure_current_date : M Ledger unit :=
  d <- gets (fun l => today (world l)) ;;
  cur <- gets (fun l => current_date (self l)) ;;
  if date_ne cur d then
    (match cur with
     | Some _ => logger INFO "New trading day detected"
     | None => ret tt
     end) ;;;
    reset_daily_limits
  else ret tt.

(** [min(0, self.daily_pnl)] compares the [int] 0 with the float; the 0
    it may answer behaves in [abs], [+=] and [<=] as the float 0. *)
Definition check_daily_loss (account_equity : float)
    (potential_loss : option float) : M Ledger bool :=
  try_except
    (_ensure_current_date ;;;
     s <- gets self ;;
     let max_daily_loss := account_equity * max_daily_loss_percent s in
     let current_loss := py_abs (py_min 0 (daily_pnl s)) in
     let total_potential_loss :=
       match potential_loss with
       | Some p => current_loss + py_abs p
       | None => current_loss
       end in
     let within_limits := py_le total_potential_loss max_daily_loss in
     logger INFO "Daily loss check" ;;;
     (if negb within_limits
      then logger WARNING "Daily loss limit would be exceeded"
      else ret tt) ;;;
     ret within_limits)
    (fun e =>
       logger ERROR ("Error checking daily loss: " ++ str e) ;;;
       ret false).

Definition check_trade_count : M Ledger bool :=
  try_except
    (_ensure_current_date ;;;
     s <- gets self ;;
     let within_limits := (trades_today s <? max_trades_per_day s)%Z in
     logger INFO "Trade count check" ;;;
     (if negb within_limits
      then logger WARNING "Daily trade limit reached"
      else ret tt) ;;;
     ret within_limits)
    (fun e =>
       logger ERROR ("Error checking trade count: " ++ str e) ;;;
       ret false).

Definition can_trade (account_equity : float) (potential_loss : option float)
    : M Ledger bool :=
  try_except
    (ok <- check_trade_count ;;
     if negb ok then ret false else
     ok <- check_daily_loss account_equity potential_loss ;;
     if negb ok then ret false else
     ret true)
    (fun e =>
       logger ERROR ("Error checking if can trade: " ++ str e) ;;;
       ret false).

End RiskManager.

End Binary64.

(** * Vocabulary of the statements *)

(** ** Breakout calculator *)

(** What [calculate_breakout_levels] answers for a valid range. *)
Definition levels_of (config : StrategyConfig) (high low : Q)
    : BreakoutLevels :=
  let d :=
    OpeningRangeBreakout._calculate_stop_distance config (Some (high - low)) in
  let off := breakout_offset_points config in
  {| opening_high := high;
     opening_low := low;
     range_size := high - low;
     long_entry := high + off;
     short_entry := low - off;
     long_stop_loss := high + off - d;
     short_stop_loss := low - off + d;
     long_take_profit := high + off + d * risk_reward_ratio config;
     short_take_profit := low - off - d * risk_reward_ratio config;
     bl_position_size := 0 |}.


(** The default configuration with dynamic stops switched on. *)
Definition dynamic_config : StrategyConfig := {|
  breakout_offset_points := 15;
  stop_loss_points := 25;
  risk_reward_ratio := 2;
  min_range_size := 5;
  max_range_size := 100;
  use_dynamic_stops := true;
  dynamic_stop_multiplier := 1.5
|}.

(** A world with an empty log, no data file and a disk that accepts
    writes. *)
Definition quiet_world : World :=
  {| clock := 1705329000%Z; data_file := NoFile;
     disk_writable := true; log := [] |}.

(** ** Risk manager *)

Section LedgerStates.

Import RiskManager.

(** What [_save_daily_data] writes. *)
Definition snapshot (s : t) : DailyData :=
  {| dd_current_date :=
       match current_date s with
       | Some d => DateIso d
       | None => DateMissing
       end;
     dd_daily_pnl := Some (daily_pnl s);
     dd_trades_today := Some (trades_today s);
     dd_trade_history := Some (map Some (trade_history s)) |}.

Definition save_failed : LogRecord :=
  {| levelname := ERROR;
     message := "Error saving daily data: Permission denied" |}.

(** The ledger after [_save_daily_data]. *)
Definition saved (l : Ledger) : Ledger :=
  if disk_writable (world l)
  then on_world (set_data_file (Json (snapshot (self l)))) l
  else on_world (emit ERROR (message save_failed)) l.

(** The ledger after [reset_daily_limits]. *)
Definition reset (l : Ledger) : Ledger :=
  let cutoff := (clock (world l) - days_30)%Z in
  on_world (emit INFO "Daily limits reset")
    (saved
       (on_self
          (fun s =>
             set_trade_history
               (filter (fun trade => (cutoff <? tr_timestamp trade)%Z)
                  (trade_history s))
               (set_trades_today 0
                  (set_daily_pnl 0
                     (set_current_date (Some (today (world l))) s))))
          l)).

(** Is the date held in memory different from today's? *)
Definition stale (l : Ledger) : bool :=
  date_ne (current_date (self l)) (today (world l)).

(** The ledger after [_ensure_current_date]. *)
Definition rollover (l : Ledger) : Ledger :=
  if stale l then
    reset (match current_date (self l) with
           | Some _ => on_world (emit INFO "New trading day detected") l
           | None => l
           end)
  else l.

(** The day's counters as a limit check sees them: those in memory when
    the date in memory is today's, zero when it is stale. *)
Definition dailyPnl (l : Ledger) : Q :=
  if stale l then 0 else daily_pnl (self l).
Definition tradesToday (l : Ledger) : Z :=
  if stale l then 0%Z else trades_today (self l).

Definition logged (lvl : Level) (msg : string) (l : Ledger) : Ledger :=
  on_world (emit lvl msg) l.

(** The answer of [check_trade_count] on a ledger whose date is fresh,
    and the ledger it leaves. *)
Definition count_ok (l : Ledger) : bool :=
  (trades_today (self l) <? max_trades_per_day (self l))%Z.

Definition count_checked (l : Ledger) : Ledger :=
  let l' := logged INFO "Trade count check" l in
  if count_ok l then l' else logged WARNING "Daily trade limit reached" l'.

(** [|potential_loss|], nothing when no potential loss is given. *)
Definition abs_loss (potential_loss : option Q) : Q :=
  match potential_loss with
  | Some p => Qabs p
  | None => 0
  end.

(** The same for [check_daily_loss]. *)
Definition loss_ok (equity : Q) (potential_loss : option Q) (l : Ledger)
    : bool :=
  py_le
    (match potential_loss with
     | Some p => py_abs (py_min 0 (daily_pnl (self l))) + py_abs p
     | None => py_abs (py_min 0 (daily_pnl (self l)))
     end)
    (equity * max_daily_loss_percent (self l)).

Definition loss_checked (equity : Q) (potential_loss : option Q)
    (l : Ledger) : Ledger :=
  let l' := logged INFO "Daily loss check" l in
  if loss_ok equity potential_loss l then l'
  else logged WARNING "Daily loss limit would be exceeded" l'.

Section SizingTerms.

Variables (equity entry stop : Q) (risk_percent : option Q) (l : Ledger).

(** [risk_percent] after the default has been filled in. *)
Definition chosen_risk_percent : Q :=
  match risk_percent with
  | None => default_risk_percent (self l)
  | Some r => r
  end.

(** [monetary_risk_per_unit] and [raw_position_size] of the source. *)
Definition per_unit_risk : Q := py_abs (entry - stop) * point_value (self l).
Definition raw_size : Q := equity * chosen_risk_percent / per_unit_risk.

End SizingTerms.

Section RecordedTrade.

Variables (pnl : Q) (symbol : string) (quantity : Z) (entry exit_ : Q).

(** The [TradeResult] built by [record_trade_result] at time [now]. *)
Definition trade_result_at (now_ : datetime) : TradeResult :=
  {| tr_timestamp := now_;
     tr_pnl := pnl;
     tr_symbol := symbol;
     tr_quantity := quantity;
     tr_entry_price := entry;
     tr_exit_price := exit_ |}.

(** The ledger after [record_trade_result], from the one left by the
    rollover check. *)
Definition recorded (l : Ledger) : Ledger :=
  logged INFO "Trade recorded"
    (saved
       (on_self
          (fun s =>
             set_trade_history
               (trade_history s ++ [trade_result_at (clock (world l))])
               (set_trades_today (trades_today s + 1)
                  (set_daily_pnl (daily_pnl s + pnl) s)))
          l)).

End RecordedTrade.

(** The counters are zero and the date is today's. *)
Definition zeroed (d : date) (s : t) : Prop :=
  daily_pnl s = 0 /\ trades_today s = 0%Z /\ current_date s = Some d.

End LedgerStates.

(** A log record. *)
Definition record (lvl : Level) (msg : string) : LogRecord :=
  {| levelname := lvl; message := msg |}.

(** The trade count stored in the data file, if any. *)
Definition persisted_trades_today (f : FileContent) : option Z :=
  match f with
  | Json data => dd_trades_today data
  | _ => None
  end.

(** A ledger as the test-suite builds it, before and after an 800 loss. *)
Definition test_ledger : RiskManager.Ledger :=
  RiskManager.__init__ 0.02 2 0.005 5 quiet_world.

Definition ledger_after_loss : RiskManager.Ledger :=
  snd (RiskManager.record_trade_result (-800) "MNQ" 4 15000 14800 test_ledger).


(** A world whose disk refuses writes, holding the state of a ledger that
    has recorded nothing today. *)
Definition read_only_world : World :=
  {| clock := 1705329000%Z;
     data_file := Json {| dd_current_date := DateIso 19737%Z;
                          dd_daily_pnl := Some 0;
                          dd_trades_today := Some 0%Z;
                          dd_trade_history := Some [] |};
     disk_writable := false;
     log := [] |}.

Definition read_only_ledger : RiskManager.Ledger :=
  RiskManager.__init__ 0.02 2 0.005 5 read_only_world.

(** A world whose data file was written the day before, with a loss of
    1500 and two trades on record. *)
Definition next_day_world : World :=
  {| clock := 1705415400%Z;
     data_file := Json {| dd_current_date := DateIso 19737%Z;
                          dd_daily_pnl := Some (-1500);
                          dd_trades_today := Some 2%Z;
                          dd_trade_history :=
                            Some [Some {| tr_timestamp := 1705329000%Z;
                                          tr_pnl := -1500;
                                          tr_symbol := "MNQ";
                                          tr_quantity := 4;
                                          tr_entry_price := 15000;
                                          tr_exit_price := 14625 |}] |};
     disk_writable := true;
     log := [] |}.

(** ** Order manager *)

Arguments OrderManager.self {Broker} s.
Arguments OrderManager.risk_manager {Broker} s.
Arguments OrderManager.world {Broker} s.
Arguments OrderManager.api {Broker} s.
Arguments OrderManager.ledger {Broker} s.
Arguments OrderManager.set_ledger {Broker} l s.
Arguments OrderManager.on_self {Broker} f s.
Arguments OrderManager.on_world {Broker} f s.
Arguments OrderManager.call_risk_manager {Broker A} m.
Arguments OrderManager.call_api {Broker A} m.
Arguments OrderManager.logger {Broker} lvl msg.
Arguments OrderManager.on_trade_exit {Broker} record_trade_result.
Arguments OrderManager.on_trade_exit_loop {Broker} record_trade_result.
Arguments OrderManager.place_breakout_orders {Broker} submit_order
  can_trade calculate_position_size.
Arguments OrderManager.start_monitoring {Broker}.

Section ExitCall.

Import OrderManager.

Context {Broker : Type}.
Variable record_trade_result :
  Q -> string -> Z -> Q -> Q -> M RiskManager.Ledger unit.
Variables (symbol : string) (exit_price pnl : Q).


End ExitCall.

(** An order manager, with the risk manager of the test-suite, after two
    fills on MNQ: 4 contracts at 15035, then 3 contracts at 15100. *)
Definition first_fill : TradeExecution :=
  {| te_order_id := Some "long_123"; te_symbol := "MNQ"; te_side := "long";
     te_quantity := 4; te_entry_price := 15035;
     te_timestamp := 1705329000%Z;
     te_stop_loss := 15010; te_take_profit := 15085 |}.

Definition second_fill : TradeExecution :=
  {| te_order_id := Some "long_456"; te_symbol := "MNQ"; te_side := "long";
     te_quantity := 3; te_entry_price := 15100;
     te_timestamp := 1705332600%Z;
     te_stop_loss := 15075; te_take_profit := 15150 |}.

Definition system_with (executed : list TradeExecution)
    : OrderManager.System unit :=
  {| OrderManager.self :=
       {| OrderManager.active_breakout_orders := ∅;
          OrderManager.executed_trades := executed;
          OrderManager.monitoring_active := false;
          OrderManager.monitor_thread := false |};
     OrderManager.risk_manager := RiskManager.self test_ledger;
     OrderManager.world := RiskManager.world test_ledger;
     OrderManager.api := tt |}.

Section PlacementSteps.

Import OrderManager.

Context {Broker : Type}.
Variable submit_order : OrderParams -> M Broker OrderInfo.
Variable can_trade : Q -> option Q -> M RiskManager.Ledger bool.
Variable calculate_position_size :
  Q -> Q -> Q -> option Q -> M RiskManager.Ledger Z.
Variables (symbol : string).
Variables (long_entry short_entry stop_loss_points take_profit_points
             account_equity : Q).
Variable s : System Broker.

(** The steps of [place_breakout_orders], each run where the source runs
    it: the risk check on the ledger of [s], the sizing on the ledger the
    check leaves, the long leg on the broker of [s], the short leg on the
    broker the long leg leaves. *)
Definition risk_check : Res bool * RiskManager.Ledger :=
  can_trade account_equity None (ledger s).

Definition sizing : Res Z * RiskManager.Ledger :=
  calculate_position_size account_equity long_entry
    (long_entry - stop_loss_points) None (snd risk_check).

Definition long_leg (position_size : Z) : Res OrderInfo * Broker :=
  submit_order
    (long_order_params symbol position_size long_entry
       stop_loss_points take_profit_points)
    (api s).

Definition short_leg (position_size : Z) : Res OrderInfo * Broker :=
  submit_order
    (short_order_params symbol position_size short_entry
       stop_loss_points take_profit_points)
    (snd (long_leg position_size)).

Definition placement : Res BreakoutOrders * System Broker :=
  place_breakout_orders submit_order can_trade calculate_position_size
    symbol long_entry short_entry stop_loss_points take_profit_points
    account_equity s.

Definition pair_of (position_size : Z) (long_order short_order : OrderInfo)
    : BreakoutOrders :=
  {| long_order_id := Some (oi_id long_order);
     short_order_id := Some (oi_id short_order);
     bo_symbol := symbol;
     bo_long_entry := long_entry;
     bo_short_entry := short_entry;
     bo_stop_loss_points := stop_loss_points;
     bo_take_profit_points := take_profit_points;
     bo_position_size := position_size |}.

(** How a call ends. *)
Inductive Outcome : Type :=
| Blocked                       (* [can_trade] answered [False] *)
| CheckRaised (e : exn)
| SizingRaised (e : exn)
| BadSize (n : Z)               (* the size is [<= 0] *)
| LongRaised (n : Z) (e : exn)
| ShortRaised (n : Z) (long_order : OrderInfo) (e : exn)
| Placed (n : Z) (long_order short_order : OrderInfo).

Definition outcome : Outcome :=
  match fst risk_check with
  | Raise e => CheckRaised e
  | Return false => Blocked
  | Return true =>
      match fst sizing with
      | Raise e => SizingRaised e
      | Return n =>
          if (n <=? 0)%Z then BadSize n else
          match fst (long_leg n) with
          | Raise e => LongRaised n e
          | Return long_order =>
              match fst (short_leg n) with
              | Raise e => ShortRaised n long_order e
              | Return short_order => Placed n long_order short_order
              end
          end
      end
  end.

Definition is_order_manager_error (e : exn) : Prop :=
  exists msg, e = OrderManagerError msg.

End PlacementSteps.

(** A brokerage that answers from a script, one entry per call, as the
    mock of the test-suite does; an exhausted script raises. *)
Definition Script : Type := list (Res OrderInfo).

Definition scripted_submit (_ : OrderParams) : M Script OrderInfo :=
  fun script =>
    match script with
    | answer :: rest => (answer, rest)
    | [] => (Raise (AlpacaAPIError "no answer"), [])
    end.

Definition accepted (id : string) : OrderInfo :=
  {| oi_id := id; oi_status := "accepted"; oi_filled_avg_price := 0 |}.

Definition trading_system (script : Script) : OrderManager.System Script :=
  {| OrderManager.self :=
       {| OrderManager.active_breakout_orders := ∅;
          OrderManager.executed_trades := [];
          OrderManager.monitoring_active := false;
          OrderManager.monitor_thread := false |};
     OrderManager.risk_manager := RiskManager.self test_ledger;
     OrderManager.world := RiskManager.world test_ledger;
     OrderManager.api := script |}.

(** [calculate_position_size] patched to answer 0, as in
    [test_place_breakout_orders_invalid_position_size]. *)
Definition sizing_zero (_ _ _ : Q) (_ : option Q) : M RiskManager.Ledger Z :=
  ret 0%Z.

(** ** Vocabulary of the further properties *)

(** The attributes of a risk manager that has loaded nothing. *)
Definition blank (mdl : Q) (mt : Z) (drp pv : Q) : RiskManager.t :=
  {| RiskManager.max_daily_loss_percent := mdl;
     RiskManager.max_trades_per_day := mt;
     RiskManager.default_risk_percent := drp;
     RiskManager.point_value := pv;
     RiskManager.current_date := None;
     RiskManager.daily_pnl := 0;
     RiskManager.trades_today := 0;
     RiskManager.trade_history := [] |}.

(** A new [RiskManager] with the limits of [s], started in world [w]: the
    process is restarted. *)
Definition restart (s : RiskManager.t) (w : World) : RiskManager.Ledger :=
  RiskManager.__init__
    (RiskManager.max_daily_loss_percent s) (RiskManager.max_trades_per_day s)
    (RiskManager.default_risk_percent s) (RiskManager.point_value s) w.

(** Is there nothing to load from the file: no file, no JSON, no date or a
    date that does not parse? *)
Definition unusable (f : FileContent) : bool :=
  match f with
  | NoFile | NotJson => true
  | Json data =>
      match dd_current_date data with
      | DateMissing | DateMalformed => true
      | DateIso _ => false
      end
  end.

(** Does loading the file raise (and log) an error? *)
Definition unreadable (f : FileContent) : bool :=
  match f with
  | NotJson => true
  | Json data =>
      match dd_current_date data with
      | DateMalformed => true
      | _ => false
      end
  | NoFile => false
  end.

(** The cutoff of [reset_daily_limits]: 30 days before now. *)
Definition cutoff_date (w : World) : Z := (clock w - 30 * 86400)%Z.

Arguments OrderManager.set_api {Broker} b s.
Arguments OrderManager.sleep {Broker} seconds.
Arguments OrderManager.cancel_order {Broker} cancel_order_api order_id.
Arguments OrderManager.cancel_all_pending {Broker} cancel_order_api
  cancel_all_orders_api symbol.
Arguments OrderManager._handle_order_fill {Broker} cancel_order_api
  get_order_status orders side.
Arguments OrderManager._check_order_status {Broker} get_order_status order_id.
Arguments OrderManager._monitor_orders_body {Broker} cancel_order_api
  get_order_status orders.
Arguments OrderManager._monitor_orders_scan {Broker} cancel_order_api
  get_order_status items.
Arguments OrderManager._monitor_orders_turn {Broker} cancel_order_api
  get_order_status items.
Arguments OrderManager.has_active_orders {Broker} symbol.
Arguments OrderManager.stop_monitoring {Broker}.
Arguments OrderManager.cleanup {Broker} cancel_order_api cancel_all_orders_api.
Arguments OrderManager.get_daily_trade_count {Broker}.

(** The pair of the test-suite, tracked under MNQ by an order manager
    whose monitoring runs, in front of a brokerage that answers status
    requests from a script. *)
Definition mnq_pair : BreakoutOrders :=
  {| long_order_id := Some "long_order_123";
     short_order_id := Some "short_order_456";
     bo_symbol := "MNQ";
     bo_long_entry := 15035;
     bo_short_entry := 14965;
     bo_stop_loss_points := 25;
     bo_take_profit_points := 50;
     bo_position_size := 4 |}.

Definition tracking_system (script : Script) : OrderManager.System Script :=
  {| OrderManager.self :=
       {| OrderManager.active_breakout_orders := {[ "MNQ" := mnq_pair ]};
          OrderManager.executed_trades := [];
          OrderManager.monitoring_active := true;
          OrderManager.monitor_thread := true |};
     OrderManager.risk_manager := RiskManager.self test_ledger;
     OrderManager.world := RiskManager.world test_ledger;
     OrderManager.api := script |}.

Definition scripted_status (_ : option string) : M Script OrderInfo :=
  fun script =>
    match script with
    | answer :: rest => (answer, rest)
    | [] => (Raise (AlpacaAPIError "no answer"), [])
    end.

(** The status dictionary of an order filled at [price]. *)
Definition filled_at (id : string) (price : Q) : OrderInfo :=
  {| oi_id := id; oi_status := "filled"; oi_filled_avg_price := price |}.

(** A brokerage on which no order is ever filled. *)
Definition pending_status (id : option string) : M Script OrderInfo :=
  ret (accepted (default "" id)).

(** Cancellations the brokerage rejects, and cancellations it accepts. *)
Definition rejected_cancel (_ : string) : M Script bool :=
  raise (AlpacaAPIError "order not cancelable").
Definition rejected_cancel_all : M Script bool :=
  raise (AlpacaAPIError "service unavailable").
Definition accepted_cancel (_ : string) : M Script bool := ret true.
Definition accepted_cancel_all : M Script bool := ret true.

Arguments AlpacaAPI._retry_loop {R A} func remaining attempt max_retries
  last_exception.
Arguments AlpacaAPI._retry_api_call {R A} func max_retries.

(** [func], instrumented with the number of calls made to it. *)
Definition counted {R A : Type} (func : R -> Attempt A * R)
    : R * nat -> Attempt A * (R * nat) :=
  fun '(r, calls) => let '(a, r') := func r in (a, (r', S calls)).

(** A remote side that answers every call with the same client error. *)
Definition always_rejects (code : Z) (msg : string)
    : unit -> Attempt unit * unit :=
  fun r => (APIError (Some code) msg, r).

(** A connection on which nothing has happened yet. *)
Definition fresh_connection {R : Type} (r : R) : Connection R :=
  {| remote := r; slept := 0; api_log := [] |}.

(** Between [s] and [s1] the executions [new] have been appended to
    [executed_trades], and nothing else has changed but the brokerage and
    the log. *)
Definition appended {Broker : Type} (new : list TradeExecution)
    (s s1 : OrderManager.System Broker) : Prop :=
  OrderManager.active_breakout_orders (OrderManager.self s1)
  = OrderManager.active_breakout_orders (OrderManager.self s)
  /\ OrderManager.monitoring_active (OrderManager.self s1)
     = OrderManager.monitoring_active (OrderManager.self s)
  /\ OrderManager.executed_trades (OrderManager.self s1)
     = (OrderManager.executed_trades (OrderManager.self s) ++ new)%list
  /\ OrderManager.risk_manager s1 = OrderManager.risk_manager s
  /\ clock (OrderManager.world s1) = clock (OrderManager.world s)
  /\ data_file (OrderManager.world s1) = data_file (OrderManager.world s).

(** No status request is ever answered with ["filled"]. *)
Definition never_filled {Broker : Type}
    (get_order_status : option string -> M Broker OrderInfo) : Prop :=
  forall id b,
    match fst (get_order_status id b) with
    | Return order_status => oi_status order_status <> "filled"
    | Raise _ => True
    end.

(** * Properties *)

(** ** Comparisons and truncation *)

Lemma py_lt_iff (x y : Q) : py_lt x y = true <-> x < y.
Proof.
  unfold py_lt. rewrite negb_true_iff, <- not_true_iff_false, Qle_bool_iff.
  split; [apply Qnot_le_lt | apply Qlt_not_le].
Qed.

Lemma py_le_iff (x y : Q) : py_le x y = true <-> x <= y.
Proof. apply Qle_bool_iff. Qed.

Lemma py_eq_iff (x y : Q) : py_eq x y = true <-> x == y.
Proof. apply Qeq_bool_iff. Qed.

Lemma py_lt_false_iff (x y : Q) : py_lt x y = false <-> y <= x.
Proof.
  rewrite <- not_true_iff_false, py_lt_iff.
  split; [apply Qnot_lt_le | apply Qle_not_lt].
Qed.

Lemma py_le_false_iff (x y : Q) : py_le x y = false <-> y < x.
Proof.
  rewrite <- not_true_iff_false, py_le_iff.
  split; [apply Qnot_le_lt | apply Qlt_not_le].
Qed.

Lemma py_eq_false_iff (x y : Q) : py_eq x y = false <-> ~ x == y.
Proof. rewrite <- not_true_iff_false, py_eq_iff. tauto. Qed.

(** [int] agrees with the floor on non-negative numbers ... *)
Lemma py_int_nonneg (x : Q) : 0 <= x -> py_int x = Qfloor x.
Proof.
  destruct x as [n d]. unfold Qle, py_int, Qfloor. simpl. intros H.
  apply Z.quot_div_nonneg; lia.
Qed.

(** ... and is at most [0] on negative ones, as is the floor. *)
Lemma py_int_neg (x : Q) : x < 0 -> (py_int x <= 0)%Z /\ (Qfloor x < 0)%Z.
Proof.
  destruct x as [n d]. unfold Qlt, py_int, Qfloor. simpl. intros H. split.
  - rewrite <- (Z.opp_involutive n), Z.quot_opp_l by lia.
    assert (0 <= - n ÷ Z.pos d)%Z by (apply Z.quot_pos; lia). lia.
  - apply Z.div_lt_upper_bound; lia.
Qed.

(** The size returned after the minimum-size floor is [max(1, floor raw)]. *)
Lemma py_int_floor_max (x : Q) :
  (if (py_int x <? 1)%Z then 1%Z else py_int x) = Z.max 1 (Qfloor x).
Proof.
  destruct (Qlt_le_dec x 0) as [Hneg | Hpos].
  - destruct (py_int_neg x Hneg) as [H1 H2].
    destruct (Z.ltb_spec (py_int x) 1); lia.
  - rewrite (py_int_nonneg x Hpos).
    destruct (Z.ltb_spec (Qfloor x) 1); lia.
Qed.

Lemma py_int_zero (x : Q) : x == 0 -> py_int x = 0%Z.
Proof.
  intros H. rewrite py_int_nonneg by (rewrite H; apply Qle_refl).
  rewrite (Qfloor_comp _ _ H). reflexivity.
Qed.

(** ** Breakout calculator *)

Section Calculator.

Import OpeningRangeBreakout.

Variable config : StrategyConfig.

Lemma is_valid_range_iff (r : Q) :
  _is_valid_range config r = true
  <-> min_range_size config < r /\ r <= max_range_size config.
Proof.
  unfold _is_valid_range. rewrite andb_true_iff, py_lt_iff, py_le_iff.
  tauto.
Qed.

Lemma calculate_breakout_levels_valid (high low : Q) (w : World) :
  _is_valid_range config (high - low) = true ->
  calculate_breakout_levels config high low w
  = (Return (levels_of config high low), emit INFO "Breakout levels calculated" w).
Proof.
  intros H. unfold calculate_breakout_levels, try_except, bind.
  rewrite H. reflexivity.
Qed.

Lemma calculate_breakout_levels_invalid (high low : Q) (w : World) :
  _is_valid_range config (high - low) = false ->
  calculate_breakout_levels config high low w
  = (Raise (ValueError "Invalid range size"),
     emit ERROR "Error calculating breakout levels: Invalid range size" w).
Proof.
  intros H. unfold calculate_breakout_levels, try_except, bind.
  rewrite H. reflexivity.
Qed.

End Calculator.

Lemma py_min_Qmin (a b : Q) : py_min a b == Qmin a b.
Proof.
  unfold py_min. destruct (py_lt b a) eqn:E.
  - apply py_lt_iff in E. symmetry. apply Q.min_r. lra.
  - apply py_lt_false_iff in E. symmetry. apply Q.min_l. exact E.
Qed.


Lemma dynamic_stop_bounds (x : Q) :
  15 <= py_max (py_min x 50) 15 /\ py_max (py_min x 50) 15 <= 50.
Proof.
  unfold py_max, py_min.
  destruct (py_lt 50 x) eqn:E1;
    [ apply py_lt_iff in E1 | apply py_lt_false_iff in E1 ].
  - destruct (py_lt 50 15) eqn:E2;
      [ apply py_lt_iff in E2 | apply py_lt_false_iff in E2 ]; lra.
  - destruct (py_lt x 15) eqn:E2;
      [ apply py_lt_iff in E2 | apply py_lt_false_iff in E2 ]; lra.
Qed.







(** ** Risk manager *)

Section Ledger.

Import RiskManager.

Lemma _save_daily_data_eq (l : Ledger) :
  _save_daily_data l = (Return tt, saved l).
Proof.
  unfold _save_daily_data, saved, try_except, bind, gets, write_json.
  simpl. destruct (disk_writable (world l)); reflexivity.
Qed.

Lemma reset_daily_limits_eq (l : Ledger) :
  reset_daily_limits l = (Return tt, reset l).
Proof.
  unfold reset_daily_limits, reset, try_except, bind, gets, assign, modify.
  simpl. rewrite _save_daily_data_eq. reflexivity.
Qed.

Lemma _ensure_current_date_eq (l : Ledger) :
  _ensure_current_date l = (Return tt, rollover l).
Proof.
  unfold _ensure_current_date, rollover, stale, bind, gets. simpl.
  destruct (date_ne (current_date (self l)) (today (world l))); [| reflexivity].
  destruct (current_date (self l)); simpl;
    rewrite reset_daily_limits_eq; reflexivity.
Qed.

Lemma saved_self (l : Ledger) : self (saved l) = self l.
Proof. unfold saved. destruct (disk_writable (world l)); reflexivity. Qed.

Lemma saved_clock (l : Ledger) : clock (world (saved l)) = clock (world l).
Proof. unfold saved. destruct (disk_writable (world l)); reflexivity. Qed.

Lemma saved_writable (l : Ledger) :
  disk_writable (world (saved l)) = disk_writable (world l).
Proof.
  unfold saved. destruct (disk_writable (world l)) eqn:E; simpl; congruence.
Qed.

Lemma date_ne_same (d : date) : date_ne (Some d) d = false.
Proof. unfold date_ne. rewrite Z.eqb_refl. reflexivity. Qed.

Lemma date_ne_false (c : option date) (d : date) :
  date_ne c d = false -> c = Some d.
Proof.
  destruct c as [c |]; simpl; [| discriminate].
  rewrite negb_false_iff, Z.eqb_eq. congruence.
Qed.

(** After the rollover check the date in memory is today's, the clock and
    the limits are untouched, and the counters are the day's counters. *)
Lemma rollover_self (l : Ledger) :
  current_date (self (rollover l)) = Some (today (world l))
  /\ daily_pnl (self (rollover l)) = dailyPnl l
  /\ trades_today (self (rollover l)) = tradesToday l
  /\ max_trades_per_day (self (rollover l)) = max_trades_per_day (self l)
  /\ max_daily_loss_percent (self (rollover l))
     = max_daily_loss_percent (self l)
  /\ clock (world (rollover l)) = clock (world l)
  /\ disk_writable (world (rollover l)) = disk_writable (world l).
Proof.
  unfold rollover, dailyPnl, tradesToday. destruct (stale l) eqn:E.
  - unfold reset. simpl. rewrite saved_self, saved_clock, saved_writable.
    destruct (current_date (self l)); simpl; repeat split; reflexivity.
  - apply date_ne_false in E. repeat split; try reflexivity. exact E.
Qed.

Lemma rollover_fresh (l : Ledger) : stale l = false -> rollover l = l.
Proof. intros H. unfold rollover. rewrite H. reflexivity. Qed.

Lemma rollover_not_stale (l : Ledger) : stale (rollover l) = false.
Proof.
  destruct (rollover_self l) as (Hd & _ & _ & _ & _ & Hc & _).
  unfold stale, today. rewrite Hd, Hc. apply date_ne_same.
Qed.

End Ledger.

Section LimitChecks.

Import RiskManager.

Lemma check_trade_count_eq (l : Ledger) :
  check_trade_count l
  = (Return (count_ok (rollover l)), count_checked (rollover l)).
Proof.
  unfold check_trade_count, try_except, bind.
  rewrite _ensure_current_date_eq. unfold count_checked, count_ok, gets.
  simpl. destruct (_ <? _)%Z; reflexivity.
Qed.

Lemma check_daily_loss_eq (equity : Q) (potential_loss : option Q)
    (l : Ledger) :
  check_daily_loss equity potential_loss l
  = (Return (loss_ok equity potential_loss (rollover l)),
     loss_checked equity potential_loss (rollover l)).
Proof.
  unfold check_daily_loss, try_except, bind.
  rewrite _ensure_current_date_eq. unfold loss_checked, loss_ok, gets.
  simpl. destruct (py_le _ _); reflexivity.
Qed.

Lemma count_checked_fresh (l : Ledger) :
  stale l = false -> rollover (count_checked l) = count_checked l.
Proof.
  intros H. apply rollover_fresh. unfold count_checked.
  destruct (count_ok l); exact H.
Qed.

Lemma count_checked_self (l : Ledger) : self (count_checked l) = self l.
Proof. unfold count_checked. destruct (count_ok l); reflexivity. Qed.

Lemma can_trade_eq (equity : Q) (potential_loss : option Q) (l : Ledger) :
  can_trade equity potential_loss l
  = if count_ok (rollover l)
    then (Return (loss_ok equity potential_loss (rollover l)),
          loss_checked equity potential_loss (count_checked (rollover l)))
    else (Return false, count_checked (rollover l)).
Proof.
  unfold can_trade, try_except, bind. rewrite check_trade_count_eq.
  destruct (count_ok (rollover l)) eqn:Ec; simpl; [| reflexivity].
  rewrite check_daily_loss_eq.
  rewrite count_checked_fresh by apply rollover_not_stale.
  unfold loss_ok. rewrite count_checked_self.
  destruct (py_le _ _); reflexivity.
Qed.

Lemma loss_ok_iff (equity : Q) (potential_loss : option Q) (l : Ledger) :
  loss_ok equity potential_loss l = true
  <-> Qabs (Qmin 0 (daily_pnl (self l))) + abs_loss potential_loss
      <= equity * max_daily_loss_percent (self l).
Proof.
  unfold loss_ok, py_abs, abs_loss. rewrite py_le_iff.
  assert (H : Qabs (py_min 0 (daily_pnl (self l)))
              == Qabs (Qmin 0 (daily_pnl (self l))))
    by (apply Qabs_wd, py_min_Qmin).
  destruct potential_loss; rewrite H; [tauto |].
  rewrite Qplus_0_r. tauto.
Qed.

End LimitChecks.



Section Sizing.

Import RiskManager.

Variables (equity entry stop : Q) (risk_percent : option Q) (l : Ledger).

Lemma calculate_position_size_no_risk :
  py_le (per_unit_risk entry stop l) 0 = true ->
  fst (calculate_position_size equity entry stop risk_percent l)
  = Raise (RiskLimitExceeded
      "Position size calculation failed: Invalid price risk - entry and stop prices are the same").
Proof.
  unfold per_unit_risk. intros H.
  unfold calculate_position_size, try_except, bind, gets.
  cbn [self fst snd]. rewrite H. reflexivity.
Qed.

Lemma calculate_position_size_zero_equity :
  py_le (per_unit_risk entry stop l) 0 = false ->
  py_eq equity 0 = true ->
  fst (calculate_position_size equity entry stop risk_percent l)
  = Raise (RiskLimitExceeded
      "Position size calculation failed: float division by zero").
Proof.
  intros Hrisk Hzero.
  assert (Hne : py_eq (per_unit_risk entry stop l) 0 = false).
  { apply py_eq_false_iff. apply py_le_false_iff in Hrisk. lra. }
  assert (Hraw : (py_int (raw_size equity entry stop risk_percent l) <? 1)%Z = true).
  { rewrite py_int_zero; [reflexivity |].
    apply py_eq_iff in Hzero. unfold raw_size. rewrite Hzero.
    unfold Qdiv. ring. }
  unfold per_unit_risk in Hrisk, Hne. unfold raw_size, per_unit_risk,
    chosen_risk_percent in Hraw.
  unfold calculate_position_size, try_except, bind, gets, py_div.
  cbn [self fst snd]. rewrite Hrisk. cbn [ret raise]. rewrite Hne.
  cbn [ret]. rewrite Hraw, Hzero. reflexivity.
Qed.

Lemma calculate_position_size_returns :
  py_le (per_unit_risk entry stop l) 0 = false ->
  py_eq equity 0 = false ->
  fst (calculate_position_size equity entry stop risk_percent l)
  = Return (Z.max 1 (Qfloor (raw_size equity entry stop risk_percent l))).
Proof.
  intros Hrisk Hnz.
  assert (Hne : py_eq (per_unit_risk entry stop l) 0 = false).
  { apply py_eq_false_iff. apply py_le_false_iff in Hrisk. lra. }
  rewrite <- py_int_floor_max.
  unfold per_unit_risk in Hrisk, Hne.
  unfold raw_size, per_unit_risk, chosen_risk_percent.
  unfold calculate_position_size, try_except, bind, gets, py_div.
  cbn [self fst snd]. rewrite Hrisk. cbn [ret raise]. rewrite Hne.
  cbn [ret].
  destruct (py_int _ <? 1)%Z; rewrite Hnz; cbn [ret]; rewrite ?Hnz;
    reflexivity.
Qed.

End Sizing.




(** C3, as stated, fails for negative equity: with equity -100000 nothing
    raises and the minimum size 1 is returned. *)
Lemma calculate_position_size_raises_counterexample :
  -100000 <= 0
  /\ fst (RiskManager.calculate_position_size
            (-100000) 15000 14975 None test_ledger) = Return 1%Z
  /\ ~ (exists msg,
          fst (RiskManager.calculate_position_size
                 (-100000) 15000 14975 None test_ledger)
          = Raise (RiskLimitExceeded msg)).
Proof.
  split; [discriminate |].
  assert (H : fst (RiskManager.calculate_position_size
                     (-100000) 15000 14975 None test_ledger) = Return 1%Z)
    by (vm_compute; reflexivity).
  split; [exact H |]. intros [msg Hm]. rewrite H in Hm. discriminate.
Qed.

(** C3 (amended): [calculate_position_size] raises [RiskLimitExceeded] when
    [|entry_price - stop_price| == 0], and when [account_equity == 0]; for
    negative equity and a positive risk per unit it does not raise but
    returns a size, which is at least 1. *)
Theorem calculate_position_size_raises
    (equity entry stop : Q) (risk_percent : option Q)
    (l : RiskManager.Ledger) :
  let out :=
    fst (RiskManager.calculate_position_size equity entry stop risk_percent l) in
  (Qabs (entry - stop) == 0 -> exists msg, out = Raise (RiskLimitExceeded msg))
  /\ (equity == 0 -> exists msg, out = Raise (RiskLimitExceeded msg))
  /\ (equity < 0 ->
      0 < Qabs (entry - stop) * RiskManager.point_value (RiskManager.self l) ->
      exists size, out = Return size /\ (1 <= size)%Z).
Proof.
  intros out. unfold out. split; [| split].
  - intros H. eexists. apply calculate_position_size_no_risk.
    apply py_le_iff. unfold per_unit_risk, py_abs. rewrite H. lra.
  - intros H.
    destruct (py_le (per_unit_risk entry stop l) 0) eqn:E.
    + eexists. apply calculate_position_size_no_risk. exact E.
    + eexists. apply calculate_position_size_zero_equity; [exact E |].
      apply py_eq_iff. exact H.
  - intros Hneg Hrisk. eexists. split.
    + apply calculate_position_size_returns.
      * apply py_le_false_iff. exact Hrisk.
      * apply py_eq_false_iff. lra.
    + lia.
Qed.

(** Equal prices and zero equity raise; negative equity returns 1. *)
Lemma calculate_position_size_raises_witness :
  (exists msg,
     fst (RiskManager.calculate_position_size 100000 15000 15000 None test_ledger)
     = Raise (RiskLimitExceeded msg))
  /\ (exists msg,
     fst (RiskManager.calculate_position_size 0 15000 14975 None test_ledger)
     = Raise (RiskLimitExceeded msg))
  /\ (exists size,
     fst (RiskManager.calculate_position_size
            (-100000) 15000 14975 None test_ledger) = Return size
     /\ (1 <= size)%Z).
Proof.
  split; [| split].
  - destruct (calculate_position_size_raises
                100000 15000 15000 None test_ledger) as (H & _ & _).
    apply H. reflexivity.
  - destruct (calculate_position_size_raises
                0 15000 14975 None test_ledger) as (_ & H & _).
    apply H. reflexivity.
  - destruct (calculate_position_size_raises
                (-100000) 15000 14975 None test_ledger) as (_ & _ & H).
    apply H; reflexivity.
Defined.

Section Recording.

Import RiskManager.

Variables (pnl : Q) (symbol : string) (quantity : Z) (entry exit_ : Q).

Lemma record_trade_result_eq (l : Ledger) :
  record_trade_result pnl symbol quantity entry exit_ l
  = (Return tt, recorded pnl symbol quantity entry exit_ (rollover l)).
Proof.
  unfold record_trade_result, try_except, bind.
  rewrite _ensure_current_date_eq.
  unfold recorded, logged, gets, assign, modify. cbn [fst snd].
  cbn [on_self self world]. rewrite _save_daily_data_eq. reflexivity.
Qed.

Lemma recorded_self (l : Ledger) :
  daily_pnl (self (recorded pnl symbol quantity entry exit_ l)) = daily_pnl (self l) + pnl
  /\ trades_today (self (recorded pnl symbol quantity entry exit_ l)) = (trades_today (self l) + 1)%Z
  /\ trade_history (self (recorded pnl symbol quantity entry exit_ l))
     = (trade_history (self l) ++ [trade_result_at pnl symbol quantity entry exit_ (clock (world l))])%list
  /\ current_date (self (recorded pnl symbol quantity entry exit_ l)) = current_date (self l).
Proof.
  unfold recorded, logged. cbn [on_world self]. rewrite saved_self.
  repeat split; reflexivity.
Qed.

End Recording.

Section Persistence.

Import RiskManager.

Lemma saved_unwritable (l : Ledger) :
  disk_writable (world l) = false ->
  data_file (world (saved l)) = data_file (world l)
  /\ log (world (saved l)) = (log (world l) ++ [save_failed])%list.
Proof. intros H. unfold saved. rewrite H. split; reflexivity. Qed.

Lemma saved_writable_file (l : Ledger) :
  disk_writable (world l) = true ->
  data_file (world (saved l)) = Json (snapshot (self l)).
Proof. intros H. unfold saved. rewrite H. reflexivity. Qed.

Lemma reset_unwritable (l : Ledger) :
  disk_writable (world l) = false ->
  data_file (world (reset l)) = data_file (world l).
Proof.
  intros H. unfold reset.
  match goal with |- context [saved ?x] => set (l1 := x) end.
  change (data_file (world (saved l1)) = data_file (world l1)).
  apply saved_unwritable. exact H.
Qed.

Lemma rollover_unwritable (l : Ledger) :
  disk_writable (world l) = false ->
  data_file (world (rollover l)) = data_file (world l).
Proof.
  intros H. unfold rollover. destruct (stale l); [| reflexivity].
  destruct (current_date (self l)); rewrite reset_unwritable;
    solve [reflexivity | exact H].
Qed.

Variables (pnl : Q) (symbol : string) (quantity : Z) (entry exit_ : Q).

Lemma recorded_unwritable (l : Ledger) :
  disk_writable (world l) = false ->
  data_file (world (recorded pnl symbol quantity entry exit_ l))
  = data_file (world l)
  /\ In save_failed (log (world (recorded pnl symbol quantity entry exit_ l))).
Proof.
  intros H. unfold recorded, logged.
  match goal with |- context [saved ?x] => set (l1 := x) end.
  destruct (saved_unwritable l1 H) as [Hf Hl]. split.
  - exact Hf.
  - cbn [on_world world emit set_log log]. rewrite Hl.
    apply in_or_app. left. apply in_or_app. right. left. reflexivity.
Qed.

Lemma recorded_writable (l : Ledger) :
  disk_writable (world l) = true ->
  data_file (world (recorded pnl symbol quantity entry exit_ l))
  = Json (snapshot (self (recorded pnl symbol quantity entry exit_ l))).
Proof.
  intros H. unfold recorded, logged.
  match goal with |- context [saved ?x] => set (l1 := x) end.
  cbn [on_world world self emit set_log data_file].
  rewrite (saved_writable_file l1 H), saved_self. reflexivity.
Qed.

End Persistence.

(** C10: [record_trade_result] never raises; it adds [pnl] to the day's
    [daily_pnl], adds 1 to the day's [trades_today] and appends one
    [TradeResult] to [trade_history], whether or not the write to the data
    file succeeds.  A failed write is logged and swallowed: the file keeps
    its old content, so a trade count that was in step with memory is then
    strictly behind it.  A successful write stores the new state. *)
Theorem record_trade_result_never_raises
    (pnl : Q) (symbol : string) (quantity : Z) (entry exit_ : Q)
    (l : RiskManager.Ledger) :
  let out := RiskManager.record_trade_result pnl symbol quantity entry exit_ l in
  let l' := snd out in
  fst out = Return tt
  /\ RiskManager.daily_pnl (RiskManager.self l') = dailyPnl l + pnl
  /\ RiskManager.trades_today (RiskManager.self l') = (tradesToday l + 1)%Z
  /\ RiskManager.trade_history (RiskManager.self l')
     = (RiskManager.trade_history (RiskManager.self (rollover l))
        ++ [trade_result_at pnl symbol quantity entry exit_
              (clock (RiskManager.world l))])%list
  /\ (disk_writable (RiskManager.world l) = false ->
      data_file (RiskManager.world l') = data_file (RiskManager.world l)
      /\ In save_failed (log (RiskManager.world l'))
      /\ (forall n,
            persisted_trades_today (data_file (RiskManager.world l)) = Some n ->
            n = tradesToday l ->
            persisted_trades_today (data_file (RiskManager.world l')) = Some n
            /\ (n < RiskManager.trades_today (RiskManager.self l'))%Z))
  /\ (disk_writable (RiskManager.world l) = true ->
      data_file (RiskManager.world l') = Json (snapshot (RiskManager.self l'))).
Proof.
  intros out l'. unfold l', out. rewrite record_trade_result_eq. cbn [fst snd].
  destruct (rollover_self l) as (_ & Hp & Ht & _ & _ & Hc & Hw).
  destruct (recorded_self pnl symbol quantity entry exit_ (rollover l))
    as (Rp & Rt & Rh & _).
  split; [reflexivity |]. split; [rewrite Rp, Hp; reflexivity |].
  split; [rewrite Rt, Ht; reflexivity |].
  split; [rewrite Rh, Hc; reflexivity |].
  split.
  - intros Hdisk.
    destruct (recorded_unwritable pnl symbol quantity entry exit_
                (rollover l) (eq_trans Hw Hdisk)) as [Hfile Hlog].
    rewrite (rollover_unwritable l Hdisk) in Hfile.
    split; [exact Hfile |]. split; [exact Hlog |].
    intros n Hn Hsync. rewrite Hfile, Rt, Ht. split; [exact Hn | lia].
  - intros Hdisk. apply recorded_writable. exact (eq_trans Hw Hdisk).
Qed.

(** On a disk that refuses writes the file still says 0 trades while the
    ledger counts 1. *)
Lemma record_trade_result_never_raises_witness :
  let l' := snd (RiskManager.record_trade_result
                   (-800) "MNQ" 4 15000 14800 read_only_ledger) in
  persisted_trades_today (data_file (RiskManager.world l')) = Some 0%Z
  /\ (0 < RiskManager.trades_today (RiskManager.self l'))%Z.
Proof.
  destruct (record_trade_result_never_raises
              (-800) "MNQ" 4 15000 14800 read_only_ledger)
    as (_ & _ & _ & _ & H & _).
  destruct (H eq_refl) as (_ & _ & Hn).
  exact (Hn 0%Z eq_refl eq_refl).
Defined.

Section Rollover.

Import RiskManager.

Lemma loss_checked_self (equity : Q) (potential_loss : option Q)
    (l : Ledger) : self (loss_checked equity potential_loss l) = self l.
Proof.
  unfold loss_checked. destruct (loss_ok equity potential_loss l);
    reflexivity.
Qed.

(** [__init__] when the data file carries another date: nothing is
    taken from the file. *)
Lemma init_other_date (mdl : Q) (mt : Z) (drp pv : Q) (w : World)
    (data : DailyData) (d : date) :
  data_file w = Json data ->
  dd_current_date data = DateIso d ->
  d <> today w ->
  __init__ mdl mt drp pv w
  = {| self := {| max_daily_loss_percent := mdl;
                  max_trades_per_day := mt;
                  default_risk_percent := drp;
                  point_value := pv;
                  current_date := None;
                  daily_pnl := 0;
                  trades_today := 0;
                  trade_history := [] |};
       world := emit INFO "Risk manager initialized" w |}.
Proof.
  intros Hfile Hdate Hne.
  unfold __init__, _load_daily_data, try_except, bind, gets.
  cbn [fst snd self world]. rewrite Hfile, Hdate.
  apply Z.eqb_neq in Hne. rewrite Hne. reflexivity.
Qed.

Lemma rollover_stale (l : Ledger) :
  stale l = true -> zeroed (today (world l)) (self (rollover l)).
Proof.
  intros H. destruct (rollover_self l) as (Hd & Hp & Ht & _).
  unfold dailyPnl in Hp. unfold tradesToday in Ht. rewrite H in Hp, Ht.
  repeat split; assumption.
Qed.

End Rollover.

(** C8: a ledger constructed while the data file carries the date of
    another day starts with [daily_pnl = 0] and [trades_today = 0] (and no
    history), whatever counters the file holds; and on a ledger whose date
    in memory is stale, each limit check zeroes the counters and moves the
    date to today, and [record_trade_result] does so before it counts the
    trade. *)
Theorem stale_persisted_state_discarded
    (mdl : Q) (mt : Z) (drp pv : Q) (w : World) (data : DailyData) (d : date) :
  data_file w = Json data ->
  dd_current_date data = DateIso d ->
  d <> today w ->
  let l := RiskManager.__init__ mdl mt drp pv w in
  RiskManager.daily_pnl (RiskManager.self l) = 0
  /\ RiskManager.trades_today (RiskManager.self l) = 0%Z
  /\ RiskManager.trade_history (RiskManager.self l) = []
  /\ stale l = true
  /\ (forall (later : RiskManager.Ledger) equity potential_loss
             pnl symbol quantity entry exit_,
        stale later = true ->
        let now_ := today (RiskManager.world later) in
        zeroed now_
          (RiskManager.self (snd (RiskManager.check_trade_count later)))
        /\ zeroed now_
             (RiskManager.self
                (snd (RiskManager.check_daily_loss equity potential_loss later)))
        /\ zeroed now_
             (RiskManager.self
                (snd (RiskManager.can_trade equity potential_loss later)))
        /\ (let s := RiskManager.self
                       (snd (RiskManager.record_trade_result
                               pnl symbol quantity entry exit_ later)) in
            RiskManager.daily_pnl s = 0 + pnl
            /\ RiskManager.trades_today s = 1%Z
            /\ RiskManager.current_date s = Some now_)).
Proof.
  intros Hfile Hdate Hne l.
  unfold l. rewrite (init_other_date mdl mt drp pv w data d Hfile Hdate Hne).
  split; [reflexivity |]. split; [reflexivity |]. split; [reflexivity |].
  split; [reflexivity |].
  clear. intros l equity potential_loss pnl symbol quantity entry exit_ Hstale.
  pose proof (rollover_stale l Hstale) as Hz.
  cbv zeta. split; [| split; [| split]].
  - rewrite check_trade_count_eq. cbn [snd]. rewrite count_checked_self.
    exact Hz.
  - rewrite check_daily_loss_eq. cbn [snd]. rewrite loss_checked_self.
    exact Hz.
  - rewrite can_trade_eq. destruct (count_ok (rollover l)); cbn [snd].
    + rewrite loss_checked_self, count_checked_self. exact Hz.
    + rewrite count_checked_self. exact Hz.
  - rewrite record_trade_result_eq. cbn [snd].
    destruct (recorded_self pnl symbol quantity entry exit_ (rollover l))
      as (Rp & Rt & _ & Rd).
    destruct Hz as (Zp & Zt & Zd).
    rewrite Rp, Rt, Rd, Zp, Zt, Zd. repeat split.
Qed.

Lemma stale_persisted_state_discarded_witness :
  let l := RiskManager.__init__ 0.02 2 0.005 5 next_day_world in
  RiskManager.daily_pnl (RiskManager.self l) = 0
  /\ RiskManager.trades_today (RiskManager.self l) = 0%Z
  /\ fst (RiskManager.can_trade 100000 None l) = Return true.
Proof.
  destruct (stale_persisted_state_discarded 0.02 2 0.005 5 next_day_world
              _ 19737%Z eq_refl eq_refl) as (Hp & Ht & _);
    [vm_compute; discriminate |].
  split; [exact Hp |]. split; [exact Ht |]. vm_compute. reflexivity.
Defined.

(** ** Order manager *)

Section TradeExit.

Import OrderManager.

Context {Broker : Type}.
Variable record_trade_result :
  Q -> string -> Z -> Q -> Q -> M RiskManager.Ledger unit.
Variables (symbol : string) (exit_price pnl : Q).

Lemma on_trade_exit_loop_first (before after : list TradeExecution)
    (trade : TradeExecution) (s : System Broker) :
  Forall (fun t => te_symbol t <> symbol) before ->
  te_symbol trade = symbol ->
  on_trade_exit_loop record_trade_result (before ++ trade :: after)
    symbol exit_price pnl s
  = (call_risk_manager
       (record_trade_result pnl symbol (te_quantity trade)
          (te_entry_price trade) exit_price) ;;;
     logger INFO "Trade exit recorded") s.
Proof.
  intros Hbefore Htrade. induction Hbefore as [| t before Ht _ IH].
  - cbn [app on_trade_exit_loop].
    apply String.eqb_eq in Htrade. rewrite Htrade. reflexivity.
  - cbn [app on_trade_exit_loop].
    apply String.eqb_neq in Ht. rewrite Ht. exact IH.
Qed.


End TradeExit.




Section Placement.

Import OrderManager.

Context {Broker : Type}.
Variable submit_order : OrderParams -> M Broker OrderInfo.
Variable can_trade : Q -> option Q -> M RiskManager.Ledger bool.
Variable calculate_position_size :
  Q -> Q -> Q -> option Q -> M RiskManager.Ledger Z.
Variables (symbol : string).
Variables (long_entry short_entry stop_loss_points take_profit_points
             account_equity : Q).
Variable s : System Broker.

(** The steps and the result of the call at hand. *)
Local Abbreviation the_risk_check := (risk_check can_trade account_equity s).
Local Abbreviation the_sizing :=
  (sizing can_trade calculate_position_size long_entry stop_loss_points
     account_equity s).
Local Abbreviation the_long_leg :=
  (long_leg submit_order symbol long_entry stop_loss_points
     take_profit_points s).
Local Abbreviation the_short_leg :=
  (short_leg submit_order symbol long_entry short_entry stop_loss_points
     take_profit_points s).
Local Abbreviation the_placement :=
  (placement submit_order can_trade calculate_position_size symbol
     long_entry short_entry stop_loss_points take_profit_points
     account_equity s).
Local Abbreviation the_outcome :=
  (outcome submit_order can_trade calculate_position_size symbol
     long_entry short_entry stop_loss_points take_profit_points
     account_equity s).
Local Abbreviation the_pair :=
  (pair_of symbol long_entry short_entry stop_loss_points
     take_profit_points).

Lemma ledger_set_ledger (l : RiskManager.Ledger) (x : System Broker) :
  ledger (set_ledger l x) = l.
Proof. destruct l. reflexivity. Qed.

(** The result of the call, outcome by outcome. *)
Lemma placement_by_outcome :
  match the_outcome with
  | Placed n long_order short_order =>
      fst the_placement = Return (the_pair n long_order short_order)
      /\ active_breakout_orders (self (snd the_placement))
         = <[symbol := the_pair n long_order short_order]>
             (active_breakout_orders (self s))
  | _ =>
      (exists msg, fst the_placement = Raise (OrderManagerError msg))
      /\ active_breakout_orders (self (snd the_placement))
         = active_breakout_orders (self s)
  end.
Proof.
  unfold outcome, placement, sizing, short_leg, long_leg, risk_check.
  unfold place_breakout_orders, try_except, bind, call_risk_manager,
    call_api, zoom.
  destruct (can_trade account_equity None (ledger s)) as [[[|] | e] l1];
    cbn [fst snd negb ret raise].
  - (* the risk check passed *)
    rewrite ledger_set_ledger.
    destruct (calculate_position_size _ _ _ _ l1) as [[n | e] l2];
      cbn [fst snd].
    + destruct (n <=? 0)%Z; cbn [raise ret fst snd].
      * cbn. split; [eexists; reflexivity | reflexivity].
      * cbn [logger modify on_world set_ledger api self risk_manager world
               fst snd].
        destruct (submit_order (long_order_params _ _ _ _ _) (api s))
          as [[lo | e] b1]; cbn [fst snd set_api api self].
        -- destruct (submit_order (short_order_params _ _ _ _ _) b1)
             as [[so | e] b2]; cbn [fst snd set_api api self].
           ++ unfold gets, modify, start_monitoring, bind, logger, ret.
              cbn [fst snd self on_self set_active monitoring_active
                     active_breakout_orders negb].
              cbn [fst snd self on_self set_active set_api on_world set_ledger
                     monitoring_active active_breakout_orders negb].
              destruct (monitoring_active (self s)) eqn:E; cbn; rewrite ?E; cbn;
                split; reflexivity.
           ++ destruct e; cbn; (split; [eexists; reflexivity | reflexivity]).
        -- destruct e; cbn; (split; [eexists; reflexivity | reflexivity]).
    + destruct e; cbn; (split; [eexists; reflexivity | reflexivity]).
  - (* the risk check blocked *)
    cbn. split; [eexists; reflexivity | reflexivity].
  - destruct e; cbn; (split; [eexists; reflexivity | reflexivity]).
Qed.

Ltac failed H Hfail :=
  let H1 := fresh in
  let H2 := fresh in
  let Hm := fresh in
  destruct (Hfail H) as [H1 H2]; destruct H as [Hm _];
  split; [exact H1 |];
  split; [intros; exact Hm |];
  split; [intros; exact Hm |];
  split; [intros; exact Hm |];
  split; [intros; exact Hm |];
  split; [intros; exact Hm |];
  split; [intros pair Hp; destruct (H2 pair Hp) |];
  intros; simplify_eq; first [congruence | lia].

(** C9: [place_breakout_orders] is all-or-nothing for the table of active
    orders.  A call that raises raises [OrderManagerError] and leaves
    [active_breakout_orders] as it was; it raises when [can_trade]
    answers [False], when the sizing raises, when the size is [<= 0], and
    when the submission of the long or of the short order raises.  A call
    that returns has stored its pair under the symbol, as the one entry
    for that symbol and without touching the others, and the pair holds
    the ids of the two orders submitted; this is what happens when none
    of the steps fails. *)
Theorem place_breakout_orders_all_or_nothing :
  let fails := exists msg, fst the_placement = Raise (OrderManagerError msg) in
  let before := active_breakout_orders (self s) in
  let after := active_breakout_orders (self (snd the_placement)) in
  (forall e, fst the_placement = Raise e ->
     is_order_manager_error e /\ after = before)
  /\ (fst the_risk_check = Return false -> fails)
  /\ (forall e, fst the_sizing = Raise e -> fails)
  /\ (forall n, fst the_sizing = Return n -> (n <= 0)%Z -> fails)
  /\ (forall n e,
        fst the_sizing = Return n -> fst (the_long_leg n) = Raise e -> fails)
  /\ (forall n e,
        fst the_sizing = Return n -> fst (the_short_leg n) = Raise e -> fails)
  /\ (forall pair, fst the_placement = Return pair ->
        after !! symbol = Some pair
        /\ (forall other, after !! symbol = Some other -> other = pair)
        /\ (forall symbol', symbol' <> symbol ->
              after !! symbol' = before !! symbol')
        /\ exists long_order short_order,
             fst (the_long_leg (bo_position_size pair)) = Return long_order
             /\ fst (the_short_leg (bo_position_size pair)) = Return short_order
             /\ long_order_id pair = Some (oi_id long_order)
             /\ short_order_id pair = Some (oi_id short_order))
  /\ (forall n long_order short_order,
        fst the_risk_check = Return true ->
        fst the_sizing = Return n ->
        (0 < n)%Z ->
        fst (the_long_leg n) = Return long_order ->
        fst (the_short_leg n) = Return short_order ->
        fst the_placement = Return (the_pair n long_order short_order)).
Proof.
  intros fails before after. unfold fails, before, after.
  assert (Hfail :
    (exists msg, fst the_placement = Raise (OrderManagerError msg))
    /\ active_breakout_orders (self (snd the_placement))
       = active_breakout_orders (self s) ->
    (forall e, fst the_placement = Raise e ->
       is_order_manager_error e
       /\ active_breakout_orders (self (snd the_placement))
          = active_breakout_orders (self s))
    /\ (forall pair, fst the_placement = Return pair -> False)).
  { intros [[msg Hm] Ht]. split.
    - intros e He. rewrite Hm in He. injection He as <-.
      split; [exists msg; reflexivity | exact Ht].
    - intros pair Hp. rewrite Hm in Hp. discriminate. }
  generalize placement_by_outcome. unfold outcome.
  destruct (fst the_risk_check) as [[|] | eg] eqn:Eg.
  - destruct (fst the_sizing) as [n | es] eqn:Es.
    + destruct (Z.leb_spec n 0) as [Hn | Hn].
      * intros H. failed H Hfail.
      * destruct (fst (the_long_leg n)) as [lo | el] eqn:El.
        -- destruct (fst (the_short_leg n)) as [so | esh] eqn:Esh.
           ++ intros [Hp Ht].
              split; [intros e He; congruence |].
              split; [discriminate |].
              split; [discriminate |].
              split; [intros; simplify_eq; lia |].
              split; [intros; simplify_eq; congruence |].
              split; [intros; simplify_eq; congruence |].
              split.
              ** intros pair Hpair. rewrite Hp in Hpair.
                 injection Hpair as <-. rewrite Ht.
                 split; [apply lookup_insert_eq |].
                 split; [rewrite lookup_insert_eq; congruence |].
                 split; [intros symbol' Hne;
                         apply lookup_insert_ne; congruence |].
                 exists lo, so. cbn [pair_of bo_position_size
                                       long_order_id short_order_id].
                 auto.
              ** intros; simplify_eq. congruence.
           ++ intros H. failed H Hfail.
        -- intros H. failed H Hfail.
    + intros H. failed H Hfail.
  - intros H. failed H Hfail.
  - intros H. failed H Hfail.
Qed.

End Placement.

(** With both submissions accepted the pair is placed with size 4 and the
    two ids; when the short leg is refused, or the size is 0, the call
    raises [OrderManagerError] and nothing is tracked. *)
Lemma place_breakout_orders_all_or_nothing_witness :
  let both := trading_system [Return (accepted "long_order_123");
                              Return (accepted "short_order_456")] in
  let refused := trading_system [Return (accepted "long_order_123");
                                 Raise (AlpacaAPIError "rejected")] in
  fst (placement scripted_submit RiskManager.can_trade
         RiskManager.calculate_position_size
         "MNQ" 15035 14965 25 50 100000 both)
  = Return (pair_of "MNQ" 15035 14965 25 50 4
              (accepted "long_order_123") (accepted "short_order_456"))
  /\ (exists msg,
        fst (placement scripted_submit RiskManager.can_trade
               RiskManager.calculate_position_size
               "MNQ" 15035 14965 25 50 100000 refused)
        = Raise (OrderManagerError msg))
  /\ OrderManager.active_breakout_orders
       (OrderManager.self
          (snd (placement scripted_submit RiskManager.can_trade
                  RiskManager.calculate_position_size
                  "MNQ" 15035 14965 25 50 100000 refused)))
     = ∅
  /\ (exists msg,
        fst (placement scripted_submit RiskManager.can_trade sizing_zero
               "MNQ" 15035 14965 25 50 100000 both)
        = Raise (OrderManagerError msg)).
Proof.
  intros both refused.
  split; [| split; [| split]].
  - destruct (place_breakout_orders_all_or_nothing
                scripted_submit RiskManager.can_trade
                RiskManager.calculate_position_size
                "MNQ" 15035 14965 25 50 100000 both)
      as (_ & _ & _ & _ & _ & _ & _ & H).
    apply H.
    + vm_compute. reflexivity.
    + vm_compute. reflexivity.
    + reflexivity.
    + vm_compute. reflexivity.
    + vm_compute. reflexivity.
  - destruct (place_breakout_orders_all_or_nothing
                scripted_submit RiskManager.can_trade
                RiskManager.calculate_position_size
                "MNQ" 15035 14965 25 50 100000 refused)
      as (_ & _ & _ & _ & _ & H & _).
    apply (H 4%Z (AlpacaAPIError "rejected")).
    + vm_compute. reflexivity.
    + vm_compute. reflexivity.
  - destruct (place_breakout_orders_all_or_nothing
                scripted_submit RiskManager.can_trade
                RiskManager.calculate_position_size
                "MNQ" 15035 14965 25 50 100000 refused)
      as (H & _).
    edestruct H as [_ Ht].
    + vm_compute. reflexivity.
    + exact Ht.
  - destruct (place_breakout_orders_all_or_nothing
                scripted_submit RiskManager.can_trade sizing_zero
                "MNQ" 15035 14965 25 50 100000 both)
      as (_ & _ & _ & H & _).
    apply (H 0%Z).
    + reflexivity.
    + discriminate.
Defined.

(** ** The test-suite, replayed on the model *)

(** [test_position_size_different_stop_distances],
    [test_position_size_calculation_large_equity] and
    [test_edge_case_negative_risk]. *)
Example test_position_sizes :
  fst (RiskManager.calculate_position_size 100000 15000 14980 None test_ledger)
  = Return 5%Z
  /\ fst (RiskManager.calculate_position_size 100000 15000 14970 None test_ledger)
     = Return 3%Z
  /\ fst (RiskManager.calculate_position_size 1000000 15000 14980 None test_ledger)
     = Return 50%Z
  /\ fst (RiskManager.calculate_position_size 100000 15000 15025 None test_ledger)
     = Return 4%Z.
Proof. repeat split; vm_compute; reflexivity. Qed.

(** [test_daily_loss_limit_enforcement] and
    [test_daily_loss_with_existing_losses]. *)
Example test_daily_loss_limit :
  fst (RiskManager.check_daily_loss 100000 (Some 1000) test_ledger) = Return true
  /\ fst (RiskManager.check_daily_loss 100000 (Some 2000) test_ledger)
     = Return true
  /\ fst (RiskManager.check_daily_loss 100000 (Some 2001) test_ledger)
     = Return false
  /\ fst (RiskManager.check_daily_loss 100000 (Some 1500) ledger_after_loss)
     = Return false
  /\ fst (RiskManager.check_daily_loss 100000 (Some 1000) ledger_after_loss)
     = Return true.
Proof. repeat split; vm_compute; reflexivity. Qed.

(** [test_trade_count_limit] and [test_can_trade_combined_limits]: with a
    cap of 2 the count check passes after one trade and fails after two. *)
Example test_trade_count_limit :
  let one := snd (RiskManager.record_trade_result
                    500 "MNQ" 4 15000 15125 test_ledger) in
  let two := snd (RiskManager.record_trade_result
                    (-300) "MNQ" 3 15000 14900 one) in
  fst (RiskManager.check_trade_count test_ledger) = Return true
  /\ fst (RiskManager.check_trade_count one) = Return true
  /\ RiskManager.trades_today (RiskManager.self one) = 1%Z
  /\ fst (RiskManager.check_trade_count two) = Return false
  /\ RiskManager.trades_today (RiskManager.self two) = 2%Z
  /\ fst (RiskManager.can_trade 100000 None one) = Return true
  /\ fst (RiskManager.can_trade 100000 None two) = Return false.
Proof. repeat split; vm_compute; reflexivity. Qed.

(** [test_can_trade_loss_limit_hit]. *)
Example test_can_trade_loss_limit_hit :
  fst (RiskManager.can_trade 100000 None
         (snd (RiskManager.record_trade_result
                 (-2100) "MNQ" 10 15000 14790 test_ledger)))
  = Return false.
Proof. vm_compute. reflexivity. Qed.

(** [test_calculate_breakout_levels_basic]. *)
Example test_calculate_breakout_levels_basic :
  fst (OpeningRangeBreakout.calculate_breakout_levels
         default_config 15020 14980 quiet_world)
  = Return {| opening_high := 15020; opening_low := 14980; range_size := 40;
              long_entry := 15035; short_entry := 14965;
              long_stop_loss := 15010; short_stop_loss := 14990;
              long_take_profit := 15085; short_take_profit := 14915;
              bl_position_size := 0 |}.
Proof. vm_compute. reflexivity. Qed.

(** [test_calculate_breakout_levels_dynamic_stops]: a range of 60 gives a
    stop distance of 50. *)
Example test_calculate_breakout_levels_dynamic_stops :
  match fst (OpeningRangeBreakout.calculate_breakout_levels
               dynamic_config 15030 14970 quiet_world) with
  | Return levels =>
      long_entry levels == 15045 /\ short_entry levels == 14955
      /\ long_stop_loss levels == 14995 /\ short_stop_loss levels == 15005
  | Raise _ => False
  end.
Proof. vm_compute. repeat split. Qed.

(** [test_on_trade_exit]: one execution of 4 at 15035, closed at 15085 with
    a profit of 200. *)
Example test_on_trade_exit :
  map (fun r => (tr_pnl r, tr_symbol r, tr_quantity r,
                 tr_entry_price r, tr_exit_price r))
    (RiskManager.trade_history
       (OrderManager.risk_manager
          (snd (OrderManager.on_trade_exit RiskManager.record_trade_result
                  "MNQ" 15085 200 (system_with [first_fill])))))
  = [(200, "MNQ", 4%Z, 15035, 15085)].
Proof. vm_compute. reflexivity. Qed.

(** * Further properties *)

(** ** Breakout calculator *)

Lemma _is_valid_trade_time_iff (t : datetime) :
  OpeningRangeBreakout._is_valid_trade_time t = true
  <-> (OpeningRangeBreakout.market_start <= OpeningRangeBreakout.time_of t
       <= OpeningRangeBreakout.market_end)%Z.
Proof.
  unfold OpeningRangeBreakout._is_valid_trade_time.
  rewrite andb_true_iff, !Z.leb_le. tauto.
Qed.

(** X1: [should_take_trade] never raises; it answers [True] exactly when
    the range size of the levels lies in
    [(min_range_size, max_range_size]] and the time, when one is given, is
    between 09:30:00 and 15:30:00 of its day, both ends included.  The
    levels answered by [calculate_breakout_levels] therefore always pass
    the check made without a time. *)
Theorem should_take_trade_iff (config : StrategyConfig)
    (levels : BreakoutLevels) (current_time : option datetime) (w : World) :
  let out :=
    fst (OpeningRangeBreakout.should_take_trade config levels current_time w) in
  (exists b, out = Return b)
  /\ (out = Return true
      <-> (min_range_size config < range_size levels
           /\ range_size levels <= max_range_size config)
          /\ match current_time with
             | Some t =>
                 (34200 <= t mod 86400 <= 55800)%Z
             | None => True
             end)
  /\ (forall high low w',
        fst (OpeningRangeBreakout.calculate_breakout_levels config high low w')
        = Return levels ->
        fst (OpeningRangeBreakout.should_take_trade config levels None w)
        = Return true).
Proof.
  intros out. unfold out, OpeningRangeBreakout.should_take_trade,
    try_except, bind.
  pose proof (is_valid_range_iff config (range_size levels)) as Hr.
  split; [| split].
  - destruct (OpeningRangeBreakout._is_valid_range config _); simpl; eauto.
    destruct current_time as [t |]; simpl; eauto.
    destruct (OpeningRangeBreakout._is_valid_trade_time t); simpl; eauto.
  - destruct (OpeningRangeBreakout._is_valid_range config _); simpl.
    + destruct current_time as [t |]; simpl.
      * pose proof (_is_valid_trade_time_iff t) as Ht.
        unfold OpeningRangeBreakout.market_start,
          OpeningRangeBreakout.market_end, OpeningRangeBreakout.time_of,
          seconds_per_day in Ht. simpl in Ht.
        destruct (OpeningRangeBreakout._is_valid_trade_time t); simpl.
        -- split; [intros _ | reflexivity].
           split; [apply Hr; reflexivity | apply Ht; reflexivity].
        -- split; [discriminate |]. intros [_ H]. apply Ht in H.
           discriminate.
      * split; [intros _ | reflexivity].
        split; [apply Hr; reflexivity | exact I].
    + split; [discriminate |]. intros [H _]. apply Hr in H. discriminate.
  - intros high low w' Hlevels.
    destruct (OpeningRangeBreakout._is_valid_range config (high - low)) eqn:E.
    + rewrite calculate_breakout_levels_valid in Hlevels by exact E.
      injection Hlevels as <-. cbn [levels_of range_size]. rewrite E.
      reflexivity.
    + rewrite calculate_breakout_levels_invalid in Hlevels by exact E.
      discriminate.
Qed.

(** At 15:30:00 a valid range is taken, one second later it is not. *)
Lemma should_take_trade_iff_witness :
  let levels := levels_of default_config 15020 14980 in
  fst (OpeningRangeBreakout.should_take_trade
         default_config levels (Some 1705332600%Z) quiet_world) = Return true
  /\ fst (OpeningRangeBreakout.should_take_trade
            default_config levels (Some 1705332601%Z) quiet_world)
     <> Return true
  /\ fst (OpeningRangeBreakout.should_take_trade
            default_config levels None quiet_world) = Return true.
Proof.
  intros levels.
  destruct (should_take_trade_iff default_config levels
              (Some 1705332600%Z) quiet_world) as (_ & H1 & _).
  destruct (should_take_trade_iff default_config levels
              (Some 1705332601%Z) quiet_world) as (_ & H2 & _).
  destruct (should_take_trade_iff default_config levels None quiet_world)
    as (_ & _ & H3).
  split; [| split].
  - apply H1. split; [split; [reflexivity | discriminate] |].
    vm_compute. split; discriminate.
  - intros H. apply H2 in H. destruct H as [_ [_ H]]. vm_compute in H.
    apply H. reflexivity.
  - apply (H3 15020 14980 quiet_world). vm_compute. reflexivity.
Defined.

(** X2: for a valid range, with a non-negative offset, a positive
    risk-reward ratio, a non-negative [min_range_size] and a positive stop
    distance (which dynamic stops always give), the levels are ordered:
    [long_stop_loss < long_entry < long_take_profit],
    [short_take_profit < short_entry < short_stop_loss], and the entries
    lie outside the opening range, [short_entry <= opening_low <
    opening_high <= long_entry]. *)
Theorem breakout_levels_ordered (config : StrategyConfig) (high low : Q)
    (w : World) (levels : BreakoutLevels) :
  fst (OpeningRangeBreakout.calculate_breakout_levels config high low w)
  = Return levels ->
  0 <= breakout_offset_points config ->
  0 < risk_reward_ratio config ->
  0 <= min_range_size config ->
  use_dynamic_stops config = true \/ 0 < stop_loss_points config ->
  (long_stop_loss levels < long_entry levels
   /\ long_entry levels < long_take_profit levels)
  /\ (short_take_profit levels < short_entry levels
      /\ short_entry levels < short_stop_loss levels)
  /\ (short_entry levels <= opening_low levels
      /\ opening_low levels < opening_high levels
      /\ opening_high levels <= long_entry levels).
Proof.
  intros Hlevels Hoff Hrr Hmin Hstop.
  destruct (OpeningRangeBreakout._is_valid_range config (high - low)) eqn:E.
  - rewrite calculate_breakout_levels_valid in Hlevels by exact E.
    injection Hlevels as <-.
    apply is_valid_range_iff in E. destruct E as [Hlo _].
    assert (Hd : 0 < OpeningRangeBreakout._calculate_stop_distance
                       config (Some (high - low))).
    { unfold OpeningRangeBreakout._calculate_stop_distance.
      destruct (use_dynamic_stops config).
      - pose proof (dynamic_stop_bounds
                      ((high - low) * dynamic_stop_multiplier config)) as [H _].
        lra.
      - destruct Hstop as [H | H]; [discriminate | exact H]. }
    set (d := OpeningRangeBreakout._calculate_stop_distance
                config (Some (high - low))) in *.
    assert (Htp : 0 < d * risk_reward_ratio config)
      by (apply Qmult_lt_0_compat; assumption).
    unfold levels_of. fold d. cbn.
    repeat split; lra.
  - rewrite calculate_breakout_levels_invalid in Hlevels by exact E.
    discriminate.
Qed.

Lemma breakout_levels_ordered_witness :
  long_stop_loss (levels_of default_config 15020 14980)
  < long_entry (levels_of default_config 15020 14980)
  /\ short_entry (levels_of default_config 15020 14980)
     < short_stop_loss (levels_of default_config 15020 14980).
Proof.
  destruct (breakout_levels_ordered default_config 15020 14980 quiet_world
              (levels_of default_config 15020 14980))
    as ((H1 & _) & (_ & H2) & _).
  - vm_compute. reflexivity.
  - discriminate.
  - reflexivity.
  - discriminate.
  - right. reflexivity.
  - split; assumption.
Defined.

(** X3: when [place_breakout_orders] is called as the bot calls it, with
    the entries of the computed levels and the distances answered by
    [get_stop_loss_points] and [get_take_profit_points], the two stop
    orders it submits carry exactly the prices of the levels: trigger at
    the entry, protective stop at the level's stop loss and target at the
    level's take profit, a buy for the long side and a sell for the short
    side, both for the same quantity. *)
Theorem orders_carry_level_prices (config : StrategyConfig) (high low : Q)
    (w : World) (levels : BreakoutLevels) (symbol : string) (size : Z) :
  fst (OpeningRangeBreakout.calculate_breakout_levels config high low w)
  = Return levels ->
  let stop_points :=
    OpeningRangeBreakout.get_stop_loss_points config
      (Some (range_size levels)) in
  let target_points :=
    OpeningRangeBreakout.get_take_profit_points config stop_points in
  let long :=
    OrderManager.long_order_params symbol size (long_entry levels)
      stop_points target_points in
  let short :=
    OrderManager.short_order_params symbol size (short_entry levels)
      stop_points target_points in
  (op_side long = "buy" /\ op_type long = "stop" /\ op_qty long = size
   /\ op_stop_price long = Some (long_entry levels)
   /\ op_stop_loss long = Some (long_stop_loss levels)
   /\ op_take_profit long = Some (long_take_profit levels))
  /\ (op_side short = "sell" /\ op_type short = "stop" /\ op_qty short = size
      /\ op_stop_price short = Some (short_entry levels)
      /\ op_stop_loss short = Some (short_stop_loss levels)
      /\ op_take_profit short = Some (short_take_profit levels)).
Proof.
  intros Hlevels.
  destruct (OpeningRangeBreakout._is_valid_range config (high - low)) eqn:E.
  - rewrite calculate_breakout_levels_valid in Hlevels by exact E.
    injection Hlevels as <-. cbv zeta. repeat split.
  - rewrite calculate_breakout_levels_invalid in Hlevels by exact E.
    discriminate.
Qed.

Lemma orders_carry_level_prices_witness :
  op_stop_loss
    (OrderManager.long_order_params "MNQ" 4 15035
       (OpeningRangeBreakout.get_stop_loss_points default_config (Some 40))
       (OpeningRangeBreakout.get_take_profit_points default_config
          (OpeningRangeBreakout.get_stop_loss_points default_config (Some 40))))
  = Some (long_stop_loss (levels_of default_config 15020 14980)).
Proof.
  destruct (orders_carry_level_prices default_config 15020 14980 quiet_world
              (levels_of default_config 15020 14980) "MNQ" 4)
    as ((_ & _ & _ & _ & H & _) & _).
  - vm_compute. reflexivity.
  - exact H.
Defined.

(** ** Risk manager: sizing *)

Lemma Qdiv_le_antitone (a b c : Q) :
  0 <= a -> 0 < b -> b <= c -> a / c <= a / b.
Proof.
  intros Ha Hb Hbc.
  assert (Hc : 0 < c) by lra.
  apply Qle_shift_div_r; [exact Hc |].
  assert (Hq : 0 <= a / b) by (apply Qle_shift_div_l; lra).
  assert (Hab : a == a / b * b) by (field; lra).
  rewrite Hab at 1. rewrite !(Qmult_comm (a / b)).
  apply Qmult_le_compat_r; assumption.
Qed.

(** X4: position sizing is monotonic in the stop distance: for positive
    equity, a non-negative risk percentage and a positive point value, a
    larger [|entry_price - stop_price|] never gives a larger size. *)
Theorem position_size_monotone (equity : Q) (risk_percent : option Q)
    (l : RiskManager.Ledger) (entry1 stop1 entry2 stop2 : Q) :
  0 < equity ->
  0 <= chosen_risk_percent risk_percent l ->
  0 < RiskManager.point_value (RiskManager.self l) ->
  0 < Qabs (entry1 - stop1) ->
  Qabs (entry1 - stop1) <= Qabs (entry2 - stop2) ->
  exists size1 size2,
    fst (RiskManager.calculate_position_size equity entry1 stop1 risk_percent l)
    = Return size1
    /\ fst (RiskManager.calculate_position_size
              equity entry2 stop2 risk_percent l)
       = Return size2
    /\ (size2 <= size1)%Z.
Proof.
  intros Heq Hrp Hpv Hd1 Hd12.
  assert (H1 : 0 < per_unit_risk entry1 stop1 l)
    by (unfold per_unit_risk, py_abs; apply Qmult_lt_0_compat; assumption).
  assert (H12 : per_unit_risk entry1 stop1 l <= per_unit_risk entry2 stop2 l).
  { unfold per_unit_risk, py_abs. apply Qmult_le_compat_r; lra. }
  assert (H2 : 0 < per_unit_risk entry2 stop2 l) by lra.
  exists (Z.max 1 (Qfloor (raw_size equity entry1 stop1 risk_percent l))),
         (Z.max 1 (Qfloor (raw_size equity entry2 stop2 risk_percent l))).
  split; [| split].
  - apply calculate_position_size_returns.
    + apply py_le_false_iff. exact H1.
    + apply py_eq_false_iff. lra.
  - apply calculate_position_size_returns.
    + apply py_le_false_iff. exact H2.
    + apply py_eq_false_iff. lra.
  - apply Z.max_le_compat_l. apply Qfloor_resp_le. unfold raw_size.
    apply Qdiv_le_antitone; [| exact H1 | exact H12].
    apply Qmult_le_0_compat; lra.
Qed.

(** Stops of 20 and 30 points: sizes 5 and 3. *)
Lemma position_size_monotone_witness :
  exists size1 size2,
    fst (RiskManager.calculate_position_size 100000 15000 14980 None test_ledger)
    = Return size1
    /\ fst (RiskManager.calculate_position_size
              100000 15000 14970 None test_ledger) = Return size2
    /\ (size2 <= size1)%Z.
Proof.
  apply (position_size_monotone 100000 None test_ledger 15000 14980 15000 14970).
  - reflexivity.
  - discriminate.
  - reflexivity.
  - reflexivity.
  - discriminate.
Defined.



(** ** Risk manager: the data file *)

Section Loading.

Import RiskManager.

Lemma load_trade_history_all (h : list TradeResult) (s : t) (w : World) :
  load_trade_history (map Some h) {| self := s; world := w |}
  = (Return tt,
     {| self := set_trade_history (trade_history s ++ h) s; world := w |}).
Proof.
  revert s. induction h as [| trade h IH]; intros s.
  - cbn. rewrite app_nil_r. destruct s; reflexivity.
  - cbn [map load_trade_history]. unfold bind, gets, assign, modify.
    unfold on_self. cbn [fst snd self world].
    rewrite IH. unfold set_trade_history. cbn.
    rewrite <- app_assoc. reflexivity.
Qed.

Lemma load_trade_history_stops (good : list TradeResult)
    (rest : list (option TradeResult)) (s : t) (w : World) :
  load_trade_history (map Some good ++ None :: rest)%list
    {| self := s; world := w |}
  = (Raise (KeyError "timestamp"),
     {| self := set_trade_history (trade_history s ++ good) s; world := w |}).
Proof.
  revert s. induction good as [| trade good IH]; intros s.
  - cbn. rewrite app_nil_r. destruct s; reflexivity.
  - cbn [map app load_trade_history]. unfold bind, gets, assign, modify.
    unfold on_self. cbn [fst snd self world].
    rewrite IH. unfold set_trade_history. cbn.
    rewrite <- app_assoc. reflexivity.
Qed.

(** Loading what [_save_daily_data] wrote on the same day gives the saved
    attributes back. *)
Lemma init_from_snapshot (s : t) (w : World) :
  data_file w = Json (snapshot s) ->
  current_date s = Some (today w) ->
  self (restart s w) = s.
Proof.
  intros Hfile Hdate.
  unfold restart, __init__, _load_daily_data, try_except, bind, gets.
  cbn [fst snd self world]. rewrite Hfile.
  unfold snapshot at 1. cbn [dd_current_date]. rewrite Hdate.
  rewrite Z.eqb_refl.
  unfold assign, modify, bind, logger. cbn [fst snd on_self self world].
  cbn [snapshot dd_daily_pnl dd_trades_today dd_trade_history default].
  unfold on_self, id. cbn [self world].
  rewrite load_trade_history_all. cbn. destruct s. cbn in *.
  rewrite Hdate. reflexivity.
Qed.

End Loading.

Section AfterRecording.

Import RiskManager.

Variables (pnl : Q) (symbol : string) (quantity : Z) (entry exit_ : Q).

Lemma recorded_clock (l : Ledger) :
  clock (world (recorded pnl symbol quantity entry exit_ l)) = clock (world l).
Proof.
  unfold recorded, logged.
  match goal with |- context [saved ?x] => set (l1 := x) end.
  cbn [on_world world emit set_log clock]. apply (saved_clock l1).
Qed.

(** After [record_trade_result] the date in memory is today's. *)
Lemma record_trade_result_fresh (l : Ledger) :
  let l' := snd (record_trade_result pnl symbol quantity entry exit_ l) in
  current_date (self l') = Some (today (world l'))
  /\ clock (world l') = clock (world l)
  /\ stale l' = false.
Proof.
  intros l'. unfold l'. rewrite record_trade_result_eq. cbn [snd].
  destruct (rollover_self l) as (Hd & _ & _ & _ & _ & Hc & _).
  destruct (recorded_self pnl symbol quantity entry exit_ (rollover l))
    as (_ & _ & _ & Rd).
  pose proof (recorded_clock (rollover l)) as Rc.
  assert (Hdate : current_date
            (self (recorded pnl symbol quantity entry exit_ (rollover l)))
          = Some (today (world
              (recorded pnl symbol quantity entry exit_ (rollover l))))).
  { rewrite Rd, Hd. unfold today. rewrite Rc, Hc. reflexivity. }
  split; [exact Hdate |]. split; [rewrite Rc; exact Hc |].
  unfold stale. rewrite Hdate. apply date_ne_same.
Qed.

(** On a disk that accepts writes the file then holds the new state. *)
Lemma record_trade_result_in_step (l : Ledger) :
  disk_writable (world l) = true ->
  let l' := snd (record_trade_result pnl symbol quantity entry exit_ l) in
  data_file (world l') = Json (snapshot (self l')).
Proof.
  intros Hdisk l'. unfold l'. rewrite record_trade_result_eq. cbn [snd].
  apply recorded_writable.
  destruct (rollover_self l) as (_ & _ & _ & _ & _ & _ & Hw).
  rewrite Hw. exact Hdisk.
Qed.

End AfterRecording.

(** X6: the limits survive a restart: after [record_trade_result] on a disk
    that accepts writes, a new [RiskManager] constructed the same day with
    the same limits holds exactly the attributes the old one had: date,
    [daily_pnl], [trades_today] and the whole [trade_history]. *)
Theorem restart_restores_ledger
    (pnl : Q) (symbol : string) (quantity : Z) (entry exit_ : Q)
    (l : RiskManager.Ledger) :
  disk_writable (RiskManager.world l) = true ->
  let l' := snd (RiskManager.record_trade_result
                   pnl symbol quantity entry exit_ l) in
  RiskManager.self (restart (RiskManager.self l') (RiskManager.world l'))
  = RiskManager.self l'.
Proof.
  intros Hdisk l'.
  apply init_from_snapshot.
  - apply record_trade_result_in_step. exact Hdisk.
  - apply record_trade_result_fresh.
Qed.

(** A loss of 800 recorded, then the process restarted: the new ledger
    counts one trade and -800. *)
Lemma restart_restores_ledger_witness :
  let l' := restart (RiskManager.self ledger_after_loss)
              (RiskManager.world ledger_after_loss) in
  RiskManager.trades_today (RiskManager.self l') = 1%Z
  /\ RiskManager.daily_pnl (RiskManager.self l') == -800.
Proof.
  pose proof (restart_restores_ledger (-800) "MNQ" 4 15000 14800 test_ledger
                eq_refl) as H.
  cbv zeta in H. fold ledger_after_loss in H.
  cbv zeta. rewrite H. split; vm_compute; reflexivity.
Defined.

(** X7: losing the data file is not fatal: when there is no file, or the
    file is not JSON, or it has no date or a date that does not parse, the
    constructor still answers a risk manager, with no date, zero counters
    and no history, and leaves the file alone; the two unreadable cases
    log one error. *)
Theorem init_without_usable_file (mdl : Q) (mt : Z) (drp pv : Q) (w : World) :
  unusable (data_file w) = true ->
  let l := RiskManager.__init__ mdl mt drp pv w in
  RiskManager.self l = blank mdl mt drp pv
  /\ data_file (RiskManager.world l) = data_file w
  /\ exists errors,
       log (RiskManager.world l)
       = (log w ++ errors ++ [record INFO "Risk manager initialized"])%list
       /\ Forall (fun r => levelname r = ERROR) errors
       /\ length errors = if unreadable (data_file w) then 1%nat else 0%nat.
Proof.
  intros Hfile l. unfold l, RiskManager.__init__,
    RiskManager._load_daily_data, try_except, bind, gets.
  cbn [fst snd RiskManager.self RiskManager.world].
  destruct (data_file w) as [| | data] eqn:Ef; cbn.
  - split; [reflexivity |]. split; [exact Ef |].
    exists []. repeat split; constructor.
  - split; [reflexivity |]. split; [exact Ef |].
    eexists [_]. rewrite <- app_assoc. split; [reflexivity |].
    split; [repeat constructor | reflexivity].
  - cbn in Hfile. destruct (dd_current_date data); try discriminate; cbn.
    + split; [reflexivity |]. split; [exact Ef |].
      exists []. repeat split; constructor.
    + split; [reflexivity |]. split; [exact Ef |].
      eexists [_]. rewrite <- app_assoc. split; [reflexivity |].
      split; [repeat constructor | reflexivity].
Qed.

(** A world whose data file is not JSON. *)
Lemma init_without_usable_file_witness :
  let w := set_data_file NotJson quiet_world in
  RiskManager.self (RiskManager.__init__ 0.02 2 0.005 5 w)
  = blank 0.02 2 0.005 5.
Proof.
  intros w.
  destruct (init_without_usable_file 0.02 2 0.005 5 w eq_refl) as [H _].
  exact H.
Defined.

(** X8: a stored trade that cannot be read stops the loading but does not
    undo it: the date and both counters have been taken from the file
    (a missing counter counts as zero), the history holds the trades read
    before the bad entry and none after it, and the failure is logged. *)
Theorem init_with_unreadable_trade (mdl : Q) (mt : Z) (drp pv : Q) (w : World)
    (data : DailyData) (good : list TradeResult)
    (rest : list (option TradeResult)) :
  data_file w = Json data ->
  dd_current_date data = DateIso (today w) ->
  dd_trade_history data = Some (map Some good ++ None :: rest)%list ->
  let l := RiskManager.__init__ mdl mt drp pv w in
  RiskManager.current_date (RiskManager.self l) = Some (today w)
  /\ RiskManager.daily_pnl (RiskManager.self l)
     = default 0 (dd_daily_pnl data)
  /\ RiskManager.trades_today (RiskManager.self l)
     = default 0%Z (dd_trades_today data)
  /\ RiskManager.trade_history (RiskManager.self l) = good
  /\ exists msg, In (record ERROR msg) (log (RiskManager.world l)).
Proof.
  intros Hfile Hdate Hhist l.
  unfold l, RiskManager.__init__, RiskManager._load_daily_data,
    try_except, bind, gets.
  cbn [fst snd RiskManager.self RiskManager.world].
  rewrite Hfile, Hdate, Z.eqb_refl, Hhist.
  unfold RiskManager.assign, modify, bind, RiskManager.on_self.
  cbn [fst snd RiskManager.self RiskManager.world default from_option].
  unfold id. rewrite load_trade_history_stops.
  unfold RiskManager.logger, modify. cbn.
  repeat split. eexists. apply in_or_app. left. apply in_or_app. right.
  left. reflexivity.
Qed.

(** A file of today with one good trade followed by a broken one. *)
Lemma init_with_unreadable_trade_witness :
  let trade := trade_result_at (-800) "MNQ" 4 15000 14800 1705329000%Z in
  let w := set_data_file
             (Json {| dd_current_date := DateIso 19737%Z;
                      dd_daily_pnl := Some (-1000);
                      dd_trades_today := None;
                      dd_trade_history := Some [Some trade; None; Some trade] |})
             quiet_world in
  RiskManager.trade_history
    (RiskManager.self (RiskManager.__init__ 0.02 2 0.005 5 w)) = [trade]
  /\ RiskManager.trades_today
       (RiskManager.self (RiskManager.__init__ 0.02 2 0.005 5 w)) = 0%Z.
Proof.
  intros trade w.
  destruct (init_with_unreadable_trade 0.02 2 0.005 5 w
              _ [trade] [Some trade] eq_refl eq_refl eq_refl)
    as (_ & _ & Ht & Hh & _).
  split; [exact Hh | exact Ht].
Defined.

(** X9: [reset_daily_limits] never raises and keeps of the history exactly
    the trades whose timestamp is later than 30 days before now, in their
    order: afterwards no trade in the history is that old or older, and
    every trade that is not has been kept; a trade exactly 30 days old is
    dropped. *)
Theorem reset_daily_limits_prunes (l : RiskManager.Ledger) :
  let out := RiskManager.reset_daily_limits l in
  let before := RiskManager.trade_history (RiskManager.self l) in
  let after := RiskManager.trade_history (RiskManager.self (snd out)) in
  let cutoff := cutoff_date (RiskManager.world l) in
  fst out = Return tt
  /\ sublist after before
  /\ (forall trade,
        In trade after <-> In trade before /\ (cutoff < tr_timestamp trade)%Z).
Proof.
  intros out before after cutoff.
  unfold after, out. rewrite reset_daily_limits_eq. cbn [fst snd].
  unfold reset. cbn [RiskManager.on_world RiskManager.self].
  rewrite saved_self. cbn.
  split; [reflexivity |]. split.
  - apply sublist_filter.
  - intros trade. rewrite <- !list_elem_of_In, list_elem_of_filter.
    fold before. unfold cutoff, cutoff_date, RiskManager.days_30,
      seconds_per_day. rewrite Is_true_true, Z.ltb_lt. tauto.
Qed.

(** ** Risk manager: how the checks and the recording compose *)

Section Composition.

Import RiskManager.

Lemma count_checked_rest (l : Ledger) :
  data_file (world (count_checked l)) = data_file (world l)
  /\ clock (world (count_checked l)) = clock (world l).
Proof. unfold count_checked. destruct (count_ok l); split; reflexivity. Qed.

Lemma loss_checked_rest (equity : Q) (potential_loss : option Q) (l : Ledger) :
  data_file (world (loss_checked equity potential_loss l))
  = data_file (world l)
  /\ clock (world (loss_checked equity potential_loss l)) = clock (world l).
Proof.
  unfold loss_checked. destruct (loss_ok equity potential_loss l);
    split; reflexivity.
Qed.

Lemma loss_term (x : Q) :
  (x <= 0 -> Qabs (Qmin 0 x) == - x) /\ (0 <= x -> Qabs (Qmin 0 x) == 0).
Proof.
  split; intros H.
  - rewrite Q.min_r by exact H. apply Qabs_neg. exact H.
  - rewrite Q.min_l by exact H. reflexivity.
Qed.

Variables (pnl : Q) (symbol : string) (quantity : Z) (entry exit_ : Q).

(** The ledger left by [record_trade_result]: fresh, with the day's
    counters moved and the limits as they were. *)
Lemma record_trade_result_counters (l : Ledger) :
  let l' := snd (record_trade_result pnl symbol quantity entry exit_ l) in
  rollover l' = l'
  /\ daily_pnl (self l') = dailyPnl l + pnl
  /\ trades_today (self l') = (tradesToday l + 1)%Z
  /\ max_trades_per_day (self l') = max_trades_per_day (self l)
  /\ max_daily_loss_percent (self l') = max_daily_loss_percent (self l).
Proof.
  intros l'.
  destruct (record_trade_result_fresh pnl symbol quantity entry exit_ l)
    as (_ & _ & Hfresh).
  fold l' in Hfresh. split; [apply rollover_fresh; exact Hfresh |].
  unfold l'. rewrite record_trade_result_eq. cbn [snd].
  destruct (rollover_self l) as (_ & Hp & Ht & Hm & Hl & _).
  destruct (recorded_self pnl symbol quantity entry exit_ (rollover l))
    as (Rp & Rt & _).
  rewrite Rp, Rt, Hp, Ht. split; [reflexivity |]. split; [reflexivity |].
  unfold recorded, logged. cbn [on_world self]. rewrite saved_self.
  cbn. split; assumption.
Qed.

End Composition.

(** X10: on a ledger whose date is today's the limit checks only read:
    [check_trade_count], [check_daily_loss] and [can_trade] leave every
    attribute of the risk manager and the data file as they were. *)
Theorem limit_checks_read_only (equity : Q) (potential_loss : option Q)
    (l : RiskManager.Ledger) :
  stale l = false ->
  let untouched (l' : RiskManager.Ledger) :=
    RiskManager.self l' = RiskManager.self l
    /\ data_file (RiskManager.world l') = data_file (RiskManager.world l)
    /\ clock (RiskManager.world l') = clock (RiskManager.world l) in
  untouched (snd (RiskManager.check_trade_count l))
  /\ untouched (snd (RiskManager.check_daily_loss equity potential_loss l))
  /\ untouched (snd (RiskManager.can_trade equity potential_loss l)).
Proof.
  intros Hfresh untouched. unfold untouched.
  rewrite check_trade_count_eq, check_daily_loss_eq, can_trade_eq.
  rewrite (rollover_fresh l Hfresh). cbn [snd].
  pose proof (count_checked_self l) as Cs.
  pose proof (count_checked_rest l) as [Cf Cc].
  split; [auto |]. split.
  - rewrite loss_checked_self.
    destruct (loss_checked_rest equity potential_loss l); auto.
  - destruct (count_ok l); cbn [snd]; [| auto].
    rewrite loss_checked_self.
    destruct (loss_checked_rest equity potential_loss (count_checked l))
      as [Lf Lc].
    rewrite Lf, Lc. auto.
Qed.

Lemma limit_checks_read_only_witness :
  RiskManager.self (snd (RiskManager.can_trade 100000 None ledger_after_loss))
  = RiskManager.self ledger_after_loss.
Proof.
  destruct (limit_checks_read_only 100000 None ledger_after_loss)
    as (_ & _ & H & _).
  - vm_compute. reflexivity.
  - exact H.
Defined.

(** X11: every recorded trade counts against the cap: after
    [record_trade_result] the count check answers whether the day's count
    plus one is still below [max_trades_per_day], and once the cap is
    reached [can_trade] refuses whatever the equity and the potential
    loss. *)
Theorem trade_count_after_record
    (pnl : Q) (symbol : string) (quantity : Z) (entry exit_ : Q)
    (l : RiskManager.Ledger) :
  let l' := snd (RiskManager.record_trade_result
                   pnl symbol quantity entry exit_ l) in
  let cap := RiskManager.max_trades_per_day (RiskManager.self l) in
  fst (RiskManager.check_trade_count l')
  = Return (tradesToday l + 1 <? cap)%Z
  /\ ((cap <= tradesToday l + 1)%Z ->
      forall equity potential_loss,
        fst (RiskManager.can_trade equity potential_loss l') = Return false).
Proof.
  intros l' cap.
  destruct (record_trade_result_counters pnl symbol quantity entry exit_ l)
    as (Hr & _ & Ht & Hm & _).
  fold l' in Hr, Ht, Hm.
  assert (Hc : count_ok l' = (tradesToday l + 1 <? cap)%Z)
    by (unfold count_ok, cap; rewrite Ht, Hm; reflexivity).
  split.
  - rewrite check_trade_count_eq, Hr. cbn [fst]. rewrite Hc. reflexivity.
  - intros Hcap equity potential_loss. rewrite can_trade_eq, Hr, Hc.
    destruct (Z.ltb_spec (tradesToday l + 1) cap); [lia | reflexivity].
Qed.

(** With a cap of 2 and one trade on record, the second recorded trade
    closes the day. *)
Lemma trade_count_after_record_witness :
  fst (RiskManager.can_trade 100000 None
         (snd (RiskManager.record_trade_result
                 500 "MNQ" 3 15000 15167 ledger_after_loss)))
  = Return false.
Proof.
  destruct (trade_count_after_record 500 "MNQ" 3 15000 15167 ledger_after_loss)
    as [_ H].
  apply H. vm_compute. discriminate.
Defined.

(** X12: a trade that did not lose never makes the loss check fail: if
    [check_daily_loss] passes for some equity and potential loss, it still
    passes for them after a trade with [pnl >= 0] has been recorded. *)
Theorem profit_keeps_loss_check
    (pnl : Q) (symbol : string) (quantity : Z) (entry exit_ : Q)
    (equity : Q) (potential_loss : option Q) (l : RiskManager.Ledger) :
  0 <= pnl ->
  fst (RiskManager.check_daily_loss equity potential_loss l) = Return true ->
  fst (RiskManager.check_daily_loss equity potential_loss
         (snd (RiskManager.record_trade_result
                 pnl symbol quantity entry exit_ l)))
  = Return true.
Proof.
  intros Hpnl Hbefore.
  destruct (record_trade_result_counters pnl symbol quantity entry exit_ l)
    as (Hr & Hp & _ & _ & Hl).
  destruct (rollover_self l) as (_ & Hp0 & _ & _ & Hl0 & _).
  rewrite check_daily_loss_eq in Hbefore. cbn [fst] in Hbefore.
  injection Hbefore as Hbefore. apply loss_ok_iff in Hbefore.
  rewrite Hp0, Hl0 in Hbefore.
  rewrite check_daily_loss_eq, Hr. cbn [fst]. f_equal.
  apply loss_ok_iff. rewrite Hp, Hl.
  destruct (loss_term (dailyPnl l)) as [Hneg Hpos].
  destruct (loss_term (dailyPnl l + pnl)) as [Hneg' Hpos'].
  destruct (Qlt_le_dec (dailyPnl l + pnl) 0) as [H | H].
  - rewrite Hneg' by lra. rewrite Hneg in Hbefore by lra. lra.
  - rewrite Hpos' by exact H.
    assert (0 <= Qabs (Qmin 0 (dailyPnl l))) by apply Qabs_nonneg. lra.
Qed.

Lemma profit_keeps_loss_check_witness :
  fst (RiskManager.check_daily_loss 100000 (Some 1200)
         (snd (RiskManager.record_trade_result
                 500 "MNQ" 3 15000 15167 ledger_after_loss)))
  = Return true.
Proof.
  apply profit_keeps_loss_check.
  - discriminate.
  - vm_compute. reflexivity.
Defined.



(** X14: [get_daily_stats] reports the day's counters after the rollover
    check: its date is today's, never absent, its [daily_pnl] and
    [trades_today] are the day's, and its [can_trade_more] is the answer
    [check_trade_count] gives on the same ledger. *)
Theorem get_daily_stats_agrees (l : RiskManager.Ledger) :
  exists stats,
    fst (RiskManager.get_daily_stats l) = Return stats
    /\ RiskManager.ds_date stats = Some (today (RiskManager.world l))
    /\ RiskManager.ds_daily_pnl stats = dailyPnl l
    /\ RiskManager.ds_trades_today stats = tradesToday l
    /\ fst (RiskManager.check_trade_count l)
       = Return (RiskManager.ds_can_trade_more stats)
    /\ RiskManager.self (snd (RiskManager.get_daily_stats l))
       = RiskManager.self (snd (RiskManager.check_trade_count l)).
Proof.
  unfold RiskManager.get_daily_stats, bind.
  rewrite _ensure_current_date_eq. unfold gets, ret. cbn [fst snd].
  destruct (rollover_self l) as (Hd & Hp & Ht & _).
  eexists. split; [reflexivity |].
  cbn [RiskManager.ds_date RiskManager.ds_daily_pnl
         RiskManager.ds_trades_today RiskManager.ds_can_trade_more].
  rewrite check_trade_count_eq. cbn [fst snd]. rewrite count_checked_self.
  repeat split; assumption.
Qed.

(** ** Order manager: cancelling *)

Section Cancelling.

Import OrderManager.

Context {Broker : Type}.
Variable cancel_order_api : string -> M Broker bool.
Variable cancel_all_orders_api : M Broker bool.

(** [cancel_order] swallows every failure of the brokerage and touches
    neither the books of the order manager nor the risk manager. *)
Lemma cancel_order_inv (id : string) (s s1 : System Broker) (r : Res bool) :
  cancel_order cancel_order_api id s = (r, s1) ->
  r = Return (match fst (cancel_order_api id (api s)) with
              | Return ok => ok
              | Raise _ => false
              end)
  /\ self s1 = self s
  /\ risk_manager s1 = risk_manager s
  /\ api s1 = snd (cancel_order_api id (api s))
  /\ clock (world s1) = clock (world s)
  /\ data_file (world s1) = data_file (world s).
Proof.
  unfold cancel_order, try_except, bind, call_api, zoom.
  destruct (cancel_order_api id (api s)) as [[[|] | e] b];
    cbn [fst snd]; try destruct e; unfold logger, modify, ret; cbn;
    intros H; simplify_eq; repeat split; reflexivity.
Qed.

Lemma truthy_some (id : string) : id <> "" -> truthy (Some id) = Some id.
Proof.
  intros H. unfold truthy. apply String.eqb_neq in H. rewrite H. reflexivity.
Qed.

Lemma truthy_none (id : option string) :
  id = None \/ id = Some "" <-> truthy id = None.
Proof.
  unfold truthy. split.
  - intros [-> | ->]; reflexivity.
  - destruct id as [id |]; [| auto].
    destruct (String.eqb_spec id ""); [subst; auto | discriminate].
Qed.

(** One optional cancellation of [cancel_all_pending]. *)
Lemma cancel_if_truthy_inv (id : option string) (s s1 : System Broker)
    (r : Res unit) :
  match truthy id with
  | Some id => (cancel_order cancel_order_api id ;;; ret tt)%monad
  | None => ret tt
  end s = (r, s1) ->
  r = Return tt
  /\ self s1 = self s
  /\ risk_manager s1 = risk_manager s
  /\ clock (world s1) = clock (world s)
  /\ data_file (world s1) = data_file (world s).
Proof.
  destruct (truthy id) as [id' |].
  - unfold bind.
    destruct (cancel_order cancel_order_api id' s) as [r0 s0] eqn:E.
    apply cancel_order_inv in E. destruct E as (-> & Hs & Hr & _ & Hc & Hf).
    unfold ret. intros H. simplify_eq. auto.
  - unfold ret. intros H. simplify_eq. auto.
Qed.

Lemma set_active_delete_absent (symbol : string) (o : t) :
  active_breakout_orders o !! symbol = None ->
  set_active (delete symbol (active_breakout_orders o)) o = o.
Proof.
  intros H. destruct o. unfold set_active. cbn in *.
  rewrite delete_id by exact H. reflexivity.
Qed.

(** [cancel_all_pending(symbol)] for a symbol that is not empty. *)
Lemma cancel_all_pending_symbol_eq (symbol : string) (s : System Broker) :
  symbol <> "" ->
  let out :=
    cancel_all_pending cancel_order_api cancel_all_orders_api
      (Some symbol) s in
  fst out = Return true
  /\ self (snd out)
     = set_active (delete symbol (active_breakout_orders (self s))) (self s)
  /\ risk_manager (snd out) = risk_manager s
  /\ clock (world (snd out)) = clock (world s)
  /\ data_file (world (snd out)) = data_file (world s).
Proof.
  intros Hsym out. unfold out, cancel_all_pending.
  rewrite (truthy_some symbol Hsym).
  unfold try_except, bind, gets, modify, ret. cbn beta.
  destruct (active_breakout_orders (self s) !! symbol) as [orders |] eqn:El.
  - match goal with
    | |- context [match truthy (long_order_id orders) with
                  | Some _ => _ | None => _ end ?x] =>
        destruct (match truthy (long_order_id orders) with
                  | Some id => (cancel_order cancel_order_api id ;;; ret tt)%monad
                  | None => ret tt
                  end x) as [r1 s1] eqn:E1
    end.
    pose proof (cancel_if_truthy_inv _ _ _ _ E1) as (-> & Hs1 & Hr1 & Hc1 & Hf1).
    unfold bind, ret in E1. rewrite E1.
    destruct (match truthy (short_order_id orders) with
              | Some id => (cancel_order cancel_order_api id ;;; ret tt)%monad
              | None => ret tt
              end s1) as [r2 s2] eqn:E2.
    pose proof (cancel_if_truthy_inv _ _ _ _ E2) as (-> & Hs2 & Hr2 & Hc2 & Hf2).
    unfold bind, ret in E2. rewrite E2.
    cbn [fst snd on_self self risk_manager world].
    rewrite Hs2, Hs1, Hr2, Hr1, Hc2, Hc1, Hf2, Hf1. auto.
  - cbn. rewrite (set_active_delete_absent symbol (self s) El). auto.
Qed.

(** [cancel_all_pending()] for every symbol. *)
Lemma cancel_all_pending_all_eq (symbol : option string) (s : System Broker) :
  symbol = None \/ symbol = Some "" ->
  let out :=
    cancel_all_pending cancel_order_api cancel_all_orders_api symbol s in
  api (snd out) = snd (cancel_all_orders_api (api s))
  /\ risk_manager (snd out) = risk_manager s
  /\ executed_trades (self (snd out)) = executed_trades (self s)
  /\ monitoring_active (self (snd out)) = monitoring_active (self s)
  /\ match fst (cancel_all_orders_api (api s)) with
     | Return ok =>
         fst out = Return ok /\ active_breakout_orders (self (snd out)) = ∅
     | Raise _ =>
         fst out = Return false
         /\ active_breakout_orders (self (snd out))
            = active_breakout_orders (self s)
     end.
Proof.
  intros Hsym out. unfold out, cancel_all_pending.
  apply truthy_none in Hsym. rewrite Hsym.
  unfold try_except, bind, call_api, zoom.
  destruct (cancel_all_orders_api (api s)) as [[ok | e] b];
    cbn [fst snd]; [cbn; repeat split; reflexivity |].
  destruct e; cbn; repeat split; reflexivity.
Qed.

End Cancelling.

(** X15: [cancel_all_pending(symbol)] for a non-empty symbol answers [True]
    whatever the brokerage does with the cancellations, rejections and
    exceptions included: the symbol's pair is dropped from
    [active_breakout_orders] in any case, the pairs of the other symbols,
    the executed trades and the risk manager are left as they were, and
    [has_active_orders(symbol)] answers [False] afterwards. *)
Theorem cancel_all_pending_symbol_forgets {Broker : Type}
    (cancel_order_api : string -> M Broker bool)
    (cancel_all_orders_api : M Broker bool)
    (symbol : string) (s : OrderManager.System Broker) :
  symbol <> "" ->
  let out :=
    OrderManager.cancel_all_pending cancel_order_api cancel_all_orders_api
      (Some symbol) s in
  let before := OrderManager.active_breakout_orders (OrderManager.self s) in
  let after :=
    OrderManager.active_breakout_orders (OrderManager.self (snd out)) in
  fst out = Return true
  /\ after !! symbol = None
  /\ (forall other, other <> symbol -> after !! other = before !! other)
  /\ OrderManager.executed_trades (OrderManager.self (snd out))
     = OrderManager.executed_trades (OrderManager.self s)
  /\ OrderManager.risk_manager (snd out) = OrderManager.risk_manager s
  /\ fst (OrderManager.has_active_orders (Some symbol) (snd out))
     = Return false.
Proof.
  intros Hsym out before after.
  destruct (cancel_all_pending_symbol_eq cancel_order_api
              cancel_all_orders_api symbol s Hsym)
    as (Hr & Hs & Hrm & _).
  fold out in Hr, Hs, Hrm.
  assert (Ha : after = delete symbol before)
    by (unfold after; rewrite Hs; reflexivity).
  split; [exact Hr |].
  split; [rewrite Ha; apply lookup_delete_eq |].
  split; [intros other Hne; rewrite Ha; apply lookup_delete_ne; congruence |].
  split; [rewrite Hs; reflexivity |].
  split; [exact Hrm |].
  unfold OrderManager.has_active_orders, bind, gets.
  rewrite (truthy_some symbol Hsym). unfold ret. cbn [fst].
  fold after. rewrite Ha, lookup_delete_eq.
  reflexivity.
Qed.

(** The brokerage rejects both cancellations of the MNQ pair: the call
    still answers [True] and the pair is no longer tracked. *)
Lemma cancel_all_pending_symbol_forgets_witness :
  let out :=
    OrderManager.cancel_all_pending rejected_cancel rejected_cancel_all
      (Some "MNQ") (tracking_system []) in
  fst out = Return true
  /\ OrderManager.active_breakout_orders (OrderManager.self (snd out))
     !! "MNQ" = None.
Proof.
  destruct (cancel_all_pending_symbol_forgets rejected_cancel
              rejected_cancel_all "MNQ" (tracking_system []))
    as (H1 & H2 & _).
  - discriminate.
  - split; [exact H1 | exact H2].
Defined.

(** X16: [cancel_all_pending()] for all symbols, which is also what an
    empty symbol gives, makes one [cancel_all_orders] call.  When the call
    answers, the table is cleared and the answer, [True] or [False], is
    handed back; when it raises, [False] is answered and every pair stays
    tracked.  The executed trades and the monitoring flag are not
    touched. *)
Theorem cancel_all_pending_everything {Broker : Type}
    (cancel_order_api : string -> M Broker bool)
    (cancel_all_orders_api : M Broker bool)
    (symbol : option string) (s : OrderManager.System Broker) :
  symbol = None \/ symbol = Some "" ->
  let out :=
    OrderManager.cancel_all_pending cancel_order_api cancel_all_orders_api
      symbol s in
  let after :=
    OrderManager.active_breakout_orders (OrderManager.self (snd out)) in
  OrderManager.api (snd out) = snd (cancel_all_orders_api (OrderManager.api s))
  /\ OrderManager.executed_trades (OrderManager.self (snd out))
     = OrderManager.executed_trades (OrderManager.self s)
  /\ OrderManager.monitoring_active (OrderManager.self (snd out))
     = OrderManager.monitoring_active (OrderManager.self s)
  /\ match fst (cancel_all_orders_api (OrderManager.api s)) with
     | Return ok => fst out = Return ok /\ after = ∅
     | Raise _ =>
         fst out = Return false
         /\ after = OrderManager.active_breakout_orders (OrderManager.self s)
     end.
Proof.
  intros Hsym out after.
  destruct (cancel_all_pending_all_eq cancel_order_api cancel_all_orders_api
              symbol s Hsym) as (Ha & _ & He & Hm & H).
  auto.
Qed.

(** The brokerage is down: the call answers [False] and the MNQ pair is
    still tracked. *)
Lemma cancel_all_pending_everything_witness :
  let out :=
    OrderManager.cancel_all_pending rejected_cancel rejected_cancel_all
      None (tracking_system []) in
  fst out = Return false
  /\ OrderManager.active_breakout_orders (OrderManager.self (snd out))
     = {[ "MNQ" := mnq_pair ]}.
Proof.
  destruct (cancel_all_pending_everything rejected_cancel
              rejected_cancel_all None (tracking_system []))
    as (_ & _ & _ & H).
  - left. reflexivity.
  - exact H.
Defined.

(** X17: [cleanup] never raises and always leaves the monitoring flag
    off.  The table of active orders is emptied exactly when the
    brokerage's [cancel_all_orders] call answered; when that call raised,
    the pairs stay in the table, unmonitored.  The executed trades and the
    risk manager are left as they were. *)
Theorem cleanup_stops_monitoring {Broker : Type}
    (cancel_order_api : string -> M Broker bool)
    (cancel_all_orders_api : M Broker bool)
    (s : OrderManager.System Broker) :
  let out := OrderManager.cleanup cancel_order_api cancel_all_orders_api s in
  let after :=
    OrderManager.active_breakout_orders (OrderManager.self (snd out)) in
  fst out = Return tt
  /\ OrderManager.monitoring_active (OrderManager.self (snd out)) = false
  /\ OrderManager.executed_trades (OrderManager.self (snd out))
     = OrderManager.executed_trades (OrderManager.self s)
  /\ OrderManager.risk_manager (snd out) = OrderManager.risk_manager s
  /\ match fst (cancel_all_orders_api (OrderManager.api s)) with
     | Return _ => after = ∅
     | Raise _ =>
         after = OrderManager.active_breakout_orders (OrderManager.self s)
     end.
Proof.
  intros out after. unfold after, out, OrderManager.cleanup.
  unfold OrderManager.stop_monitoring, OrderManager.logger.
  unfold try_except, bind, modify.
  cbn [fst snd].
  match goal with
  | |- context [OrderManager.cancel_all_pending _ _ None ?x] =>
      set (s0 := x)
  end.
  destruct (cancel_all_pending_all_eq cancel_order_api cancel_all_orders_api
              None s0 (or_introl eq_refl)) as (_ & Hrm & He & Hm & H).
  cbv zeta in Hrm, He, Hm, H.
  destruct (OrderManager.cancel_all_pending cancel_order_api
              cancel_all_orders_api None s0) as [r s1].
  cbn [fst snd] in *.
  change (OrderManager.api s0) with (OrderManager.api s) in H.
  assert (Hr : exists ok, r = Return ok).
  { destruct (fst (cancel_all_orders_api (OrderManager.api s)));
      destruct H as [-> _]; eauto. }
  destruct Hr as [ok ->]. cbn [fst snd OrderManager.on_world
    OrderManager.self OrderManager.risk_manager].
  split; [reflexivity |].
  split; [rewrite Hm; reflexivity |].
  split; [rewrite He; reflexivity |].
  split; [rewrite Hrm; reflexivity |].
  destruct (fst (cancel_all_orders_api (OrderManager.api s)));
    destruct H as [_ ->]; reflexivity.
Qed.

(** ** Order manager: after a placement *)

Section PlacementAftermath.

Import OrderManager.

Context {Broker : Type}.
Variable submit_order : OrderParams -> M Broker OrderInfo.
Variable can_trade : Q -> option Q -> M RiskManager.Ledger bool.
Variable calculate_position_size :
  Q -> Q -> Q -> option Q -> M RiskManager.Ledger Z.
Variables (symbol : string).
Variables (long_entry short_entry stop_loss_points take_profit_points
             account_equity : Q).
Variable s : System Broker.

Local Abbreviation the_risk_check := (risk_check can_trade account_equity s).
Local Abbreviation the_sizing :=
  (sizing can_trade calculate_position_size long_entry stop_loss_points
     account_equity s).
Local Abbreviation the_long_leg :=
  (long_leg submit_order symbol long_entry stop_loss_points
     take_profit_points s).
Local Abbreviation the_short_leg :=
  (short_leg submit_order symbol long_entry short_entry stop_loss_points
     take_profit_points s).
Local Abbreviation the_placement :=
  (placement submit_order can_trade calculate_position_size symbol
     long_entry short_entry stop_loss_points take_profit_points
     account_equity s).
Local Abbreviation the_outcome :=
  (outcome submit_order can_trade calculate_position_size symbol
     long_entry short_entry stop_loss_points take_profit_points
     account_equity s).

(** What a call leaves besides the table: the executed trades, the
    monitoring flag and the brokerage, outcome by outcome. *)
Lemma placement_rest_by_outcome :
  executed_trades (self (snd the_placement)) = executed_trades (self s)
  /\ match the_outcome with
     | Placed n _ _ =>
         api (snd the_placement) = snd (the_short_leg n)
         /\ monitoring_active (self (snd the_placement)) = true
     | ShortRaised n _ _ =>
         api (snd the_placement) = snd (the_short_leg n)
         /\ monitoring_active (self (snd the_placement))
            = monitoring_active (self s)
     | LongRaised n _ =>
         api (snd the_placement) = snd (the_long_leg n)
         /\ monitoring_active (self (snd the_placement))
            = monitoring_active (self s)
     | _ =>
         api (snd the_placement) = api s
         /\ monitoring_active (self (snd the_placement))
            = monitoring_active (self s)
     end.
Proof.
  unfold outcome, placement, sizing, short_leg, long_leg, risk_check.
  unfold place_breakout_orders, try_except, bind, call_risk_manager,
    call_api, zoom.
  destruct (can_trade account_equity None (ledger s)) as [[[|] | e] l1];
    cbn [fst snd negb ret raise].
  - rewrite ledger_set_ledger.
    destruct (calculate_position_size _ _ _ _ l1) as [[n | e] l2];
      cbn [fst snd].
    + destruct (n <=? 0)%Z; cbn [raise ret fst snd].
      * cbn. repeat split; reflexivity.
      * cbn [logger modify on_world set_ledger api self risk_manager world
               fst snd].
        destruct (submit_order (long_order_params _ _ _ _ _) (api s))
          as [[lo | e] b1] eqn:E1; cbn [fst snd set_api api self].
        -- destruct (submit_order (short_order_params _ _ _ _ _) b1)
             as [[so | e] b2] eqn:E2; cbn [fst snd set_api api self].
           ++ unfold gets, modify, start_monitoring, bind, logger, ret.
              cbn [fst snd self on_self set_active monitoring_active
                     active_breakout_orders negb].
              cbn [fst snd self on_self set_active set_api on_world set_ledger
                     monitoring_active active_breakout_orders negb].
              rewrite E1. cbn [snd]. rewrite E2.
              destruct (monitoring_active (self s)) eqn:E;
                cbn -[long_order_params short_order_params]; rewrite ?E;
                cbn -[long_order_params short_order_params];
                repeat split; reflexivity.
           ++ rewrite E1. cbn [snd]. rewrite E2.
              destruct e; cbn -[long_order_params short_order_params];
                repeat split; reflexivity.
        -- rewrite E1.
           destruct e; cbn -[long_order_params short_order_params];
             repeat split; reflexivity.
    + destruct e; cbn; repeat split; reflexivity.
  - cbn. repeat split; reflexivity.
  - destruct e; cbn; repeat split; reflexivity.
Qed.

(** A call that returns went through every step. *)
Lemma placement_returned (pair : BreakoutOrders) :
  fst the_placement = Return pair ->
  exists n long_order short_order,
    the_outcome = Placed n long_order short_order.
Proof.
  generalize (placement_by_outcome submit_order can_trade
                calculate_position_size symbol long_entry short_entry
                stop_loss_points take_profit_points account_equity s).
  destruct the_outcome; try (intros [[msg Hm] _] Hp; congruence).
  intros _ _. eauto.
Qed.

End PlacementAftermath.

(** X18: a pair that has been placed is tracked until it is cancelled:
    after a [place_breakout_orders] call that returns,
    [has_active_orders] answers [True] both for the symbol and for any
    symbol, and monitoring is on; after [cancel_all_pending(symbol)]
    [has_active_orders(symbol)] answers [False], even when the brokerage
    refuses the cancellations, and if the symbol was not tracked before
    the placement the table is back to what it was. *)
Theorem placed_pair_active_until_cancelled {Broker : Type}
    (submit_order : OrderParams -> M Broker OrderInfo)
    (cancel_order_api : string -> M Broker bool)
    (cancel_all_orders_api : M Broker bool)
    (can_trade : Q -> option Q -> M RiskManager.Ledger bool)
    (calculate_position_size :
       Q -> Q -> Q -> option Q -> M RiskManager.Ledger Z)
    (symbol : string)
    (long_entry short_entry stop_loss_points take_profit_points
       account_equity : Q)
    (s : OrderManager.System Broker) (pair : BreakoutOrders) :
  symbol <> "" ->
  fst (OrderManager.place_breakout_orders submit_order can_trade
         calculate_position_size symbol long_entry short_entry
         stop_loss_points take_profit_points account_equity s)
  = Return pair ->
  let placed :=
    snd (OrderManager.place_breakout_orders submit_order can_trade
           calculate_position_size symbol long_entry short_entry
           stop_loss_points take_profit_points account_equity s) in
  let cancelled :=
    snd (OrderManager.cancel_all_pending cancel_order_api
           cancel_all_orders_api (Some symbol) placed) in
  fst (OrderManager.has_active_orders (Some symbol) placed) = Return true
  /\ fst (OrderManager.has_active_orders None placed) = Return true
  /\ OrderManager.monitoring_active (OrderManager.self placed) = true
  /\ fst (OrderManager.has_active_orders (Some symbol) cancelled)
     = Return false
  /\ (OrderManager.active_breakout_orders (OrderManager.self s) !! symbol
      = None ->
      OrderManager.active_breakout_orders (OrderManager.self cancelled)
      = OrderManager.active_breakout_orders (OrderManager.self s)).
Proof.
  intros Hsym Hret placed cancelled.
  destruct (placement_returned submit_order can_trade calculate_position_size
              symbol long_entry short_entry stop_loss_points
              take_profit_points account_equity s pair Hret)
    as (n & lo & so & Hout).
  pose proof (placement_by_outcome submit_order can_trade
                calculate_position_size symbol long_entry short_entry
                stop_loss_points take_profit_points account_equity s) as Ht.
  pose proof (placement_rest_by_outcome submit_order can_trade
                calculate_position_size symbol long_entry short_entry
                stop_loss_points take_profit_points account_equity s)
    as [_ Hm].
  rewrite Hout in Ht, Hm. destruct Ht as [_ Ht]. destruct Hm as [_ Hm].
  unfold placement in Ht, Hm. fold placed in Ht, Hm.
  destruct (cancel_all_pending_symbol_eq cancel_order_api
              cancel_all_orders_api symbol placed Hsym)
    as (_ & Hs & _).
  fold cancelled in Hs.
  unfold OrderManager.has_active_orders, bind, gets.
  rewrite (truthy_some symbol Hsym). unfold ret.
  cbn [fst OrderManager.truthy].
  rewrite Hs, Ht. cbn [OrderManager.set_active
                         OrderManager.active_breakout_orders].
  rewrite lookup_insert_eq, lookup_delete_eq.
  split; [reflexivity |].
  split.
  { f_equal. apply Nat.ltb_lt.
    pose proof (map_size_insert symbol
                  (pair_of symbol long_entry short_entry stop_loss_points
                     take_profit_points n lo so)
                  (OrderManager.active_breakout_orders (OrderManager.self s)))
      as Hsz.
    assert (Hne : size (<[symbol :=
                   pair_of symbol long_entry short_entry stop_loss_points
                     take_profit_points n lo so]>
                   (OrderManager.active_breakout_orders
                      (OrderManager.self s))) <> 0%nat)
      by (apply map_size_non_empty_iff, insert_non_empty).
    lia. }
  split; [exact Hm |].
  split; [reflexivity |].
  intros Hnew. apply delete_insert_id. exact Hnew.
Qed.

(** Both submissions accepted, then both cancellations rejected. *)
Lemma placed_pair_active_until_cancelled_witness :
  let placed :=
    snd (OrderManager.place_breakout_orders scripted_submit
           RiskManager.can_trade RiskManager.calculate_position_size
           "MNQ" 15035 14965 25 50 100000
           (trading_system [Return (accepted "long_order_123");
                            Return (accepted "short_order_456")])) in
  fst (OrderManager.has_active_orders (Some "MNQ") placed) = Return true
  /\ fst (OrderManager.has_active_orders (Some "MNQ")
            (snd (OrderManager.cancel_all_pending rejected_cancel
                    rejected_cancel_all (Some "MNQ") placed)))
     = Return false.
Proof.
  destruct (placed_pair_active_until_cancelled scripted_submit
              rejected_cancel rejected_cancel_all
              RiskManager.can_trade RiskManager.calculate_position_size
              "MNQ" 15035 14965 25 50 100000
              (trading_system [Return (accepted "long_order_123");
                               Return (accepted "short_order_456")])
              mnq_pair)
    as (H1 & _ & _ & H2 & _).
  - discriminate.
  - vm_compute. reflexivity.
  - split; [exact H1 | exact H2].
Defined.

(** X19: a failure on the short leg is not compensated: when the long
    order has been accepted and the submission of the short order raises,
    the call raises [OrderManagerError] and the order manager goes on as
    if nothing had been sent: the table of active orders, the executed
    trades and the monitoring flag are as before, so that the accepted long
    order is tracked nowhere, and the brokerage is left in the state the
    two submissions produced. *)
Theorem failed_short_leg_leaves_long_order {Broker : Type}
    (submit_order : OrderParams -> M Broker OrderInfo)
    (can_trade : Q -> option Q -> M RiskManager.Ledger bool)
    (calculate_position_size :
       Q -> Q -> Q -> option Q -> M RiskManager.Ledger Z)
    (symbol : string)
    (long_entry short_entry stop_loss_points take_profit_points
       account_equity : Q)
    (s : OrderManager.System Broker)
    (n : Z) (long_order : OrderInfo) (e : exn) :
  fst (risk_check can_trade account_equity s) = Return true ->
  fst (sizing can_trade calculate_position_size long_entry stop_loss_points
         account_equity s) = Return n ->
  (0 < n)%Z ->
  fst (long_leg submit_order symbol long_entry stop_loss_points
         take_profit_points s n) = Return long_order ->
  fst (short_leg submit_order symbol long_entry short_entry stop_loss_points
         take_profit_points s n) = Raise e ->
  let out :=
    OrderManager.place_breakout_orders submit_order can_trade
      calculate_position_size symbol long_entry short_entry
      stop_loss_points take_profit_points account_equity s in
  (exists msg, fst out = Raise (OrderManagerError msg))
  /\ OrderManager.active_breakout_orders (OrderManager.self (snd out))
     = OrderManager.active_breakout_orders (OrderManager.self s)
  /\ OrderManager.executed_trades (OrderManager.self (snd out))
     = OrderManager.executed_trades (OrderManager.self s)
  /\ OrderManager.monitoring_active (OrderManager.self (snd out))
     = OrderManager.monitoring_active (OrderManager.self s)
  /\ OrderManager.api (snd out)
     = snd (short_leg submit_order symbol long_entry short_entry
              stop_loss_points take_profit_points s n).
Proof.
  intros Hcheck Hsize Hn Hlong Hshort out.
  assert (Hout :
    outcome submit_order can_trade calculate_position_size symbol
      long_entry short_entry stop_loss_points take_profit_points
      account_equity s
    = ShortRaised n long_order e).
  { unfold outcome. rewrite Hcheck, Hsize.
    destruct (Z.leb_spec n 0); [lia |]. rewrite Hlong, Hshort. reflexivity. }
  pose proof (placement_by_outcome submit_order can_trade
                calculate_position_size symbol long_entry short_entry
                stop_loss_points take_profit_points account_equity s) as Ht.
  pose proof (placement_rest_by_outcome submit_order can_trade
                calculate_position_size symbol long_entry short_entry
                stop_loss_points take_profit_points account_equity s)
    as [He Hm].
  rewrite Hout in Ht, Hm. destruct Ht as [Hr Ht]. destruct Hm as [Ha Hm].
  unfold placement in Hr, Ht, He, Ha, Hm. fold out in Hr, Ht, He, Ha, Hm.
  auto.
Qed.

(** The long order is accepted, the short one refused: nothing is tracked
    and the brokerage has consumed both submissions. *)
Lemma failed_short_leg_leaves_long_order_witness :
  let out :=
    OrderManager.place_breakout_orders scripted_submit
      RiskManager.can_trade RiskManager.calculate_position_size
      "MNQ" 15035 14965 25 50 100000
      (trading_system [Return (accepted "long_order_123");
                       Raise (AlpacaAPIError "rejected")]) in
  (exists msg, fst out = Raise (OrderManagerError msg))
  /\ OrderManager.active_breakout_orders (OrderManager.self (snd out)) = ∅
  /\ OrderManager.api (snd out) = [].
Proof.
  destruct (failed_short_leg_leaves_long_order scripted_submit
              RiskManager.can_trade RiskManager.calculate_position_size
              "MNQ" 15035 14965 25 50 100000
              (trading_system [Return (accepted "long_order_123");
                               Raise (AlpacaAPIError "rejected")])
              4%Z (accepted "long_order_123") (AlpacaAPIError "rejected"))
    as (H1 & H2 & _ & _ & H3).
  - vm_compute. reflexivity.
  - vm_compute. reflexivity.
  - reflexivity.
  - vm_compute. reflexivity.
  - vm_compute. reflexivity.
  - split; [exact H1 |]. split; [exact H2 | exact H3].
Defined.

(** ** Order manager: fills and monitoring *)

Section Monitoring.

Import OrderManager.

Context {Broker : Type}.
Variable cancel_order_api : string -> M Broker bool.
Variable get_order_status : option string -> M Broker OrderInfo.

(** [_check_order_status] turns every failure into the answer
    ["unknown"]. *)
Lemma _check_order_status_inv (id : string) (s s1 : System Broker)
    (r : Res string) :
  _check_order_status get_order_status id s = (r, s1) ->
  r = Return (match fst (get_order_status (Some id) (api s)) with
              | Return info => oi_status info
              | Raise _ => "unknown"
              end)
  /\ self s1 = self s
  /\ risk_manager s1 = risk_manager s
  /\ api s1 = snd (get_order_status (Some id) (api s))
  /\ clock (world s1) = clock (world s)
  /\ data_file (world s1) = data_file (world s).
Proof.
  unfold _check_order_status, try_except, bind, call_api, zoom.
  destruct (get_order_status (Some id) (api s)) as [[info | e] b];
    cbn [fst snd]; unfold logger, modify, ret; cbn;
    intros H; simplify_eq; repeat split; reflexivity.
Qed.

(** [_handle_order_fill]: the books it leaves. *)
Lemma _handle_order_fill_inv (orders : BreakoutOrders) (side : string)
    (s s1 : System Broker) (r : Res unit) :
  _handle_order_fill cancel_order_api get_order_status orders side s
  = (r, s1) ->
  let filled_order_id :=
    if String.eqb side "long" then long_order_id orders
    else short_order_id orders in
  r = Return tt
  /\ active_breakout_orders (self s1) = active_breakout_orders (self s)
  /\ monitoring_active (self s1) = monitoring_active (self s)
  /\ risk_manager s1 = risk_manager s
  /\ clock (world s1) = clock (world s)
  /\ data_file (world s1) = data_file (world s)
  /\ match fst (get_order_status filled_order_id (api s)) with
     | Return order_status =>
         let entry_price := oi_filled_avg_price order_status in
         executed_trades (self s1)
         = (executed_trades (self s)
            ++ [{| te_order_id := filled_order_id;
                   te_symbol := bo_symbol orders;
                   te_side := side;
                   te_quantity := bo_position_size orders;
                   te_entry_price := entry_price;
                   te_timestamp := clock (world s);
                   te_stop_loss :=
                     if String.eqb side "long"
                     then entry_price - bo_stop_loss_points orders
                     else entry_price + bo_stop_loss_points orders;
                   te_take_profit :=
                     if String.eqb side "long"
                     then entry_price + bo_take_profit_points orders
                     else entry_price - bo_take_profit_points orders |}])%list
     | Raise _ => executed_trades (self s1) = executed_trades (self s)
     end.
Proof.
  unfold _handle_order_fill, try_except. unfold bind at 1. unfold call_api, zoom.
  destruct (get_order_status _ (api s)) as [[info | e] b]; cbn [fst snd].
  - unfold bind at 1.
    match goal with
    | |- context [match ?m (set_api b s) with _ => _ end] =>
        assert (Hm : exists s0, m (set_api b s) = (Return tt, s0)
                  /\ self s0 = self s /\ risk_manager s0 = risk_manager s
                  /\ clock (world s0) = clock (world s)
                  /\ data_file (world s0) = data_file (world s))
    end.
    { destruct (if String.eqb side "long" then short_order_id orders
                else long_order_id orders) as [id |];
        [| eexists; split; [reflexivity | auto]].
      destruct (String.eqb id "");
        [eexists; split; [reflexivity | auto] |].
      unfold bind.
      destruct (cancel_order cancel_order_api id (set_api b s))
        as [r0 s0] eqn:E0.
      apply cancel_order_inv in E0.
      destruct E0 as (-> & Hs & Hr & _ & Hc & Hf).
      unfold logger, modify. eexists. split; [reflexivity |].
      cbn [on_world self risk_manager world emit set_log clock data_file].
      auto. }
    destruct Hm as (s0 & -> & Hs & Hr & Hc & Hf).
    unfold bind, gets, logger, modify. cbn beta iota.
    intros H. simplify_eq.
    cbn [on_world on_self self risk_manager world emit set_log clock
           data_file set_executed active_breakout_orders monitoring_active
           executed_trades].
    rewrite Hs, Hr, Hc, Hf. repeat split; reflexivity.
  - unfold logger, modify. intros H. simplify_eq. cbn.
    repeat split; reflexivity.
Qed.


Lemma appended_refl (s s1 : System Broker) :
  self s1 = self s -> risk_manager s1 = risk_manager s ->
  clock (world s1) = clock (world s) ->
  data_file (world s1) = data_file (world s) ->
  appended [] s s1.
Proof.
  intros Hs Hr Hc Hf. unfold appended. rewrite Hs, app_nil_r. auto 10.
Qed.

Lemma appended_trans (new1 new2 : list TradeExecution)
    (s s1 s2 : System Broker) :
  appended new1 s s1 -> appended new2 s1 s2 ->
  appended (new1 ++ new2) s s2.
Proof.
  intros (Ha1 & Hm1 & He1 & Hr1 & Hc1 & Hf1) (Ha2 & Hm2 & He2 & Hr2 & Hc2 & Hf2).
  unfold appended.
  rewrite Ha2, Hm2, He2, Hr2, Hc2, Hf2, He1, app_assoc. auto 10.
Qed.

(** A fill appends one execution, or none when the order's details
    cannot be read. *)
Lemma _handle_order_fill_appends (orders : BreakoutOrders) (side : string)
    (s s1 : System Broker) (r : Res unit) :
  _handle_order_fill cancel_order_api get_order_status orders side s
  = (r, s1) ->
  r = Return tt
  /\ exists new, appended new s s1 /\ (length new <= 1)%nat.
Proof.
  intros H. apply _handle_order_fill_inv in H. cbv zeta in H.
  destruct H as (-> & Ha & Hm & Hr & Hc & Hf & He).
  split; [reflexivity |].
  destruct (fst (get_order_status _ (api s))).
  - eexists. split; [unfold appended; rewrite He; auto 10 |]. cbn. lia.
  - exists []. split; [| cbn; lia].
    unfold appended. rewrite He, app_nil_r. auto 10.
Qed.

(** One optional order of a pair, as [_monitor_orders] looks at it. *)
Lemma _monitor_orders_side_inv (orders : BreakoutOrders)
    (order_id : option string) (side : string) (s s1 : System Broker)
    (r : Res bool) :
  match truthy order_id with
  | Some id =>
      (status <- _check_order_status get_order_status id ;;
       if String.eqb status "filled" then
         _handle_order_fill cancel_order_api get_order_status orders side ;;;
         ret true
       else ret false)%monad
  | None => ret false
  end s = (r, s1) ->
  exists filled new,
    r = Return filled /\ appended new s s1
    /\ (length new <= if filled then 1 else 0)%nat.
Proof.
  destruct (truthy order_id) as [id |].
  - unfold bind.
    destruct (_check_order_status get_order_status id s) as [r0 s0] eqn:E0.
    apply _check_order_status_inv in E0.
    destruct E0 as (-> & Hs & Hr & _ & Hc & Hf).
    pose proof (appended_refl s s0 Hs Hr Hc Hf) as H0.
    destruct (String.eqb _ "filled").
    + destruct (_handle_order_fill cancel_order_api get_order_status orders
                  side s0) as [r1 s1'] eqn:E1.
      apply _handle_order_fill_appends in E1.
      destruct E1 as (-> & new & Hnew & Hlen).
      unfold ret. intros H. simplify_eq.
      exists true, new. split; [reflexivity |].
      split; [exact (appended_trans [] new s s0 s1 H0 Hnew) | exact Hlen].
    + unfold ret. intros H. simplify_eq.
      exists false, []. split; [reflexivity |]. split; [exact H0 | cbn; lia].
  - unfold ret. intros H. simplify_eq.
    exists false, []. split; [reflexivity |].
    split; [apply appended_refl; reflexivity | cbn; lia].
Qed.

Lemma _monitor_orders_body_inv (orders : BreakoutOrders)
    (s s1 : System Broker) (r : Res bool) :
  _monitor_orders_body cancel_order_api get_order_status orders s = (r, s1) ->
  exists filled new,
    r = Return filled /\ appended new s s1
    /\ (length new <= if filled then 1 else 0)%nat.
Proof.
  unfold _monitor_orders_body. unfold bind at 1.
  match goal with
  | |- context [match ?m s with _ => _ end] =>
      destruct (m s) as [r0 s0] eqn:E0
  end.
  apply _monitor_orders_side_inv in E0.
  destruct E0 as (filled & new & -> & Hnew & Hlen).
  destruct filled.
  - unfold ret. intros H. simplify_eq. eauto.
  - intros H. apply _monitor_orders_side_inv in H.
    destruct H as (filled & new' & -> & Hnew' & Hlen').
    exists filled, (new ++ new')%list. split; [reflexivity |].
    split; [exact (appended_trans _ _ _ _ _ Hnew Hnew') |].
    destruct new; [exact Hlen' | cbn in Hlen; lia].
Qed.

Lemma _monitor_orders_scan_inv (items : list (string * BreakoutOrders))
    (s s1 : System Broker) (r : Res (list string)) :
  _monitor_orders_scan cancel_order_api get_order_status items s = (r, s1) ->
  exists symbols_to_remove new,
    r = Return symbols_to_remove /\ appended new s s1
    /\ sublist symbols_to_remove (map fst items)
    /\ (length new <= length symbols_to_remove)%nat.
Proof.
  revert s s1 r. induction items as [| [symbol orders] rest IH];
    intros s s1 r.
  - cbn. unfold ret. intros H. simplify_eq.
    exists [], []. split; [reflexivity |].
    split; [apply appended_refl; reflexivity |].
    split; [constructor | cbn; lia].
  - cbn [_monitor_orders_scan map fst]. unfold bind at 1.
    destruct (_monitor_orders_body cancel_order_api get_order_status orders s)
      as [r0 s0] eqn:E0.
    apply _monitor_orders_body_inv in E0.
    destruct E0 as (filled & new & -> & Hnew & Hlen).
    unfold bind.
    destruct (_monitor_orders_scan cancel_order_api get_order_status rest s0)
      as [r1 s1'] eqn:E1.
    apply IH in E1. destruct E1 as (symbols & new' & -> & Hnew' & Hsub & Hlen').
    unfold ret. intros H. simplify_eq.
    exists (if filled then symbol :: symbols else symbols), (new ++ new')%list.
    split; [reflexivity |].
    split; [exact (appended_trans _ _ _ _ _ Hnew Hnew') |].
    rewrite length_app.
    destruct filled.
    + split; [apply sublist_skip; exact Hsub | cbn; lia].
    + split; [apply sublist_cons; exact Hsub | lia].
Qed.

Lemma remove_symbols_subseteq (symbols : list string)
    (active : gmap string BreakoutOrders) :
  remove_symbols symbols active ⊆ active.
Proof.
  revert active. induction symbols as [| symbol rest IH]; intros active.
  - reflexivity.
  - cbn. etrans; [apply IH | apply delete_subseteq].
Qed.

Lemma remove_symbols_size (symbols : list string)
    (active : gmap string BreakoutOrders) :
  NoDup symbols ->
  (forall symbol, symbol ∈ symbols -> is_Some (active !! symbol)) ->
  (size (remove_symbols symbols active) + length symbols = size active)%nat.
Proof.
  revert active. induction symbols as [| symbol rest IH];
    intros active Hnd Hin.
  - cbn. lia.
  - apply NoDup_cons in Hnd. destruct Hnd as [Hnotin Hnd].
    cbn [remove_symbols fold_left length].
    change (fold_left (fun a x => delete x a) rest (delete symbol active))
      with (remove_symbols rest (delete symbol active)).
    assert (Hs : is_Some (active !! symbol))
      by (apply Hin; left).
    pose proof (map_size_delete_Some symbol active Hs) as Hd.
    assert (Hpos : size active <> 0%nat)
      by (apply (map_size_ne_0_lookup_2 active symbol Hs)).
    assert (Hrest : forall x, x ∈ rest -> is_Some (delete symbol active !! x)).
    { intros x Hx. rewrite lookup_delete_ne.
      - apply Hin. right. exact Hx.
      - intros ->. contradiction. }
    pose proof (IH (delete symbol active) Hnd Hrest) as Hi.
    cbn [length]. lia.
Qed.

(** One turn of the monitoring loop, from what its scan found. *)
Lemma _monitor_orders_turn_eq (items : list (string * BreakoutOrders))
    (s : System Broker) :
  let out :=
    _monitor_orders_turn cancel_order_api get_order_status items s in
  exists symbols_to_remove new,
    fst (_monitor_orders_scan cancel_order_api get_order_status items s)
    = Return symbols_to_remove
    /\ sublist symbols_to_remove (map fst items)
    /\ (length new <= length symbols_to_remove)%nat
    /\ let active := remove_symbols symbols_to_remove
                       (active_breakout_orders (self s)) in
       active_breakout_orders (self (snd out)) = active
       /\ executed_trades (self (snd out))
          = (executed_trades (self s) ++ new)%list
       /\ risk_manager (snd out) = risk_manager s
       /\ data_file (world (snd out)) = data_file (world s)
       /\ fst out = Return (negb (bool_decide (active = ∅)))
       /\ monitoring_active (self (snd out))
          = (if decide (active = ∅) then false
             else monitoring_active (self s))
       /\ clock (world (snd out))
          = (clock (world s) + if decide (active = ∅) then 0 else 10)%Z.
Proof.
  intros out. subst out.
  destruct (_monitor_orders_turn cancel_order_api get_order_status items s)
    as [r s1] eqn:Eout.
  revert Eout. unfold _monitor_orders_turn, try_except. unfold bind at 1.
  destruct (_monitor_orders_scan cancel_order_api get_order_status items s)
    as [r0 s0] eqn:E0.
  apply _monitor_orders_scan_inv in E0.
  destruct E0 as (symbols & new & -> & (Ha & Hm & He & Hr & Hc & Hf)
                  & Hsub & Hlen).
  unfold sleep, bind, gets, modify, ret.
  cbn [fst snd on_self self set_active active_breakout_orders].
  rewrite Ha. cbv zeta.
  destruct (decide (remove_symbols symbols (active_breakout_orders (self s))
                    = ∅)) as [Hempty | Hfull];
    intros H; simplify_eq; exists symbols, new;
    (split; [reflexivity |]); (split; [exact Hsub |]);
    (split; [exact Hlen |]);
    cbn [fst snd on_self on_world self set_active set_monitoring
           active_breakout_orders executed_trades monitoring_active
           risk_manager world clock data_file].
  - rewrite !decide_True by exact Hempty.
    rewrite (bool_decide_eq_true_2 _ Hempty), He, Hr, Hf, Hc, Z.add_0_r.
    repeat split; reflexivity.
  - rewrite !decide_False by exact Hfull.
    rewrite (bool_decide_eq_false_2 _ Hfull), He, Hr, Hf, Hc, Hm.
    repeat split; reflexivity.
Qed.

(** On a brokerage that reports no fill the scan finds nothing. *)
Lemma _monitor_orders_side_quiet (orders : BreakoutOrders)
    (order_id : option string) (side : string) (s s1 : System Broker)
    (r : Res bool) :
  never_filled get_order_status ->
  match truthy order_id with
  | Some id =>
      (status <- _check_order_status get_order_status id ;;
       if String.eqb status "filled" then
         _handle_order_fill cancel_order_api get_order_status orders side ;;;
         ret true
       else ret false)%monad
  | None => ret false
  end s = (r, s1) ->
  r = Return false /\ appended [] s s1.
Proof.
  intros Hquiet. destruct (truthy order_id) as [id |].
  - unfold bind.
    destruct (_check_order_status get_order_status id s) as [r0 s0] eqn:E0.
    apply _check_order_status_inv in E0.
    destruct E0 as (-> & Hs & Hr & _ & Hc & Hf).
    specialize (Hquiet (Some id) (api s)).
    assert (Hno : String.eqb
                    match fst (get_order_status (Some id) (api s)) with
                    | Return info => oi_status info
                    | Raise _ => "unknown"
                    end "filled" = false).
    { destruct (fst (get_order_status (Some id) (api s))).
      - apply String.eqb_neq. exact Hquiet.
      - reflexivity. }
    rewrite Hno. unfold ret. intros H. simplify_eq.
    split; [reflexivity | exact (appended_refl s s1 Hs Hr Hc Hf)].
  - unfold ret. intros H. simplify_eq.
    split; [reflexivity | apply appended_refl; reflexivity].
Qed.

Lemma _monitor_orders_scan_quiet (items : list (string * BreakoutOrders))
    (s s1 : System Broker) (r : Res (list string)) :
  never_filled get_order_status ->
  _monitor_orders_scan cancel_order_api get_order_status items s = (r, s1) ->
  r = Return [] /\ appended [] s s1.
Proof.
  intros Hquiet. revert s s1 r.
  induction items as [| [symbol orders] rest IH]; intros s s1 r.
  - cbn. unfold ret. intros H. simplify_eq.
    split; [reflexivity | apply appended_refl; reflexivity].
  - cbn [_monitor_orders_scan]. unfold bind at 1.
    unfold _monitor_orders_body. unfold bind at 1.
    match goal with
    | |- context [match ?m s with _ => _ end] =>
        destruct (m s) as [r0 s0] eqn:E0
    end.
    apply (_monitor_orders_side_quiet _ _ _ _ _ _ Hquiet) in E0.
    destruct E0 as (-> & H0).
    match goal with
    | |- context [match ?m s0 with _ => _ end] =>
        destruct (m s0) as [r1 s1'] eqn:E1
    end.
    apply (_monitor_orders_side_quiet _ _ _ _ _ _ Hquiet) in E1.
    destruct E1 as (-> & H1).
    unfold bind.
    destruct (_monitor_orders_scan cancel_order_api get_order_status rest s1')
      as [r2 s2] eqn:E2.
    apply IH in E2. destruct E2 as (-> & H2).
    unfold ret. intros H. simplify_eq.
    split; [reflexivity |].
    exact (appended_trans [] [] _ _ _ (appended_trans [] [] _ _ _ H0 H1) H2).
Qed.

End Monitoring.

(** X20: [_handle_order_fill] never raises and leaves the table of active
    orders and the risk manager alone.  When the details of the filled
    order can be read it appends exactly one [TradeExecution], whether or
    not the cancellation of the opposite order succeeds: entered at the
    average fill price, stamped with the current time, with the stop and
    the target at the pair's distances from the fill price (below and
    above it for the long side, above and below it otherwise).  When the
    details cannot be read nothing is appended. *)
Theorem handle_order_fill_records {Broker : Type}
    (cancel_order_api : string -> M Broker bool)
    (get_order_status : option string -> M Broker OrderInfo)
    (orders : BreakoutOrders) (side : string)
    (s : OrderManager.System Broker) :
  let out :=
    OrderManager._handle_order_fill cancel_order_api get_order_status
      orders side s in
  let filled_order_id :=
    if String.eqb side "long" then long_order_id orders
    else short_order_id orders in
  let before := OrderManager.executed_trades (OrderManager.self s) in
  let after := OrderManager.executed_trades (OrderManager.self (snd out)) in
  fst out = Return tt
  /\ OrderManager.active_breakout_orders (OrderManager.self (snd out))
     = OrderManager.active_breakout_orders (OrderManager.self s)
  /\ OrderManager.risk_manager (snd out) = OrderManager.risk_manager s
  /\ match fst (get_order_status filled_order_id (OrderManager.api s)) with
     | Return order_status =>
         let price := oi_filled_avg_price order_status in
         after
         = (before
            ++ [{| te_order_id := filled_order_id;
                   te_symbol := bo_symbol orders;
                   te_side := side;
                   te_quantity := bo_position_size orders;
                   te_entry_price := price;
                   te_timestamp := clock (OrderManager.world s);
                   te_stop_loss :=
                     if String.eqb side "long"
                     then price - bo_stop_loss_points orders
                     else price + bo_stop_loss_points orders;
                   te_take_profit :=
                     if String.eqb side "long"
                     then price + bo_take_profit_points orders
                     else price - bo_take_profit_points orders |}])%list
     | Raise _ => after = before
     end.
Proof.
  intros out filled_order_id before after.
  destruct out as [r s1] eqn:E. unfold after, before. cbn [fst snd].
  apply _handle_order_fill_inv in E. cbv zeta in E.
  destruct E as (-> & Ha & _ & Hr & _ & _ & He). auto.
Qed.

(** X21: one turn of the monitoring loop over the items of the table
    never raises, whatever the brokerage does.  It only appends to the
    executed trades and only removes from the table, and every execution
    it appends takes one pair out of the table; the risk manager is not
    touched.  The loop stops, with the monitoring flag off, exactly when
    the table is left empty; otherwise the turn ends with a sleep of 10
    seconds. *)
Theorem monitor_turn_shrinks_and_appends {Broker : Type}
    (cancel_order_api : string -> M Broker bool)
    (get_order_status : option string -> M Broker OrderInfo)
    (items : list (string * BreakoutOrders))
    (s : OrderManager.System Broker) :
  items ≡ₚ map_to_list
             (OrderManager.active_breakout_orders (OrderManager.self s)) ->
  let out :=
    OrderManager._monitor_orders_turn cancel_order_api get_order_status
      items s in
  let before := OrderManager.active_breakout_orders (OrderManager.self s) in
  let after :=
    OrderManager.active_breakout_orders (OrderManager.self (snd out)) in
  exists new,
    OrderManager.executed_trades (OrderManager.self (snd out))
    = (OrderManager.executed_trades (OrderManager.self s) ++ new)%list
    /\ after ⊆ before
    /\ (length new + size after <= size before)%nat
    /\ OrderManager.risk_manager (snd out) = OrderManager.risk_manager s
    /\ fst out = Return (negb (bool_decide (after = ∅)))
    /\ OrderManager.monitoring_active (OrderManager.self (snd out))
       = (if decide (after = ∅) then false
          else OrderManager.monitoring_active (OrderManager.self s))
    /\ clock (OrderManager.world (snd out))
       = (clock (OrderManager.world s)
          + if decide (after = ∅) then 0 else 10)%Z.
Proof.
  intros Hitems out before after.
  destruct (_monitor_orders_turn_eq cancel_order_api get_order_status items s)
    as (symbols & new & _ & Hsub & Hlen & Ha & He & Hr & _ & Hret & Hm & Hc).
  fold out in Ha, He, Hr, Hret, Hm, Hc. fold before in Ha, Hret, Hm, Hc.
  fold after in Ha. rewrite <- Ha in Hret, Hm, Hc.
  exists new. split; [exact He |].
  split; [rewrite Ha; apply remove_symbols_subseteq |].
  split; [| auto].
  assert (Hnd : NoDup (map fst items)).
  { rewrite Hitems. apply NoDup_fst_map_to_list. }
  assert (Hsize : (size after + length symbols = size before)%nat).
  { rewrite Ha. apply remove_symbols_size.
    - exact (sublist_NoDup _ _ Hnd Hsub).
    - intros symbol Hin.
      assert (Hin' : symbol ∈ map fst items)
        by (eapply elem_of_sublist; eassumption).
      apply list_elem_of_fmap in Hin'.
      destruct Hin' as ([symbol' orders] & -> & Hitem).
      rewrite Hitems in Hitem. apply elem_of_map_to_list in Hitem.
      exists orders. exact Hitem. }
  lia.
Qed.

(** The long order of the MNQ pair is filled at 15036: the turn records
    one execution, empties the table and stops the loop. *)
Lemma monitor_turn_shrinks_and_appends_witness :
  let out :=
    OrderManager._monitor_orders_turn accepted_cancel scripted_status
      [("MNQ", mnq_pair)]
      (tracking_system [Return (filled_at "long_order_123" 15036);
                        Return (filled_at "long_order_123" 15036)]) in
  exists new,
    OrderManager.executed_trades (OrderManager.self (snd out))
    = ([] ++ new)%list
    /\ (length new
        + size (OrderManager.active_breakout_orders
                  (OrderManager.self (snd out)))
        <= size ({[ "MNQ" := mnq_pair ]} : gmap string BreakoutOrders))%nat.
Proof.
  destruct (monitor_turn_shrinks_and_appends accepted_cancel scripted_status
              [("MNQ", mnq_pair)]
              (tracking_system [Return (filled_at "long_order_123" 15036);
                                Return (filled_at "long_order_123" 15036)]))
    as (new & H1 & _ & H2 & _).
  - cbn [tracking_system OrderManager.self
           OrderManager.active_breakout_orders].
    rewrite map_to_list_singleton. reflexivity.
  - exists new. split; [exact H1 | exact H2].
Defined.

(** X22: a turn in which the brokerage reports no fill (orders still
    working, or status requests that fail) changes neither the table of
    active orders nor the executed trades nor the risk manager; with a
    table that is not empty the loop goes on after its 10 seconds. *)
Theorem quiet_turn_changes_nothing {Broker : Type}
    (cancel_order_api : string -> M Broker bool)
    (get_order_status : option string -> M Broker OrderInfo)
    (items : list (string * BreakoutOrders))
    (s : OrderManager.System Broker) :
  never_filled get_order_status ->
  let out :=
    OrderManager._monitor_orders_turn cancel_order_api get_order_status
      items s in
  let before := OrderManager.active_breakout_orders (OrderManager.self s) in
  OrderManager.active_breakout_orders (OrderManager.self (snd out)) = before
  /\ OrderManager.executed_trades (OrderManager.self (snd out))
     = OrderManager.executed_trades (OrderManager.self s)
  /\ OrderManager.risk_manager (snd out) = OrderManager.risk_manager s
  /\ (before <> ∅ ->
      fst out = Return true
      /\ OrderManager.monitoring_active (OrderManager.self (snd out))
         = OrderManager.monitoring_active (OrderManager.self s)
      /\ clock (OrderManager.world (snd out))
         = (clock (OrderManager.world s) + 10)%Z).
Proof.
  intros Hquiet out before.
  destruct (_monitor_orders_turn_eq cancel_order_api get_order_status items s)
    as (symbols & new & Hscan & _ & Hlen & Ha & He & Hr & _ & Hret & Hm & Hc).
  fold out in Ha, He, Hr, Hret, Hm, Hc.
  destruct (OrderManager._monitor_orders_scan cancel_order_api
              get_order_status items s) as [r0 s0] eqn:E0.
  apply (_monitor_orders_scan_quiet _ _ _ _ _ _ Hquiet) in E0.
  destruct E0 as [-> _]. cbn [fst] in Hscan. simplify_eq.
  cbn [OrderManager.remove_symbols fold_left] in Ha, Hret, Hm, Hc.
  destruct new; [| cbn in Hlen; lia]. rewrite app_nil_r in He.
  fold before in Ha, Hret, Hm, Hc.
  split; [exact Ha |]. split; [exact He |]. split; [exact Hr |].
  intros Hfull.
  rewrite (bool_decide_eq_false_2 _ Hfull) in Hret.
  rewrite decide_False in Hm by exact Hfull.
  rewrite decide_False in Hc by exact Hfull. auto.
Qed.

(** Both orders of the MNQ pair are still working. *)
Lemma quiet_turn_changes_nothing_witness :
  let s := tracking_system [] in
  let out :=
    OrderManager._monitor_orders_turn accepted_cancel pending_status
      [("MNQ", mnq_pair)] s in
  OrderManager.active_breakout_orders (OrderManager.self (snd out))
  = OrderManager.active_breakout_orders (OrderManager.self s)
  /\ OrderManager.executed_trades (OrderManager.self (snd out)) = [].
Proof.
  destruct (quiet_turn_changes_nothing accepted_cancel pending_status
              [("MNQ", mnq_pair)] (tracking_system []))
    as (H1 & H2 & _).
  - intros id b. cbn. discriminate.
  - split; [exact H1 | exact H2].
Defined.

(** X23: a fill whose details cannot be read is lost: when the status of
    the long order comes back as filled and the request for its details,
    made next by [_handle_order_fill], raises, the turn still takes the
    symbol out of the table, although no execution has been recorded and
    the short order has been neither looked at nor cancelled (the
    brokerage is left as the two status requests left it). *)
Theorem fill_without_details_is_dropped {Broker : Type}
    (cancel_order_api : string -> M Broker bool)
    (get_order_status : option string -> M Broker OrderInfo)
    (symbol : string) (orders : BreakoutOrders) (id : string)
    (s : OrderManager.System Broker)
    (order_status : OrderInfo) (b1 : Broker) (e : exn) :
  long_order_id orders = Some id ->
  id <> "" ->
  get_order_status (Some id) (OrderManager.api s)
  = (Return order_status, b1) ->
  oi_status order_status = "filled" ->
  fst (get_order_status (Some id) b1) = Raise e ->
  let out :=
    OrderManager._monitor_orders_turn cancel_order_api get_order_status
      [(symbol, orders)] s in
  OrderManager.executed_trades (OrderManager.self (snd out))
  = OrderManager.executed_trades (OrderManager.self s)
  /\ OrderManager.active_breakout_orders (OrderManager.self (snd out))
     = delete symbol
         (OrderManager.active_breakout_orders (OrderManager.self s))
  /\ OrderManager.api (snd out) = snd (get_order_status (Some id) b1).
Proof.
  intros Hlong Hid Hstatus Hfilled Hdetails out. unfold out.
  unfold OrderManager._monitor_orders_turn.
  cbn [OrderManager._monitor_orders_scan].
  unfold OrderManager._monitor_orders_body.
  rewrite Hlong, (truthy_some id Hid).
  unfold OrderManager._check_order_status, OrderManager._handle_order_fill.
  cbn [String.eqb Ascii.eqb Bool.eqb]. rewrite Hlong.
  unfold OrderManager.sleep, OrderManager.logger, try_except, bind,
    OrderManager.call_api, zoom, gets, modify, ret.
  rewrite Hstatus. cbn [fst snd OrderManager.set_api OrderManager.api].
  rewrite Hfilled. cbn [String.eqb Ascii.eqb Bool.eqb].
  cbn [fst snd OrderManager.set_api OrderManager.api].
  destruct (get_order_status (Some id) b1) as [r2 b2].
  cbn [fst] in Hdetails. subst r2.
  cbn [fst snd OrderManager.set_api OrderManager.api OrderManager.self
         OrderManager.on_world OrderManager.on_self OrderManager.set_active
         OrderManager.active_breakout_orders OrderManager.remove_symbols
         fold_left].
  destruct (decide (delete symbol
                      (OrderManager.active_breakout_orders
                         (OrderManager.self s)) = ∅));
    cbn; repeat split; reflexivity.
Qed.

(** The long order of the MNQ pair is reported filled, then the request
    for its details times out: MNQ is no longer tracked and no execution
    is on record. *)
Lemma fill_without_details_is_dropped_witness :
  let out :=
    OrderManager._monitor_orders_turn accepted_cancel scripted_status
      [("MNQ", mnq_pair)]
      (tracking_system [Return (filled_at "long_order_123" 15036);
                        Raise (AlpacaAPIError "timeout")]) in
  OrderManager.executed_trades (OrderManager.self (snd out)) = []
  /\ OrderManager.active_breakout_orders (OrderManager.self (snd out))
     = delete "MNQ" {[ "MNQ" := mnq_pair ]}.
Proof.
  destruct (fill_without_details_is_dropped accepted_cancel scripted_status
              "MNQ" mnq_pair "long_order_123"
              (tracking_system [Return (filled_at "long_order_123" 15036);
                                Raise (AlpacaAPIError "timeout")])
              (filled_at "long_order_123" 15036)
              [Raise (AlpacaAPIError "timeout")]
              (AlpacaAPIError "timeout"))
    as (H1 & H2 & _).
  - reflexivity.
  - discriminate.
  - reflexivity.
  - reflexivity.
  - reflexivity.
  - split; [exact H1 | exact H2].
Defined.

(** ** Order manager and risk manager together *)

(** X24: an exit reported for a symbol that has an execution on record is
    counted by the risk manager of the bot: [on_trade_exit] returns, the
    order manager's own books are untouched, [get_daily_trade_count]
    answers one more than the day's count (one, if the day has just
    changed), the day's P&L has moved by [pnl], and the last entry of the
    trade history carries the quantity and the entry price of the first
    execution recorded for the symbol. *)
Theorem on_trade_exit_counts_the_trade {Broker : Type}
    (symbol : string) (exit_price pnl : Q) (s : OrderManager.System Broker)
    (before after : list TradeExecution) (trade : TradeExecution) :
  OrderManager.executed_trades (OrderManager.self s)
  = (before ++ trade :: after)%list ->
  Forall (fun t => te_symbol t <> symbol) before ->
  te_symbol trade = symbol ->
  let out :=
    OrderManager.on_trade_exit RiskManager.record_trade_result
      symbol exit_price pnl s in
  fst out = Return tt
  /\ OrderManager.self (snd out) = OrderManager.self s
  /\ fst (OrderManager.get_daily_trade_count (snd out))
     = Return (tradesToday (OrderManager.ledger s) + 1)%Z
  /\ RiskManager.daily_pnl (OrderManager.risk_manager (snd out))
     = dailyPnl (OrderManager.ledger s) + pnl
  /\ last (RiskManager.trade_history (OrderManager.risk_manager (snd out)))
     = Some {| tr_timestamp := clock (OrderManager.world s);
               tr_pnl := pnl;
               tr_symbol := symbol;
               tr_quantity := te_quantity trade;
               tr_entry_price := te_entry_price trade;
               tr_exit_price := exit_price |}.
Proof.
  intros Hsplit Hbefore Htrade out.
  assert (Hout :
    out = (Return tt,
           OrderManager.on_world (emit INFO "Trade exit recorded")
             (OrderManager.set_ledger
                (recorded pnl symbol (te_quantity trade)
                   (te_entry_price trade) exit_price
                   (rollover (OrderManager.ledger s))) s))).
  { unfold out, OrderManager.on_trade_exit, try_except, bind, gets.
    rewrite Hsplit.
    rewrite (on_trade_exit_loop_first RiskManager.record_trade_result symbol
               exit_price pnl before after trade s Hbefore Htrade).
    unfold bind, OrderManager.call_risk_manager, zoom, OrderManager.logger,
      modify.
    rewrite record_trade_result_eq. reflexivity. }
  rewrite Hout.
  unfold OrderManager.get_daily_trade_count, gets.
  cbn [fst snd OrderManager.on_world OrderManager.set_ledger
         OrderManager.self OrderManager.risk_manager].
  destruct (rollover_self (OrderManager.ledger s))
    as (_ & Hp & Ht & _ & _ & Hc & _).
  destruct (recorded_self pnl symbol (te_quantity trade)
              (te_entry_price trade) exit_price
              (rollover (OrderManager.ledger s))) as (Rp & Rt & Rh & _).
  rewrite Rp, Rt, Rh, Hp, Ht, Hc, last_snoc.
  repeat split; reflexivity.
Qed.

(** After the two fills on MNQ, the exit at 15150 is the first trade of
    the day, recorded with the 4 contracts of the first fill. *)
Lemma on_trade_exit_counts_the_trade_witness :
  let out :=
    OrderManager.on_trade_exit RiskManager.record_trade_result
      "MNQ" 15150 150 (system_with [first_fill; second_fill]) in
  fst (OrderManager.get_daily_trade_count (snd out)) = Return 1%Z
  /\ option_map tr_quantity
       (last (RiskManager.trade_history
                (OrderManager.risk_manager (snd out))))
     = Some 4%Z.
Proof.
  destruct (on_trade_exit_counts_the_trade (Broker := unit)
              "MNQ" 15150 150 (system_with [first_fill; second_fill])
              [] [second_fill] first_fill)
    as (_ & _ & H1 & _ & H2).
  - reflexivity.
  - constructor.
  - reflexivity.
  - split; [rewrite H1; reflexivity | rewrite H2; reflexivity].
Defined.

(** ** The retry wrapper *)

Section RetryLoop.

Import AlpacaAPI.

Context {R A : Type}.
Variable func : R -> Attempt A * R.
Variable max_retries : Z.

(** Whatever the wrapped function raises, the loop raises
    [AlpacaAPIError] only. *)
Lemma _retry_loop_raises (remaining : nat) :
  forall (attempt : Z) (last_exception : string) (c : Connection R),
    match fst (_retry_loop func remaining attempt max_retries
                 last_exception c) with
    | Return _ => True
    | Raise e => exists msg, e = AlpacaAPIError msg
    end.
Proof.
  induction remaining as [| remaining IH]; intros attempt last_exception c.
  - cbn. eauto.
  - cbn [_retry_loop]. unfold bind, logger, sleep, modify, call.
    cbn [remote slept api_log].
    destruct (func (remote c)) as [[a | status_code msg | msg] r'].
    + destruct (0 <? attempt)%Z; cbn; exact I.
    + destruct (_is_retryable_error status_code msg
                && (attempt <? max_retries - 1)%Z).
      * apply IH.
      * cbn beta iota. destruct (attempt =? max_retries - 1)%Z.
        -- cbn. eauto.
        -- apply IH.
    + cbn beta iota. destruct (attempt =? max_retries - 1)%Z.
      * cbn. eauto.
      * apply IH.
Qed.

(** The induction hypothesis at the next attempt of the loop. *)
Ltac next_attempt IH Hi :=
  cbn beta iota; cbn [remote slept api_log snd];
  match goal with
  | |- context [_retry_loop _ _ ?attempt' _ ?msg ?x] =>
      pose proof (IH attempt' msg x) as Hi; cbv zeta in Hi;
      cbn [remote slept api_log snd] in Hi
  end.

(** The time slept from [attempt] on. *)
Lemma _retry_loop_slept (remaining : nat) :
  forall (attempt : Z) (last_exception : string) (c : Connection R),
    (0 <= attempt)%Z ->
    max_retries = (attempt + Z.of_nat remaining)%Z ->
    let c' := snd (_retry_loop func remaining attempt max_retries
                     last_exception c) in
    (slept c <= slept c'
     <= slept c + Z.max 0 (2 ^ (max_retries - 1) - 2 ^ attempt))%Z.
Proof.
  induction remaining as [| remaining IH];
    intros attempt last_exception c Hattempt Hmax c'; unfold c'.
  - cbn. lia.
  - assert (Hnext : max_retries = (attempt + 1 + Z.of_nat remaining)%Z) by lia.
    assert (Hpow : (0 < 2 ^ attempt)%Z) by (apply Z.pow_pos_nonneg; lia).
    assert (Hsucc : (2 ^ (attempt + 1) = 2 * 2 ^ attempt)%Z)
      by (rewrite Z.pow_add_r by lia; lia).
    assert (Hlater : (attempt <> max_retries - 1 ->
                      2 ^ (attempt + 1) <= 2 ^ (max_retries - 1))%Z)
      by (intros; apply Z.pow_le_mono_r; lia).
    cbn [_retry_loop]. unfold bind, logger, sleep, modify, call.
    cbn [remote slept api_log].
    destruct (func (remote c)) as [[a | status_code msg | msg] r'].
    + destruct (0 <? attempt)%Z; cbn; lia.
    + destruct (_is_retryable_error status_code msg
                && (attempt <? max_retries - 1)%Z) eqn:Hretry.
      * apply andb_true_iff in Hretry. destruct Hretry as [_ Hlt].
        apply Z.ltb_lt in Hlt.
        next_attempt IH Hi. specialize (Hi ltac:(lia) Hnext).
        specialize (Hlater ltac:(lia)). lia.
      * cbn beta iota. destruct (Z.eqb_spec attempt (max_retries - 1)) as [| Hne].
        -- cbn. lia.
        -- next_attempt IH Hi. specialize (Hi ltac:(lia) Hnext).
           specialize (Hlater Hne). lia.
    + cbn beta iota. destruct (Z.eqb_spec attempt (max_retries - 1)) as [| Hne].
      * cbn. lia.
      * next_attempt IH Hi. specialize (Hi ltac:(lia) Hnext).
        specialize (Hlater Hne). lia.
Qed.

(** The calls made from [attempt] on. *)
Lemma _retry_loop_calls (remaining : nat) :
  forall (attempt : Z) (last_exception : string) (c c' : Connection (R * nat))
         (r : Res A),
    _retry_loop (counted func) remaining attempt max_retries last_exception c
    = (r, c') ->
    (snd (remote c) <= snd (remote c') <= snd (remote c) + remaining)%nat
    /\ (forall a, r = Return a -> (snd (remote c) < snd (remote c'))%nat).
Proof.
  induction remaining as [| remaining IH];
    intros attempt last_exception c c' r.
  - cbn [_retry_loop]. unfold raise. intros H. simplify_eq.
    split; [lia | discriminate].
  - cbn [_retry_loop]. unfold bind, logger, sleep, modify, call, raise, ret.
    cbn [remote slept api_log]. unfold counted at 1.
    destruct (remote c) as [r0 calls]. cbn [snd].
    destruct (func r0) as [[a | status_code msg | msg] r'].
    + destruct (0 <? attempt)%Z; cbn; intros H; simplify_eq; cbn;
        split; intros; lia.
    + destruct (_is_retryable_error status_code msg
                && (attempt <? max_retries - 1)%Z).
      * cbn beta iota. intros H. apply IH in H. cbn [remote snd] in H.
        destruct H as [Hi Hr].
        split; [lia |]. intros a Ha. specialize (Hr a Ha). lia.
      * cbn beta iota. destruct (attempt =? max_retries - 1)%Z.
        -- cbn. intros H. simplify_eq. cbn. split; [lia | discriminate].
        -- intros H. apply IH in H. cbn [remote snd] in H.
           destruct H as [Hi Hr].
           split; [lia |]. intros a Ha. specialize (Hr a Ha). lia.
    + cbn beta iota. destruct (attempt =? max_retries - 1)%Z.
      * cbn. intros H. simplify_eq. cbn. split; [lia | discriminate].
      * intros H. apply IH in H. cbn [remote snd] in H.
        destruct H as [Hi Hr].
        split; [lia |]. intros a Ha. specialize (Hr a Ha). lia.
Qed.

(** A client error that is not a rate limit: the loop goes through all
    its attempts without sleeping. *)
Lemma _retry_loop_client_error (code : Z) (msg : string) (remaining : nat) :
  (400 <= code < 500)%Z -> code <> 429%Z ->
  (forall r, fst (func r) = APIError (Some code) msg) ->
  forall (attempt : Z) (last_exception : string) (c c' : Connection (R * nat))
         (r : Res A),
    max_retries = (attempt + Z.of_nat remaining)%Z ->
    _retry_loop (counted func) remaining attempt max_retries
      last_exception c = (r, c') ->
    (remaining <> 0%nat ->
     r = Raise (AlpacaAPIError ("API call failed: " ++ msg)))
    /\ snd (remote c') = (snd (remote c) + remaining)%nat
    /\ slept c' = slept c.
Proof.
  intros Hcode Hrate Hfunc.
  assert (Hno : _is_retryable_error (Some code) msg = false).
  { unfold _is_retryable_error.
    destruct (Z.leb_spec 500 code); [lia |].
    destruct (Z.eqb_spec code 429); [lia |].
    destruct (Z.leb_spec 400 code); [| lia].
    destruct (Z.ltb_spec code 500); [| lia]. reflexivity. }
  induction remaining as [| remaining IH];
    intros attempt last_exception c c' r Hmax.
  - cbn [_retry_loop]. unfold raise. intros H. simplify_eq.
    split; [congruence |]. split; [lia | reflexivity].
  - cbn [_retry_loop]. unfold bind, logger, sleep, modify, call, raise, ret.
    cbn [remote slept api_log]. unfold counted at 1.
    destruct (remote c) as [r0 calls]. cbn [snd].
    specialize (Hfunc r0) as Hf. destruct (func r0) as [answer r'].
    cbn [fst] in Hf. subst answer. rewrite Hno. cbn [andb]. cbn beta iota.
    destruct (Z.eqb_spec attempt (max_retries - 1)) as [Hlast | Hne].
    + intros H. simplify_eq. cbn [remote slept snd].
      assert (remaining = 0%nat) by lia. subst remaining.
      split; [reflexivity |]. split; [lia | reflexivity].
    + intros H. apply IH in H; [| lia]. cbn [remote slept snd] in H.
      destruct H as (Hr & Hcalls & Hslept).
      split; [intros _; apply Hr; lia |]. split; [lia | exact Hslept].
Qed.

End RetryLoop.

(** X25: [_retry_api_call] calls the wrapped function at most
    [max_retries] times, and at least once before it returns an answer;
    whatever the wrapped function raises, the only exception that leaves
    the wrapper is [AlpacaAPIError].  In particular with
    [max_retries <= 0] the function is not called and the wrapper
    raises. *)
Theorem retry_attempts_bounded {R A : Type} (func : R -> Attempt A * R)
    (max_retries : Z) (c : Connection (R * nat)) :
  let out := AlpacaAPI._retry_api_call (counted func) max_retries c in
  let calls_before := snd (remote c) in
  let calls_after := snd (remote (snd out)) in
  (calls_before <= calls_after <= calls_before + Z.to_nat max_retries)%nat
  /\ match fst out with
     | Return _ => (calls_before < calls_after)%nat
     | Raise e => exists msg, e = AlpacaAPIError msg
     end.
Proof.
  intros out calls_before calls_after.
  pose proof (_retry_loop_raises (counted func) max_retries
                (Z.to_nat max_retries) 0 "None" c) as Hraise.
  unfold calls_before, calls_after, out, AlpacaAPI._retry_api_call in *.
  destruct (AlpacaAPI._retry_loop (counted func) (Z.to_nat max_retries) 0
              max_retries "None" c) as [r c'] eqn:E.
  apply _retry_loop_calls in E. destruct E as [Hcalls Hret].
  cbn [fst snd] in *. split; [exact Hcalls |].
  destruct r as [a | e]; [exact (Hret a eq_refl) | exact Hraise].
Qed.

(** X26: the time [_retry_api_call] spends sleeping between its attempts
    is at most [2^(max_retries-1) - 1] seconds (3 seconds for the default
    of three attempts, 1 second for the two attempts of the order calls),
    whatever the wrapped function does. *)
Theorem retry_sleep_bounded {R A : Type} (func : R -> Attempt A * R)
    (max_retries : Z) (c : Connection R) :
  (1 <= max_retries)%Z ->
  let out := AlpacaAPI._retry_api_call func max_retries c in
  (slept c <= slept (snd out) <= slept c + (2 ^ (max_retries - 1) - 1))%Z.
Proof.
  intros Hmax out.
  pose proof (_retry_loop_slept func max_retries (Z.to_nat max_retries)
                0 "None" c ltac:(lia) ltac:(lia)) as H.
  cbv zeta in H. fold (AlpacaAPI._retry_api_call func max_retries c) in H.
  fold out in H.
  assert (Hpow : (1 <= 2 ^ (max_retries - 1))%Z).
  { change 1%Z with (2 ^ 0)%Z at 1. apply Z.pow_le_mono_r; lia. }
  change (2 ^ 0)%Z with 1%Z in H. lia.
Qed.

(** Three attempts against a service that is down: at most 3 seconds are
    slept. *)
Lemma retry_sleep_bounded_witness :
  (slept (snd (AlpacaAPI._retry_api_call
                 (always_rejects 503 "service unavailable") 3
                 (fresh_connection tt)))
   <= 3)%Z.
Proof.
  destruct (retry_sleep_bounded (always_rejects 503 "service unavailable")
              3 (fresh_connection tt)) as [_ H].
  - lia.
  - exact H.
Defined.

(** X27: a client error is not given up on: when every call is answered
    with an API error whose status code is a 4xx other than 429, which
    [_is_retryable_error] classifies as not retryable whatever its
    message, the wrapper still calls the function [max_retries] times,
    one call right after the other without any sleep, before it raises
    [AlpacaAPIError]. *)
Theorem client_error_is_retried_at_once {R A : Type}
    (func : R -> Attempt A * R) (code : Z) (msg : string)
    (max_retries : Z) (c : Connection (R * nat)) :
  (400 <= code < 500)%Z ->
  code <> 429%Z ->
  (1 <= max_retries)%Z ->
  (forall r, fst (func r) = APIError (Some code) msg) ->
  let out := AlpacaAPI._retry_api_call (counted func) max_retries c in
  AlpacaAPI._is_retryable_error (Some code) msg = false
  /\ fst out = Raise (AlpacaAPIError ("API call failed: " ++ msg))
  /\ snd (remote (snd out)) = (snd (remote c) + Z.to_nat max_retries)%nat
  /\ slept (snd out) = slept c.
Proof.
  intros Hcode Hrate Hmax Hfunc out.
  split.
  { unfold AlpacaAPI._is_retryable_error.
    destruct (Z.leb_spec 500 code); [lia |].
    destruct (Z.eqb_spec code 429); [lia |].
    destruct (Z.leb_spec 400 code); [| lia].
    destruct (Z.ltb_spec code 500); [| lia]. reflexivity. }
  unfold out, AlpacaAPI._retry_api_call.
  destruct (AlpacaAPI._retry_loop (counted func) (Z.to_nat max_retries) 0
              max_retries "None" c) as [r c'] eqn:E.
  apply (_retry_loop_client_error func max_retries code msg
           (Z.to_nat max_retries) Hcode Hrate Hfunc) in E; [| lia].
  destruct E as (Hr & Hcalls & Hslept). cbn [fst snd].
  split; [apply Hr; lia |]. split; [exact Hcalls | exact Hslept].
Qed.

(** An order refused with status 403, under the two attempts of
    [submit_order]: the order is sent twice. *)
Lemma client_error_is_retried_at_once_witness :
  let out :=
    AlpacaAPI._retry_api_call (counted (always_rejects 403 "forbidden")) 2
      (fresh_connection (tt, 0%nat)) in
  fst out = Raise (AlpacaAPIError "API call failed: forbidden")
  /\ snd (remote (snd out)) = 2%nat.
Proof.
  destruct (client_error_is_retried_at_once (A := unit)
              (always_rejects 403 "forbidden") 403 "forbidden" 2
              (fresh_connection (tt, 0%nat)))
    as (_ & H1 & H2 & _).
  - lia.
  - discriminate.
  - lia.
  - intros r. reflexivity.
  - split; [exact H1 | exact H2].
Defined.
